(** * k8sutil/apply: kubectl-style apply over the dynamic client

    A shallow embedding of [src/apply/apply.go] and the properties of its
    batch coordinator ([Apply]), document decoder ([Decode]), per-object
    orchestrator ([ApplyUnstructured]) and patch strategy selector
    ([Patch]).

    Conventions of the embedding.
    - An [unstructured.Unstructured] is a Go struct holding one map.  Go maps
      are references, so copying the struct (passing it by value, ranging
      over a slice) shares the map: the maps live in a store ([heap]) and the
      struct holds a location.
    - Go code that can dereference nil runs in the monad [M], whose outcome
      is either a return value or a panic; the monad also threads the store
      and the log of requests sent to the dynamic client.
    - The collaborators (discovery, the dynamic client, the codecs, the type
      registry, the merge libraries and the helpers of package [util]) are
      parameters; the functions of [apply.go] are written over them.
    - [klog] calls only read their arguments and are left out. *)

From Stdlib Require Import Ascii String.
From stdpp Require Import base option gmap strings list fin_maps pretty.

Set Warnings "-register-all".
Set Default Proof Using "Type".
Local Open Scope string_scope.

(** ** Go values *)

(** [[]byte] and [string] convert into each other without change in Go; both
    are strings here. *)
Abbreviation bytes := string.

Definition len (s : string) : nat := String.length s.

Definition newline : string := String (Ascii.ascii_of_nat 10) EmptyString.

(** A decoded JSON or YAML document, the [interface{}] values stored in an
    [Unstructured]: [map[string]interface{}], [[]interface{}] and scalars. *)
Inductive JSON :=
| JNull
| JBool (b : bool)
| JNum (n : Z)
| JStr (s : string)
| JArr (l : list JSON)
| JObj (m : gmap string JSON).

(** ** Errors *)

Inductive StatusReason :=
| StatusReasonUnknown
| StatusReasonNotFound
| StatusReasonOther (reason : string).

(** The dynamic types of [error] that the code tells apart: the sentinel
    [io.EOF], [*errors.StatusError] of the API machinery, the registry's
    [notRegisteredErr], [mergepatch.ErrPreconditionFailed], and plain errors
    made by [fmt.Errorf] or [errors.New]. A nil [error] is [None]. *)
Inductive error :=
| io_EOF
| StatusError (code : Z) (reason : StatusReason) (message : string)
| notRegisteredErr (message : string)
| ErrPreconditionFailed (message : string)
| errorString (message : string).

Definition Error (e : error) : string :=
  match e with
  | io_EOF => "EOF"
  | StatusError _ _ m => m
  | notRegisteredErr m => m
  | ErrPreconditionFailed m => m
  | errorString m => m
  end.

(** [%v] applied to an [error] that may be nil. *)
Definition fmt_v (err : option error) : string :=
  match err with
  | Some e => Error e
  | None => "<nil>"
  end.

(** [err == io.EOF] *)
Definition is_EOF (err : option error) : bool :=
  match err with
  | Some io_EOF => true
  | _ => false
  end.

(** [errors.IsNotFound] *)
Definition errors_IsNotFound (err : error) : bool :=
  match err with
  | StatusError _ StatusReasonNotFound _ => true
  | StatusError code StatusReasonUnknown _ => bool_decide (code = 404%Z)
  | _ => false
  end.

(** [runtime.IsNotRegisteredError], on a non-nil error *)
Definition runtime_IsNotRegisteredError (err : error) : bool :=
  match err with
  | notRegisteredErr _ => true
  | _ => false
  end.

(** [mergepatch.IsPreconditionFailed] *)
Definition mergepatch_IsPreconditionFailed (err : error) : bool :=
  match err with
  | ErrPreconditionFailed _ => true
  | _ => false
  end.

Definition http_StatusUnsupportedMediaType : Z := 415.

(** apply.go:289 *)
Definition isIncompatibleServerError (err : error) : bool :=
  match err with
  | StatusError code _ _ => bool_decide (code = http_StatusUnsupportedMediaType)
  | _ => false
  end.

(** A call that returns [(T, error)] and whose value is only looked at when
    the error is nil. *)
Inductive result (A : Type) :=
| Ok (a : A)
| Err (e : error).
Arguments Ok {A} a.
Arguments Err {A} e.

(** ** Schema identifiers *)

Record GroupVersionKind :=
  GVK { gvk_Group : string; gvk_Version : string; gvk_Kind : string }.
Record GroupKind := GK { gk_Group : string; gk_Kind : string }.
Record GroupVersionResource :=
  GVR { gvr_Group : string; gvr_Version : string; gvr_Resource : string }.

Definition gvk_GroupKind (gvk : GroupVersionKind) : GroupKind :=
  GK (gvk_Group gvk) (gvk_Kind gvk).

(** [GroupVersionKind.String], what [%v] prints. *)
Definition gvk_String (gvk : GroupVersionKind) : string :=
  gvk_Group gvk +:+ "/" +:+ gvk_Version gvk +:+ ", Kind=" +:+ gvk_Kind gvk.

Inductive RESTScopeName := RESTScopeNameNamespace | RESTScopeNameRoot.

Record RESTMapping := {
  Resource : GroupVersionResource;
  Scope : RESTScopeName
}.

(** [meta.RESTMapper], used through [RESTMapping(gk, version)] only. *)
Definition RESTMapper := GroupKind → string → result RESTMapping.

Inductive PatchType :=
| JSONPatchType
| MergePatchType
| StrategicMergePatchType
| ApplyPatchType.

Record PatchOptions := {
  FieldManager : string;
  Force : option bool
}.

(** [metav1.PatchOptions{}] *)
Definition PatchOptions_zero : PatchOptions :=
  {| FieldManager := ""; Force := None |}.

Definition LastAppliedConfigAnnotation : string :=
  "kubectl.kubernetes.io/last-applied-configuration".

(** ** The dynamic client *)

(** [dynamic.ResourceInterface]: the resource handle, narrowed to a namespace
    by [.Namespace(ns)] or left cluster-wide. *)
Record ResourceInterface := {
  dri_resource : GroupVersionResource;
  dri_namespace : option string
}.

Definition dynamic_Resource (r : GroupVersionResource) : ResourceInterface :=
  {| dri_resource := r; dri_namespace := None |}.

Definition dynamic_Namespace (dri : ResourceInterface) (ns : string) : ResourceInterface :=
  {| dri_resource := dri_resource dri; dri_namespace := Some ns |}.

(** A request as it reaches the transport. [ReqCreate] carries the object as
    it is when the call is made. *)
Inductive Request :=
| ReqGet (dri : ResourceInterface) (name : string)
| ReqCreate (dri : ResourceInterface) (obj : gmap string JSON)
| ReqPatch (dri : ResourceInterface) (name : string) (pt : PatchType)
           (data : bytes) (opts : PatchOptions).

(** A [*unstructured.Unstructured] handed out by the client: nil, or a fresh
    object (carried as a value). *)
Abbreviation LiveObject := (option (gmap string JSON)).

(** [dynamic.Interface]. Any implementation is allowed: an answer may depend
    on the requests served so far, and it is the pair the Go signature
    returns. *)
Record Interface := {
  client_Get : list Request → ResourceInterface → string → LiveObject * option error;
  client_Create : list Request → ResourceInterface → gmap string JSON → LiveObject * option error;
  client_Patch : list Request → ResourceInterface → string → PatchType → bytes → PatchOptions →
                 LiveObject * option error
}.

(** [discovery.DiscoveryInterface], through what
    [restmapper.GetAPIGroupResources] obtains from it. *)
Record DiscoveryInterface := {
  GetAPIGroupResources : result RESTMapper
}.

(** ** Store, request log and panics *)

Definition loc := positive.

Record Unstructured := { Object : option loc }.

Record State := {
  heap : gmap loc (gmap string JSON);
  requests : list Request
}.

Inductive Outcome (A : Type) :=
| Returns (a : A) (σ : State)
| Panics (σ : State).
Arguments Returns {A} a σ.
Arguments Panics {A} σ.

Definition M (A : Type) : Type := State → Outcome A.

#[global] Instance M_ret : MRet M := λ A a σ, Returns a σ.
#[global] Instance M_bind : MBind M := λ A B f m σ,
  match m σ with
  | Returns a σ' => f a σ'
  | Panics σ' => Panics σ'
  end.

(** runtime error: invalid memory address or nil pointer dereference *)
Definition panic {A} : M A := λ σ, Panics σ.

Definition gets {A} (f : State → A) : M A := λ σ, Returns (f σ) σ.

Definition store (l : loc) (m : gmap string JSON) : M () := λ σ,
  Returns () {| heap := <[l := m]> (heap σ); requests := requests σ |}.

(** [make(map[string]interface{})] *)
Definition alloc (m : gmap string JSON) : M loc := λ σ,
  let l := fresh (dom (heap σ)) in
  Returns l {| heap := <[l := m]> (heap σ); requests := requests σ |}.

Definition send (r : Request) : M () := λ σ,
  Returns () {| heap := heap σ; requests := (requests σ ++ [r])%list |}.

(** ** Nested fields of a document (apimachinery, unstructured/helpers.go) *)

(** [NestedFieldNoCopy]: the value under a path of keys. [None] covers both
    "not found" and "a non-map on the way", which the callers below treat
    alike. *)
Fixpoint NestedFieldNoCopy (obj : gmap string JSON) (fields : list string) : option JSON :=
  match fields with
  | [] => Some (JObj obj)
  | [field] => obj !! field
  | field :: rest =>
      match obj !! field with
      | Some (JObj m) => NestedFieldNoCopy m rest
      | _ => None
      end
  end.

Definition getNestedString (obj : gmap string JSON) (fields : list string) : string :=
  match NestedFieldNoCopy obj fields with
  | Some (JStr s) => s
  | _ => ""
  end.

Definition as_string (v : JSON) : option string :=
  match v with
  | JStr s => Some s
  | _ => None
  end.

(** [NestedStringMap]: a copy of the map under the path; nil when the path
    is absent, is not a map, or holds a value that is not a string. *)
Definition NestedStringMap (obj : gmap string JSON) (fields : list string)
  : option (gmap string string) :=
  match NestedFieldNoCopy obj fields with
  | Some (JObj m) =>
      if bool_decide (map_Forall (λ _ v, is_Some (as_string v)) m)
      then Some (omap as_string m)
      else None
  | _ => None
  end.

(** [setNestedFieldNoCopy]: maps missing on the way are created; a non-map on
    the way is an error, which the setters of [Unstructured] drop, and the
    document stays as it was. *)
Fixpoint setNestedFieldNoCopy (obj : gmap string JSON) (value : JSON)
    (fields : list string) : gmap string JSON :=
  match fields with
  | [] => obj
  | [field] => <[field := value]> obj
  | field :: rest =>
      match obj !! field with
      | Some (JObj m) => <[field := JObj (setNestedFieldNoCopy m value rest)]> obj
      | Some _ => obj
      | None => <[field := JObj (setNestedFieldNoCopy ∅ value rest)]> obj
      end
  end.

Fixpoint RemoveNestedField (obj : gmap string JSON) (fields : list string)
  : gmap string JSON :=
  match fields with
  | [] => obj
  | [field] => delete field obj
  | field :: rest =>
      match obj !! field with
      | Some (JObj m) => <[field := JObj (RemoveNestedField m rest)]> obj
      | _ => obj
      end
  end.

(** ** Methods of [*unstructured.Unstructured] *)

(** The map behind [u.Object]; reading a nil map finds nothing. *)
Definition contents (u : Unstructured) (σ : State) : option (gmap string JSON) :=
  l ← Object u; heap σ !! l.

Definition fields_of (u : Unstructured) (σ : State) : gmap string JSON :=
  default ∅ (contents u σ).

Definition GetName (u : Unstructured) (σ : State) : string :=
  getNestedString (fields_of u σ) ["metadata"; "name"].

Definition GetGenerateName (u : Unstructured) (σ : State) : string :=
  getNestedString (fields_of u σ) ["metadata"; "generateName"].

Definition GetNamespace (u : Unstructured) (σ : State) : string :=
  getNestedString (fields_of u σ) ["metadata"; "namespace"].

Definition GetAnnotations (u : Unstructured) (σ : State) : option (gmap string string) :=
  NestedStringMap (fields_of u σ) ["metadata"; "annotations"].

(** The same getters on an object the client returned. *)
Definition live_GetName (obj : gmap string JSON) : string :=
  getNestedString obj ["metadata"; "name"].

Definition live_GetKind (obj : gmap string JSON) : string :=
  getNestedString obj ["kind"].

Definition live_GetAnnotations (obj : gmap string JSON) : option (gmap string string) :=
  NestedStringMap obj ["metadata"; "annotations"].

(** [u.setNestedField]: a nil [u.Object] is replaced by a new map in the
    struct the receiver points to; otherwise the shared map is written. *)
Definition setNestedField (u : Unstructured) (value : JSON) (fields : list string)
  : M Unstructured :=
  match Object u with
  | None =>
      l ← alloc (setNestedFieldNoCopy ∅ value fields);
      mret {| Object := Some l |}
  | Some l =>
      m ← gets (fields_of u);
      store l (setNestedFieldNoCopy m value fields);;
      mret u
  end.

(** [RemoveNestedField(u.Object, ...)]: deleting from a nil map does
    nothing. *)
Definition removeNestedField (u : Unstructured) (fields : list string) : M () :=
  match Object u with
  | None => mret ()
  | Some l =>
      m ← gets (fields_of u);
      store l (RemoveNestedField m fields)
  end.

Definition SetNamespace (u : Unstructured) (namespace : string) : M Unstructured :=
  if bool_decide (len namespace = 0)
  then removeNestedField u ["metadata"; "namespace"];; mret u
  else setNestedField u (JStr namespace) ["metadata"; "namespace"].

Definition SetAnnotations (u : Unstructured) (annotations : option (gmap string string))
  : M Unstructured :=
  match annotations with
  | None => removeNestedField u ["metadata"; "annotations"];; mret u
  | Some a => setNestedField u (JObj (JStr <$> a)) ["metadata"; "annotations"]
  end.

(** [u.SetManagedFields(nil)], the only call the program makes. *)
Definition SetManagedFields_nil (u : Unstructured) : M () :=
  removeNestedField u ["metadata"; "managedFields"].

(** ** [meta.Accessor] *)

(** What the program stores in the [interface{}] argument of
    [meta.Accessor]: an [Unstructured] struct (apply.go:129) or a
    [*Unstructured] (apply.go:205). *)
Inductive AccessorArg :=
| StructValue (u : Unstructured)
| Pointer (p : LiveObject).

Definition errNotObject : error := errorString "object does not implement the Object interfaces".

(** [meta.Accessor] type-switches on [metav1.Object]. The methods of
    [Unstructured] all have pointer receivers, so only [*Unstructured] is in
    the interface: a struct value falls to the default case,
    [(nil, errNotObject)]. The [metav1.Object] returned is nil ([None]) or
    holds the pointer. *)
Definition meta_Accessor (obj : AccessorArg) : option LiveObject * option error :=
  match obj with
  | StructValue _ => (None, Some errNotObject)
  | Pointer p => (Some p, None)
  end.

(** A method call on the [metav1.Object]: nil interface and nil pointer both
    panic; [f] is the getter on the object's map. *)
Definition metav1_call {A} (metadata : option LiveObject) (f : gmap string JSON → A) : M A :=
  match metadata with
  | Some (Some obj) => mret (f obj)
  | _ => panic
  end.

(** A method call on a [*Unstructured] the client returned. *)
Definition live_call {A} (object : LiveObject) (f : gmap string JSON → A) : M A :=
  match object with
  | Some obj => mret (f obj)
  | None => panic
  end.

(** ** Collaborators *)

(** [mergepatch.PreconditionFunc] *)
Definition PreconditionFunc := JSON → bool.

(** [mergepatch.RequireKeyUnchanged]: the key must not occur at the top of
    the patch. *)
Definition mergepatch_RequireKeyUnchanged (key : string) : PreconditionFunc := λ patch,
  match patch with
  | JObj patchMap => bool_decide (patchMap !! key = None)
  | _ => true
  end.

(** The libraries the program calls and the parts of this repository that are
    not in [apply.go] (package [util] and the package variable [Scheme]),
    taken as parameters. *)
Record Libraries := {
  (** the type the registry instantiates, and the merge directives read
      from it *)
  VersionedObject : Type;
  PatchMeta : Type;
  (** [UnstructuredJSONScheme.Encode], behind [MarshalJSON]; the argument is
      the object's map, nil included *)
  json_Marshal : option (gmap string JSON) → result bytes;
  (** [yaml.NewDecodingSerializer(UnstructuredJSONScheme).Decode(raw, nil, nil)] *)
  serializer_Decode : bytes → result (gmap string JSON * GroupVersionKind);
  (** [yamlutil.NewYAMLOrJSONDecoder(data, 500)]: what the successive calls
      of its [Decode] return before the stream ends with [io.EOF] *)
  yaml_documents : bytes → list (result bytes);
  (** [%v] applied to a [*Unstructured] *)
  fmt_v_object : LiveObject → string;
  util_ConvertSingleObjectToUnstructured : gmap string JSON → result (gmap string JSON);
  util_GetModifiedConfiguration : gmap string JSON → bool → result bytes;
  util_GetOriginalConfiguration : gmap string JSON → result bytes;
  Scheme_New : GroupVersionKind → result VersionedObject;
  (** [jsonmergepatch.CreateThreeWayJSONMergePatch(original, modified,
      current, fns...)] *)
  jsonmergepatch_CreateThreeWayJSONMergePatch :
    bytes → bytes → bytes → list PreconditionFunc → result bytes;
  strategicpatch_NewPatchMetaFromStruct : VersionedObject → result PatchMeta;
  strategicpatch_CreateThreeWayMergePatch :
    bytes → bytes → bytes → PatchMeta → bool → result bytes
}.

(** [dri.Get], [dri.Create], [dri.Patch]: the request is logged and the
    client's answer returned. *)
Definition dri_Get (c : Interface) (dri : ResourceInterface) (name : string)
  : M (LiveObject * option error) :=
  log ← gets requests;
  send (ReqGet dri name);;
  mret (client_Get c log dri name).

Definition dri_Create (c : Interface) (dri : ResourceInterface) (obj : gmap string JSON)
  : M (LiveObject * option error) :=
  log ← gets requests;
  send (ReqCreate dri obj);;
  mret (client_Create c log dri obj).

Definition dri_Patch (c : Interface) (dri : ResourceInterface) (name : string)
    (pt : PatchType) (data : bytes) (opts : PatchOptions) : M (LiveObject * option error) :=
  log ← gets requests;
  send (ReqPatch dri name pt data opts);;
  mret (client_Patch c log dri name pt data opts).

(** ** The program (apply.go) *)

Record applyOptions := {
  dynamicClient : Interface;
  discoveryClient : DiscoveryInterface;
  serverSide : bool
}.

Record FailedObject := {
  Name : string;
  Kind : string;
  ErrMessage : string
}.

Definition NewApplyOptions (dynamicClient : Interface) (discoveryClient : DiscoveryInterface)
  : applyOptions :=
  {| dynamicClient := dynamicClient; discoveryClient := discoveryClient; serverSide := false |}.

Definition WithServerSide (o : applyOptions) (serverSide : bool) : applyOptions :=
  {| dynamicClient := dynamicClient o; discoveryClient := discoveryClient o;
     serverSide := serverSide |}.

(** apply.go:56. The group resources read from discovery are identified with
    the mapper [restmapper.NewDiscoveryRESTMapper] builds from them. *)
Definition ToRESTMapper (o : applyOptions) : result RESTMapper :=
  match GetAPIGroupResources (discoveryClient o) with
  | Err err => Err err
  | Ok gr => Ok gr
  end.

Section Program.
Context (lib : Libraries).

(** Modelled from the spec: [util.CreateApplyAnnotation] (package [util]
    is not in [src/]), the spec's [stampConfiguration]: it serializes the
    object with the codec it is given and writes the result into the
    object's annotations under the reserved key, or returns the
    serialization error. *)
Definition util_CreateApplyAnnotation (obj : Unstructured) : M (Unstructured * option error) :=
  m ← gets (contents obj);
  match json_Marshal lib m with
  | Err err => mret (obj, Some err)
  | Ok modified =>
      annots ← gets (GetAnnotations obj);
      obj ← SetAnnotations obj
              (Some (<[LastAppliedConfigAnnotation := modified]> (default ∅ annots)));
      mret (obj, None)
  end.

(** apply.go:218 *)
Definition Patch (currentUnstr : LiveObject) (modified : bytes) (name : string)
    (gvk : GroupVersionKind) : M (result (bytes * PatchType)) :=
  cur ← live_call currentUnstr id;
  match json_Marshal lib (Some cur) with
  | Err err =>
      mret (Err (errorString ("serializing current configuration from: "
                              +:+ fmt_v_object lib currentUnstr +:+ ", " +:+ Error err)))
  | Ok current =>
  match util_GetOriginalConfiguration lib cur with
  | Err err =>
      mret (Err (errorString ("retrieving original configuration from: "
                              +:+ name +:+ ", " +:+ Error err)))
  | Ok original =>
  match Scheme_New lib gvk with
  | Err err =>
      if runtime_IsNotRegisteredError err
      then
        let preconditions :=
          [mergepatch_RequireKeyUnchanged "apiVersion";
           mergepatch_RequireKeyUnchanged "kind";
           mergepatch_RequireKeyUnchanged "name"] in
        match jsonmergepatch_CreateThreeWayJSONMergePatch lib original modified current
                preconditions with
        | Err err =>
            if mergepatch_IsPreconditionFailed err
            then mret (Err (errorString
                              "At least one of apiVersion, kind and name was changed"))
            else mret (Err (errorString ("unable to apply patch, " +:+ Error err)))
        | Ok patch => mret (Ok (patch, MergePatchType))
        end
      else
        mret (Err (errorString ("getting instance of versioned object "
                                +:+ gvk_String gvk +:+ " for: " +:+ Error err)))
  | Ok versionedObject =>
      match strategicpatch_NewPatchMetaFromStruct lib versionedObject with
      | Err err => mret (Err err)
      | Ok lookupPatchMeta =>
          match strategicpatch_CreateThreeWayMergePatch lib original modified current
                  lookupPatchMeta true with
          | Err err => mret (Err err)
          | Ok patch => mret (Ok (patch, StrategicMergePatchType))
          end
      end
  end end end.

(** apply.go:162-181, the server-side branch. [b] is the serialization made
    at line 136. *)
Definition ApplyUnstructured_serverSide (dynamicClient : Interface)
    (dri : ResourceInterface) (unstructuredObj : Unstructured) (b : bytes)
  : M (LiveObject * option error) :=
  found ← gets (GetAnnotations unstructuredObj);
  unstructuredObj ←
    (if bool_decide (is_Some (default ∅ found !! LastAppliedConfigAnnotation))
     then
       annotations ← gets (GetAnnotations unstructuredObj);
       SetAnnotations unstructuredObj (delete LastAppliedConfigAnnotation <$> annotations)
     else mret unstructuredObj);
  SetManagedFields_nil unstructuredObj;;
  let opts := {| FieldManager := "k8sutil"; Force := Some true |} in
  name ← gets (GetName unstructuredObj);
  '(_, err) ← dri_Patch dynamicClient dri name ApplyPatchType b opts;
  match err with
  | Some err =>
      let err :=
        if isIncompatibleServerError err
        then errorString ("server-side apply not available on the server: ("
                          +:+ Error err +:+ ")")
        else err in
      mret (None, Some err)
  | None => mret (None, None)
  end.

(** apply.go:183-215, create or three-way patch. [obj] and [gvk] are what
    the serializer decoded from [b] at line 141. *)
Definition ApplyUnstructured_clientSide (dynamicClient : Interface)
    (dri : ResourceInterface) (unstructuredObj : Unstructured)
    (obj : gmap string JSON) (gvk : GroupVersionKind) : M (LiveObject * option error) :=
  match util_GetModifiedConfiguration lib obj true with
  | Err err =>
      name ← gets (GetName unstructuredObj);
      mret (None, Some (errorString ("retrieving modified configuration from:" +:+ newline
                                     +:+ name +:+ newline +:+ "for:" +:+ Error err)))
  | Ok modified =>
      name ← gets (GetName unstructuredObj);
      '(currentUnstr, err) ← dri_Get dynamicClient dri name;
      match err with
      | Some err =>
          if negb (errors_IsNotFound err)
          then
            name ← gets (GetName unstructuredObj);
            mret (None, Some (errorString ("retrieving current configuration of:" +:+ newline
                                           +:+ name +:+ newline +:+ "from server for:"
                                           +:+ Error err)))
          else
            '(unstructuredObj, err) ← util_CreateApplyAnnotation unstructuredObj;
            match err with
            | Some err =>
                name ← gets (GetName unstructuredObj);
                mret (None, Some (errorString ("creating " +:+ name +:+ " error: "
                                               +:+ Error err)))
            | None =>
                body ← gets (fields_of unstructuredObj);
                dri_Create dynamicClient dri body
            end
      | None =>
          let '(metadata, _) := meta_Accessor (Pointer currentUnstr) in
          annotationMap ← metav1_call metadata live_GetAnnotations;
          name ← gets (GetName unstructuredObj);
          r ← Patch currentUnstr modified name gvk;
          match r with
          | Err err => mret (None, Some err)
          | Ok (patchBytes, patchType) =>
              name ← gets (GetName unstructuredObj);
              dri_Patch dynamicClient dri name patchType patchBytes PatchOptions_zero
          end
      end
  end.

(** apply.go:136-160, then one of the two branches. *)
Definition ApplyUnstructured_mapped (dynamicClient : Interface) (restMapper : RESTMapper)
    (unstructuredObj : Unstructured) (serverSide : bool) : M (LiveObject * option error) :=
  m ← gets (contents unstructuredObj);
  match json_Marshal lib m with
  | Err err => mret (None, Some err)
  | Ok b =>
  match serializer_Decode lib b with
  | Err err => mret (None, Some err)
  | Ok (obj, gvk) =>
  match restMapper (gvk_GroupKind gvk) (gvk_Version gvk) with
  | Err err => mret (None, Some err)
  | Ok mapping =>
      '(unstructuredObj, dri) ←
        match Scope mapping with
        | RESTScopeNameNamespace =>
            ns ← gets (GetNamespace unstructuredObj);
            unstructuredObj ←
              (if bool_decide (ns = "")
               then SetNamespace unstructuredObj "default"
               else mret unstructuredObj);
            ns ← gets (GetNamespace unstructuredObj);
            mret (unstructuredObj, dynamic_Namespace (dynamic_Resource (Resource mapping)) ns)
        | RESTScopeNameRoot =>
            mret (unstructuredObj, dynamic_Resource (Resource mapping))
        end;
      if serverSide
      then ApplyUnstructured_serverSide dynamicClient dri unstructuredObj b
      else ApplyUnstructured_clientSide dynamicClient dri unstructuredObj obj gvk
  end end end.

(** apply.go:126. The struct arrives by value; at line 129 it is that
    value, not its address, that goes to [meta.Accessor]. *)
Definition ApplyUnstructured (dynamicClient : Interface) (restMapper : RESTMapper)
    (unstructuredObj : Unstructured) (serverSide : bool) : M (LiveObject * option error) :=
  name ← gets (GetName unstructuredObj);
  rejected ←
    (if bool_decide (len name = 0)
     then
       let '(metadata, _) := meta_Accessor (StructValue unstructuredObj) in
       generateName ← metav1_call metadata
                        (λ o, getNestedString o ["metadata"; "generateName"]);
       if bool_decide (0 < len generateName)
       then mret (Some (errorString ("from " +:+ generateName
                                     +:+ ": cannot use generate name with apply")))
       else mret None
     else mret None);
  match rejected with
  | Some err => mret (None, Some err)
  | None => ApplyUnstructured_mapped dynamicClient restMapper unstructuredObj serverSide
  end.

(** apply.go:96-117, the loop of [Decode] over the documents of the
    stream. It returns the list, the counter [i] and the [err] declared at
    line 91. The [err] assigned at lines 103-113 is another variable,
    declared by [:=] inside the loop body, so a failure there leaves the
    outer one nil. *)
Fixpoint Decode_loop (docs : list (result bytes)) (unstructList : list Unstructured)
    (i : nat) : M (list Unstructured * nat * option error) :=
  match docs with
  | [] => mret (unstructList, i, Some io_EOF)
  | Err err :: _ => mret (unstructList, i, Some err)
  | Ok raw :: docs =>
      match serializer_Decode lib raw with
      | Err _ => mret (unstructList, i, None)
      | Ok (obj, gvk) =>
          match util_ConvertSingleObjectToUnstructured lib obj with
          | Err _ => mret (unstructList, i, None)
          | Ok content =>
              l ← alloc content;
              Decode_loop docs (unstructList ++ [{| Object := Some l |}])%list (S i)
          end
      end
  end.

(** apply.go:90 *)
Definition Decode (data : bytes) : M (list Unstructured * option error) :=
  '(unstructList, i, err) ← Decode_loop (yaml_documents lib data) [] 1;
  if negb (is_EOF err)
  then mret (unstructList,
             Some (errorString ("parsing the section:[" +:+ pretty i
                                +:+ "] content error, " +:+ fmt_v err)))
  else mret (unstructList, None).

(** apply.go:77-85, the loop of [Apply]. On a failure the record is built
    from the pointer [ApplyUnstructured] returned. *)
Fixpoint Apply_range (o : applyOptions) (restMapper : RESTMapper)
    (unstructList : list Unstructured) (failedObjects : list FailedObject)
  : M (list FailedObject) :=
  match unstructList with
  | [] => mret failedObjects
  | unstruct :: unstructList =>
      '(object, err) ← ApplyUnstructured (dynamicClient o) restMapper unstruct (serverSide o);
      failedObjects ←
        match err with
        | Some err =>
            name ← live_call object live_GetName;
            kind ← live_call object live_GetKind;
            mret (failedObjects
                  ++ [{| Name := name; Kind := kind; ErrMessage := Error err |}])%list
        | None => mret failedObjects
        end;
      Apply_range o restMapper unstructList failedObjects
  end.

(** apply.go:66. The [err] returned at line 87 is the one [Decode]
    returned; the [err] of line 79 is local to its [if] statement. *)
Definition Apply (o : applyOptions) (data : bytes) : M (list FailedObject * option error) :=
  match ToRESTMapper o with
  | Err err => mret ([], Some err)
  | Ok restMapper =>
      '(unstructList, err) ← Decode data;
      match err with
      | Some _ => mret ([], err)
      | None =>
          failedObjects ← Apply_range o restMapper unstructList [];
          mret (failedObjects, err)
      end
  end.

End Program.


(** ** Vocabulary of the statements *)

(** The state in which the map at [l] has been overwritten, and the state in
    which one more request has been sent. *)
Definition written (l : loc) (m : gmap string JSON) (σ : State) : State :=
  {| heap := <[l := m]> (heap σ); requests := requests σ |}.

Definition sent (rs : list Request) (σ : State) : State :=
  {| heap := heap σ; requests := requests σ ++ rs |}.

(** The [metadata] map of a document, and the document with that map
    replaced. *)
Definition metadata_of (m : gmap string JSON) : option (gmap string JSON) :=
  match m !! "metadata" with
  | Some (JObj md) => Some md
  | _ => None
  end.

Definition with_metadata (m md : gmap string JSON) : gmap string JSON :=
  <["metadata" := JObj md]> m.

Definition string_at (md : gmap string JSON) (key : string) : string :=
  match md !! key with
  | Some (JStr s) => s
  | _ => ""
  end.

(** The annotations as [GetAnnotations] reads them from a [metadata] map. *)
Definition annotations_at (md : gmap string JSON) : option (gmap string string) :=
  match md !! "annotations" with
  | Some (JObj a) =>
      if bool_decide (map_Forall (λ _ v, is_Some (as_string v)) a)
      then Some (omap as_string a)
      else None
  | _ => None
  end.

Definition final_state {A} (r : Outcome A) : State :=
  match r with
  | Returns _ σ => σ
  | Panics σ => σ
  end.

Definition request_target (r : Request) : ResourceInterface :=
  match r with
  | ReqGet dri _ => dri
  | ReqCreate dri _ => dri
  | ReqPatch dri _ _ _ _ => dri
  end.

(** What the server-side branch does to a [metadata] map: the last-applied
    annotation is taken out of the annotations when [GetAnnotations] finds
    it, and [managedFields] is deleted. *)
Definition strip_annotation (md : gmap string JSON) : gmap string JSON :=
  match annotations_at md with
  | Some a =>
      if bool_decide (is_Some (a !! LastAppliedConfigAnnotation))
      then <["annotations" := JObj (JStr <$> delete LastAppliedConfigAnnotation a)]> md
      else md
  | None => md
  end.

Definition stripped (md : gmap string JSON) : gmap string JSON :=
  delete "managedFields" (strip_annotation md).

(** The options of the server-side request, and the error the branch
    reports for the error the client answered. *)
Definition serverSide_opts : PatchOptions :=
  {| FieldManager := "k8sutil"; Force := Some true |}.

Definition serverSide_error (err : option error) : option error :=
  match err with
  | Some err =>
      Some (if isIncompatibleServerError err
            then errorString ("server-side apply not available on the server: ("
                              +:+ Error err +:+ ")")
            else err)
  | None => None
  end.

(** What namespace defaulting (apply.go:153-156) does to a [metadata] map
    under a mapping, and the resource interface the object is applied
    through (apply.go:157-159). *)
Definition defaulted (mapping : RESTMapping) (md : gmap string JSON) : gmap string JSON :=
  match Scope mapping with
  | RESTScopeNameNamespace =>
      if bool_decide (string_at md "namespace" = "")
      then <["namespace" := JStr "default"]> md
      else md
  | RESTScopeNameRoot => md
  end.

Definition target (mapping : RESTMapping) (md : gmap string JSON) : ResourceInterface :=
  match Scope mapping with
  | RESTScopeNameNamespace =>
      dynamic_Namespace (dynamic_Resource (Resource mapping))
        (string_at (defaulted mapping md) "namespace")
  | RESTScopeNameRoot => dynamic_Resource (Resource mapping)
  end.

(** What stamping does to a [metadata] map: the serialization is stored
    under the reserved key, next to the annotations [GetAnnotations] finds. *)
Definition stamped (md : gmap string JSON) (modified : bytes) : gmap string JSON :=
  <["annotations" :=
      JObj (JStr <$> <[LastAppliedConfigAnnotation := modified]> (default ∅ (annotations_at md)))]>
    md.

(** The ways the create-or-patch branch (apply.go:183-215) can end, for an
    object stored at [l] with map [m] and [metadata] map [md], applied through
    [dri] from the state [σ]. *)
Section Outcomes.
Context (lib : Libraries) (c : Interface) (dri : ResourceInterface).
Context (l : loc) (m md obj : gmap string JSON) (gvk : GroupVersionKind) (σ : State).

Let name := string_at md "name".
Let got := sent [ReqGet dri name] σ.

Inductive clientSide_outcome : Outcome (LiveObject * option error) → Prop :=
| modified_failed err :
    util_GetModifiedConfiguration lib obj true = Err err →
    clientSide_outcome
      (Returns (None, Some (errorString ("retrieving modified configuration from:" +:+ newline
                                         +:+ name +:+ newline +:+ "for:" +:+ Error err))) σ)
| get_failed modified cur err :
    util_GetModifiedConfiguration lib obj true = Ok modified →
    client_Get c (requests σ) dri name = (cur, Some err) →
    errors_IsNotFound err = false →
    clientSide_outcome
      (Returns (None, Some (errorString ("retrieving current configuration of:" +:+ newline
                                         +:+ name +:+ newline +:+ "from server for:"
                                         +:+ Error err))) got)
| stamp_failed modified cur err err' :
    util_GetModifiedConfiguration lib obj true = Ok modified →
    client_Get c (requests σ) dri name = (cur, Some err) →
    errors_IsNotFound err = true →
    json_Marshal lib (Some m) = Err err' →
    clientSide_outcome
      (Returns (None, Some (errorString ("creating " +:+ name +:+ " error: " +:+ Error err')))
         got)
| created modified cur err stamp :
    util_GetModifiedConfiguration lib obj true = Ok modified →
    client_Get c (requests σ) dri name = (cur, Some err) →
    errors_IsNotFound err = true →
    json_Marshal lib (Some m) = Ok stamp →
    let body := with_metadata m (stamped md stamp) in
    clientSide_outcome
      (Returns (client_Create c (requests σ ++ [ReqGet dri name]) dri body)
         (sent [ReqGet dri name; ReqCreate dri body] (written l body σ)))
| current_nil modified :
    util_GetModifiedConfiguration lib obj true = Ok modified →
    client_Get c (requests σ) dri name = (None, None) →
    clientSide_outcome (Panics got)
| patch_failed modified live err :
    util_GetModifiedConfiguration lib obj true = Ok modified →
    client_Get c (requests σ) dri name = (Some live, None) →
    Patch lib (Some live) modified name gvk got = Returns (Err err) got →
    clientSide_outcome (Returns (None, Some err) got)
| patched modified live patchBytes patchType :
    util_GetModifiedConfiguration lib obj true = Ok modified →
    client_Get c (requests σ) dri name = (Some live, None) →
    Patch lib (Some live) modified name gvk got = Returns (Ok (patchBytes, patchType)) got →
    clientSide_outcome
      (Returns (client_Patch c (requests σ ++ [ReqGet dri name]) dri name patchType patchBytes
                  PatchOptions_zero)
         (sent [ReqGet dri name; ReqPatch dri name patchType patchBytes PatchOptions_zero] σ)).
End Outcomes.

(** A client that, like client-go's, hands out no object together with an
    error. *)
Definition conventional (c : Interface) : Prop :=
  (∀ log dri obj live err, client_Create c log dri obj = (live, Some err) → live = None)
  ∧ (∀ log dri name pt data opts live err,
       client_Patch c log dri name pt data opts = (live, Some err) → live = None).

(** The ways [ApplyUnstructured] can end. *)
Section ApplyOutcomes.
Context (lib : Libraries) (c : Interface) (restMapper : RESTMapper).
Context (u : Unstructured) (ss : bool) (σ : State).

(** The object has a name and a map, its serialization decodes and its kind
    has a mapping. *)
Record mapped_entry (l : loc) (m md : gmap string JSON) (b : bytes)
    (obj : gmap string JSON) (gvk : GroupVersionKind) (mapping : RESTMapping) : Prop := {
  entry_Object : Object u = Some l;
  entry_contents : contents u σ = Some m;
  entry_metadata : metadata_of m = Some md;
  entry_name : string_at md "name" ≠ "";
  entry_Marshal : json_Marshal lib (Some m) = Ok b;
  entry_Decode : serializer_Decode lib b = Ok (obj, gvk);
  entry_mapping : restMapper (gvk_GroupKind gvk) (gvk_Version gvk) = Ok mapping
}.

Inductive ApplyUnstructured_outcome : Outcome (LiveObject * option error) → Prop :=
| unnamed :
    GetName u σ = "" →
    ApplyUnstructured_outcome (Panics σ)
| marshal_failed m err :
    GetName u σ ≠ "" → contents u σ = Some m →
    json_Marshal lib (Some m) = Err err →
    ApplyUnstructured_outcome (Returns (None, Some err) σ)
| decode_failed m b err :
    GetName u σ ≠ "" → contents u σ = Some m →
    json_Marshal lib (Some m) = Ok b →
    serializer_Decode lib b = Err err →
    ApplyUnstructured_outcome (Returns (None, Some err) σ)
| mapping_failed m b obj gvk err :
    GetName u σ ≠ "" → contents u σ = Some m →
    json_Marshal lib (Some m) = Ok b →
    serializer_Decode lib b = Ok (obj, gvk) →
    restMapper (gvk_GroupKind gvk) (gvk_Version gvk) = Err err →
    ApplyUnstructured_outcome (Returns (None, Some err) σ)
| applied_serverSide l m md b obj gvk mapping :
    mapped_entry l m md b obj gvk mapping →
    ss = true →
    let name := string_at md "name" in
    let dri := target mapping md in
    ApplyUnstructured_outcome
      (Returns (None, serverSide_error
                        (client_Patch c (requests σ) dri name ApplyPatchType b
                           serverSide_opts).2)
         (sent [ReqPatch dri name ApplyPatchType b serverSide_opts]
            (written l (with_metadata m (stripped (defaulted mapping md))) σ)))
| applied_clientSide l m md b obj gvk mapping r :
    mapped_entry l m md b obj gvk mapping →
    ss = false →
    clientSide_outcome lib c (target mapping md) l
      (with_metadata m (defaulted mapping md)) (defaulted mapping md) obj gvk
      (written l (with_metadata m (defaulted mapping md)) σ) r →
    ApplyUnstructured_outcome r.
End ApplyOutcomes.

(** The answer of a client to a request, given the requests it served
    before. *)
Definition answer (c : Interface) (log : list Request) (r : Request)
  : LiveObject * option error :=
  match r with
  | ReqGet dri name => client_Get c log dri name
  | ReqCreate dri obj => client_Create c log dri obj
  | ReqPatch dri name pt data opts => client_Patch c log dri name pt data opts
  end.

Definition is_write (r : Request) : bool :=
  match r with
  | ReqGet _ _ => false
  | _ => true
  end.

(** An attempt on one object that does not succeed and leaves [Apply]
    without an object to describe: [ApplyUnstructured] panicked, or returned
    an error next to a nil pointer. *)
Definition unidentified (r : Outcome (LiveObject * option error)) : bool :=
  match r with
  | Panics _ => true
  | Returns (None, Some _) _ => true
  | Returns _ _ => false
  end.

(** The error [Patch] reports when the merge library says that a
    precondition failed (apply.go:244). *)
Definition identity_changed : error :=
  errorString "At least one of apiVersion, kind and name was changed".

(** The preconditions [Patch] hands to the merge library (apply.go:236-240),
    and whether a decoded patch meets every function of a list. *)
Definition Patch_preconditions : list PreconditionFunc :=
  [mergepatch_RequireKeyUnchanged "apiVersion";
   mergepatch_RequireKeyUnchanged "kind";
   mergepatch_RequireKeyUnchanged "name"].

Definition meets (fns : list PreconditionFunc) (patchMap : gmap string JSON) : bool :=
  forallb (λ fn : PreconditionFunc, fn (JObj patchMap)) fns.

(** What [Patch] makes of the answer of the merge library
    (apply.go:241-247). *)
Definition merge_result (merged : result bytes) : result (bytes * PatchType) :=
  match merged with
  | Ok patch => Ok (patch, MergePatchType)
  | Err err =>
      Err (if mergepatch_IsPreconditionFailed err then identity_changed
           else errorString ("unable to apply patch, " +:+ Error err))
  end.

(** The content of a document of the stream when it is well formed: the
    stream decoder produced it, the serializer decodes it and the conversion
    to [Unstructured] succeeds. *)
Definition decode_document (lib : Libraries) (d : result bytes) : option (gmap string JSON) :=
  match d with
  | Ok raw =>
      match serializer_Decode lib raw with
      | Ok (obj, _) =>
          match util_ConvertSingleObjectToUnstructured lib obj with
          | Ok content => Some content
          | Err _ => None
          end
      | Err _ => None
      end
  | Err _ => None
  end.

(** A malformed document; [io.EOF] from the stream decoder is the end of
    the stream, not a document. *)
Definition malformed (lib : Libraries) (d : result bytes) : Prop :=
  decode_document lib d = None ∧ d ≠ Err io_EOF.

(** The error the stream decoder gave for a document, if any. *)
Definition stream_error (d : result bytes) : option error :=
  match d with
  | Ok _ => None
  | Err err => Some err
  end.

(** What a run that got past the mapping has made of the [metadata] map
    [md] of the object: defaulted and then stripped in server-side mode;
    defaulted, and stamped if the object was created, otherwise. *)
Definition rewritten (ss : bool) (mapping : RESTMapping) (md md' : gmap string JSON) : Prop :=
  if ss then md' = stripped (defaulted mapping md)
  else md' = defaulted mapping md ∨ ∃ stamp, md' = stamped (defaulted mapping md) stamp.

(** The changes the caller of [ApplyUnstructured] finds in its object [u],
    between the state [σ] of the call and a later state [σ']. *)
Definition mutated (u : Unstructured) (σ σ' : State) (ss : bool) (mapping : RESTMapping)
  : Prop :=
  (Scope mapping = RESTScopeNameNamespace → GetNamespace u σ = "" →
   GetNamespace u σ' = "default" ∧ contents u σ' ≠ contents u σ)
  ∧ (ss = true →
     GetAnnotations u σ' ≫= (.!! LastAppliedConfigAnnotation) = None
     ∧ NestedFieldNoCopy (fields_of u σ') ["metadata"; "managedFields"] = None
     ∧ (is_Some (GetAnnotations u σ ≫= (.!! LastAppliedConfigAnnotation))
        ∨ is_Some (NestedFieldNoCopy (fields_of u σ) ["metadata"; "managedFields"]) →
        contents u σ' ≠ contents u σ)).

(** ** A small cluster for the examples

    Stand-ins for the collaborators, used to run the program on concrete
    manifests: a printer and a table-driven reader for documents, a stream
    splitter, a top-level diff in place of the merge libraries, a registry
    that knows one kind, and clients whose answers follow from the requests
    they have served. *)

Module Fixture.

(** Documents are printed with bare keys and strings in single quotes. *)
Fixpoint text (j : JSON) : string :=
  match j with
  | JNull => "null"
  | JBool b => if b then "true" else "false"
  | JNum n => pretty n
  | JStr s => "'" +:+ s +:+ "'"
  | JArr l => "[" +:+ foldr (λ x acc, text x +:+ "," +:+ acc) "" l +:+ "]"
  | JObj m => "{" +:+ map_fold (λ k v acc, k +:+ ":" +:+ text v +:+ "," +:+ acc) "" m +:+ "}"
  end.

Definition object (apiVersion kind : string) (metadata : gmap string JSON)
  : gmap string JSON :=
  {[ "apiVersion" := JStr apiVersion; "kind" := JStr kind; "metadata" := JObj metadata ]}.

(** A pod with a name and no namespace. *)
Definition web : gmap string JSON := object "v1" "Pod" {[ "name" := JStr "web" ]}.

(** A pod with no name and a generate-name. *)
Definition gen : gmap string JSON := object "v1" "Pod" {[ "generateName" := JStr "web-" ]}.

(** A pod with neither a name nor a generate-name. *)
Definition nameless : gmap string JSON := object "v1" "Pod" {[ "namespace" := JStr "prod" ]}.

(** A pod with a name and a namespace. *)
Definition db : gmap string JSON :=
  object "v1" "Pod" {[ "name" := JStr "db"; "namespace" := JStr "prod" ]}.

(** A cluster-scoped object. *)
Definition team : gmap string JSON := object "v1" "Namespace" {[ "name" := JStr "team" ]}.

(** An object of a kind the registry does not know, as a manifest asks for
    it and as the cluster holds it. *)
Definition gadget : gmap string JSON :=
  object "example.io/v1" "Gadget" {[ "name" := JStr "g1"; "namespace" := JStr "prod" ]}.

Definition gadget_live : gmap string JSON :=
  object "example.io/v1" "Widget" {[ "name" := JStr "g1"; "namespace" := JStr "prod" ]}.

(** An object of that kind that the cluster holds under another name. *)
Definition gadget_renamed : gmap string JSON :=
  object "example.io/v1" "Gadget" {[ "name" := JStr "g0"; "namespace" := JStr "prod" ]}.

(** An object that carries the last-applied annotation and managed
    fields. *)
Definition cfg : gmap string JSON :=
  object "v1" "ConfigMap"
    {[ "name" := JStr "cfg";
       "namespace" := JStr "prod";
       "annotations" := JObj {[ LastAppliedConfigAnnotation := JStr "{old}" ]};
       "managedFields" := JArr [JObj {[ "manager" := JStr "kubectl" ]}] ]}.

Definition known : list (gmap string JSON) :=
  [web; gen; nameless; db; team; gadget; gadget_live; gadget_renamed; cfg].

Definition gvk_of (obj : gmap string JSON) : GroupVersionKind :=
  GVK "" (getNestedString obj ["apiVersion"]) (getNestedString obj ["kind"]).

(** The reader inverts [text] on the documents of [known]; any other text
    is malformed. *)
Definition read (raw : bytes) : result (gmap string JSON * GroupVersionKind) :=
  match list_find (λ obj, text (JObj obj) = raw) known with
  | Some (_, obj) => Ok (obj, gvk_of obj)
  | None => Err (errorString "couldn't get version/kind; json parse error")
  end.

Definition write (m : option (gmap string JSON)) : result bytes :=
  match m with
  | Some m => Ok (text (JObj m))
  | None => Ok "null"
  end.

(** Documents of a stream are separated by [---]. *)
Fixpoint split (s cur : string) : list string :=
  match s with
  | "" => [cur]
  | String "-"%char (String "-"%char (String "-"%char rest)) => cur :: split rest ""
  | String a rest => split rest (cur +:+ String a "")
  end.

Definition documents (data : bytes) : list (result bytes) :=
  if bool_decide (data = "") then [] else Ok <$> split data "".

(** The keys of [modified] whose value differs from the one in
    [current]. *)
Definition diff (modified current : gmap string JSON) : gmap string JSON :=
  filter (λ kv, text <$> current !! kv.1 ≠ Some (text kv.2)) modified.

(** The merge patch is the diff of [modified] against [current]; it is
    returned when it passes every precondition. *)
Definition threeWay (original modified current : bytes) (fns : list PreconditionFunc)
  : result bytes :=
  match read modified, read current with
  | Ok (m, _), Ok (c, _) =>
      if forallb (λ fn : PreconditionFunc, fn (JObj (diff m c))) fns
      then Ok (text (JObj (diff m c)))
      else Err (errorString ("precondition failed for: " +:+ text (JObj (diff m c))))
  | _, _ => Err (errorString "invalid JSON document")
  end.

Definition registry (gvk : GroupVersionKind) : result GroupVersionKind :=
  if bool_decide (gvk_Kind gvk = "Pod") then Ok gvk
  else Err (notRegisteredErr ("no kind " +:+ gvk_Kind gvk +:+ " is registered")).

Definition original_of (live : gmap string JSON) : result bytes :=
  Ok (default "" (a ← live_GetAnnotations live; a !! LastAppliedConfigAnnotation)).

Definition lib : Libraries := {|
  VersionedObject := GroupVersionKind;
  PatchMeta := GroupVersionKind;
  json_Marshal := write;
  serializer_Decode := read;
  yaml_documents := documents;
  fmt_v_object := λ o, match o with Some m => "&" +:+ text (JObj m) | None => "<nil>" end;
  util_ConvertSingleObjectToUnstructured := Ok;
  util_GetModifiedConfiguration := λ obj _, Ok (text (JObj obj));
  util_GetOriginalConfiguration := original_of;
  Scheme_New := registry;
  jsonmergepatch_CreateThreeWayJSONMergePatch := threeWay;
  strategicpatch_NewPatchMetaFromStruct := Ok;
  strategicpatch_CreateThreeWayMergePatch := λ _ modified _ _ _, Ok modified
|}.

Definition mapper : RESTMapper := λ gk version,
  if bool_decide (gk_Kind gk = "Namespace")
  then Ok {| Resource := GVR (gk_Group gk) version "namespaces"; Scope := RESTScopeNameRoot |}
  else if bool_decide (gk_Kind gk ∈ ["Pod"; "ConfigMap"; "Gadget"])
  then Ok {| Resource := GVR (gk_Group gk) version (gk_Kind gk);
             Scope := RESTScopeNameNamespace |}
  else Err (errorString ("no matches for kind " +:+ gk_Kind gk)).

Definition discovery : DiscoveryInterface := {| GetAPIGroupResources := Ok mapper |}.

Definition unreachable : DiscoveryInterface :=
  {| GetAPIGroupResources := Err (errorString "connection refused") |}.

Definition not_found (name : string) : error :=
  StatusError 404 StatusReasonNotFound (name +:+ " not found").

(** The object a client holds under a name: the one the cluster started
    with, or the last one created through the client. *)
Definition created (log : list Request) (dri : ResourceInterface) (name : string)
  : option (gmap string JSON) :=
  foldl (λ found r,
           match r with
           | ReqCreate dri' obj =>
               if bool_decide (dri_namespace dri' = dri_namespace dri ∧ live_GetName obj = name)
               then Some obj else found
           | _ => found
           end)
        (if bool_decide (name = "g1") then Some gadget_live else None) log.

(** A client in front of a cluster that holds [gadget_live]. *)
Definition client : Interface := {|
  client_Get := λ log dri name,
    match created log dri name with
    | Some obj => (Some obj, None)
    | None => (None, Some (not_found name))
    end;
  client_Create := λ _ _ obj, (Some obj, None);
  client_Patch := λ log dri name _ _ _, (Some (default ∅ (created log dri name)), None)
|}.

(** A client whose server answers every request with status 500. *)
Definition broken : Interface :=
  let err := StatusError 500 (StatusReasonOther "InternalError") "internal error" in {|
  client_Get := λ _ _ _, (None, Some err);
  client_Create := λ _ _ _, (None, Some err);
  client_Patch := λ _ _ _ _ _ _, (None, Some err)
|}.

(** A client that answers every get and patch with [gadget_renamed]. *)
Definition stale : Interface := {|
  client_Get := λ _ _ _, (Some gadget_renamed, None);
  client_Create := λ _ _ obj, (Some obj, None);
  client_Patch := λ _ _ _ _ _ _, (Some gadget_renamed, None)
|}.

Definition options : applyOptions := NewApplyOptions client discovery.

Definition empty : State := {| heap := ∅; requests := [] |}.

(** A state in which the caller holds one object. *)
Definition holding (obj : gmap string JSON) : State :=
  {| heap := {[ 1%positive := obj ]}; requests := [] |}.

Definition held : Unstructured := {| Object := Some 1%positive |}.

Definition manifest (docs : list (gmap string JSON)) : bytes :=
  match docs with
  | [] => ""
  | d :: docs => foldl (λ acc d, acc +:+ "---" +:+ text (JObj d)) (text (JObj d)) docs
  end.

(** The three-document batch of the partial-failure scenario: the second
    document has no name and a generate-name. *)
Definition three_documents : bytes := manifest [web; gen; db].

Definition first : Unstructured := {| Object := Some 1%positive |}.
Definition second : Unstructured := {| Object := Some 2%positive |}.
Definition third : Unstructured := {| Object := Some 3%positive |}.

Definition pods (ns : string) : ResourceInterface :=
  {| dri_resource := GVR "" "v1" "Pod"; dri_namespace := Some ns |}.

Definition configmaps (ns : string) : ResourceInterface :=
  {| dri_resource := GVR "" "v1" "ConfigMap"; dri_namespace := Some ns |}.

(** [web] once defaulted, and once stamped for its creation. *)
Definition web_defaulted : gmap string JSON :=
  object "v1" "Pod" {[ "name" := JStr "web"; "namespace" := JStr "default" ]}.

Definition web_created : gmap string JSON :=
  object "v1" "Pod"
    {[ "name" := JStr "web";
       "namespace" := JStr "default";
       "annotations" :=
         JObj {[ LastAppliedConfigAnnotation := JStr (text (JObj web_defaulted)) ]} ]}.

(** The store after decoding the batch, and the state after the first
    document has been applied. *)
Definition decoded : State :=
  {| heap := {[ 1%positive := web; 2%positive := gen; 3%positive := db ]}; requests := [] |}.

Definition first_applied : State :=
  {| heap := {[ 1%positive := web_created; 2%positive := gen; 3%positive := db ]};
     requests := [ReqGet (pods "default") "web"; ReqCreate (pods "default") web_created] |}.

(** [cfg] after the server-side branch has stripped it. *)
Definition cfg_stripped : gmap string JSON :=
  object "v1" "ConfigMap"
    {[ "name" := JStr "cfg"; "namespace" := JStr "prod"; "annotations" := JObj ∅ ]}.

(** A stream whose second document is cut short. *)
Definition damaged : bytes := text (JObj web) +:+ "---{kind---" +:+ text (JObj db).

End Fixture.

(** ** The rest of apply.go *)

(** apply.go:265, [ObjectToUnstructured]. A [runtime.Object] is a
    [*unstructured.UnstructuredList], given by its [Items] (nil for a nil
    pointer), or an object of another type [V], a value outside the store.
    [meta.IsListType] and [runtime.DefaultUnstructuredConverter] are
    parameters. *)
Inductive RuntimeObject (V : Type) :=
| UnstructuredListPointer (Items : option (list Unstructured))
| OtherObject (v : V).
Arguments UnstructuredListPointer {V} Items.
Arguments OtherObject {V} v.

Section Conversion.
Context {V : Type}.
Context (meta_IsListType : RuntimeObject V → bool).
Context (runtime_ToUnstructured : RuntimeObject V → result (gmap string JSON)).

(** The struct appended at each turn of the loop is a copy of the item: it
    holds the same map. The type assertion of line 268 holds of a nil
    [*UnstructuredList] as well, whose [Items] cannot be read at line 272. *)
Definition ObjectToUnstructured (obj : RuntimeObject V) : M (result (list Unstructured)) :=
  let list : list Unstructured := [] in
  if meta_IsListType obj
  then
    match obj with
    | OtherObject _ => mret (Err (errorString "unable to convert runtime object to list"))
    | UnstructuredListPointer p =>
        match p with
        | None => panic
        | Some Items =>
            mret (Ok (foldl (λ (list : Datatypes.list Unstructured) u, (list ++ [u])%list)
                        list Items))
        end
    end
  else
    match runtime_ToUnstructured obj with
    | Err err => mret (Err err)
    | Ok unstructuredMap =>
        l ← alloc unstructuredMap;
        let unstructuredObj := {| Object := Some l |} in
        mret (Ok (list ++ [unstructuredObj])%list)
    end.
End Conversion.

(** ** More vocabulary *)

(** A server-side apply request. *)
Definition apply_patch_request (r : Request) : bool :=
  match r with
  | ReqPatch _ _ ApplyPatchType _ _ => true
  | _ => false
  end.

(** The requests one run of [ApplyUnstructured] can add to the log, for an
    object named [name]. *)
Inductive run_requests (ss : bool) (name : string) : list Request → Prop :=
| no_request : run_requests ss name []
| apply_patch_only dri b :
    ss = true →
    run_requests ss name [ReqPatch dri name ApplyPatchType b serverSide_opts]
| get_only dri :
    ss = false →
    run_requests ss name [ReqGet dri name]
| get_then_create dri body :
    ss = false →
    run_requests ss name [ReqGet dri name; ReqCreate dri body]
| get_then_patch dri pt data :
    ss = false →
    pt = MergePatchType ∨ pt = StrategicMergePatchType →
    run_requests ss name [ReqGet dri name; ReqPatch dri name pt data PatchOptions_zero].

(** The fields of a [metadata] map that [ApplyUnstructured] may write. *)
Definition written_keys : list string := ["namespace"; "annotations"; "managedFields"].

(** A field of the [metadata] map of the caller's object. *)
Definition metadata_field (u : Unstructured) (σ : State) (key : string) : option JSON :=
  NestedFieldNoCopy (fields_of u σ) ["metadata"; key].

(** The record [Apply] makes of a failure (apply.go:81), from the object and
    the error [ApplyUnstructured] returned. *)
Definition record_of (object : gmap string JSON) (err : error) : FailedObject :=
  {| Name := live_GetName object; Kind := live_GetKind object; ErrMessage := Error err |}.

(** Where a record comes from: a create or a patch in the log that the
    client answered with both an object and an error. *)
Definition recorded (c : Interface) (log : list Request) (f : FailedObject) : Prop :=
  ∃ served r object err,
    (served ++ [r])%list `prefix_of` log
    ∧ is_write r = true
    ∧ answer c served r = (Some object, Some err)
    ∧ f = record_of object err.

(** ** More stand-ins for the examples *)

Module Cases.

Definition unsupported : error :=
  StatusError 415 (StatusReasonOther "UnsupportedMediaType")
    "the body of the request was in an unknown format".

(** A client in front of a server that does not know server-side apply. *)
Definition legacy : Interface := {|
  client_Get := client_Get Fixture.client;
  client_Create := client_Create Fixture.client;
  client_Patch := λ _ _ _ pt _ _,
    match pt with
    | ApplyPatchType => (None, Some unsupported)
    | _ => (Some ∅, None)
    end
|}.

Definition conflict : error :=
  StatusError 409 (StatusReasonOther "AlreadyExists") "already exists".

(** A client that refuses every create and hands the object back with the
    error. *)
Definition chatty : Interface := {|
  client_Get := λ _ _ name, (None, Some (Fixture.not_found name));
  client_Create := λ _ _ obj, (Some obj, Some conflict);
  client_Patch := client_Patch Fixture.client
|}.

(** A client whose get answers with neither an object nor an error. *)
Definition silent : Interface := {|
  client_Get := λ _ _ _, (None, None);
  client_Create := client_Create Fixture.client;
  client_Patch := client_Patch Fixture.client
|}.

(** A client in front of a cluster that holds [db] and answers every patch
    with it. *)
Definition serving : Interface := {|
  client_Get := λ _ _ _, (Some Fixture.db, None);
  client_Create := client_Create Fixture.client;
  client_Patch := λ _ _ _ _ _ _, (Some Fixture.db, None)
|}.

(** A pod of a kind the mapper does not know. *)
Definition stray : gmap string JSON :=
  Fixture.object "v1" "Stray" {[ "name" := JStr "s1" ]}.

(** Libraries as in [Fixture], reading [stray] as well, and others whose
    [GetModifiedConfiguration] fails. *)
Definition lib : Libraries := {|
  VersionedObject := GroupVersionKind;
  PatchMeta := GroupVersionKind;
  json_Marshal := Fixture.write;
  serializer_Decode := λ raw,
    if bool_decide (raw = Fixture.text (JObj stray))
    then Ok (stray, Fixture.gvk_of stray)
    else Fixture.read raw;
  yaml_documents := Fixture.documents;
  fmt_v_object := fmt_v_object Fixture.lib;
  util_ConvertSingleObjectToUnstructured := Ok;
  util_GetModifiedConfiguration := util_GetModifiedConfiguration Fixture.lib;
  util_GetOriginalConfiguration := Fixture.original_of;
  Scheme_New := Fixture.registry;
  jsonmergepatch_CreateThreeWayJSONMergePatch := Fixture.threeWay;
  strategicpatch_NewPatchMetaFromStruct := Ok;
  strategicpatch_CreateThreeWayMergePatch := λ _ modified _ _ _, Ok modified
|}.

Definition failing : Libraries := {|
  VersionedObject := GroupVersionKind;
  PatchMeta := GroupVersionKind;
  json_Marshal := Fixture.write;
  serializer_Decode := Fixture.read;
  yaml_documents := Fixture.documents;
  fmt_v_object := fmt_v_object Fixture.lib;
  util_ConvertSingleObjectToUnstructured := Ok;
  util_GetModifiedConfiguration := λ _ _, Err (errorString "cannot encode");
  util_GetOriginalConfiguration := Fixture.original_of;
  Scheme_New := Fixture.registry;
  jsonmergepatch_CreateThreeWayJSONMergePatch := Fixture.threeWay;
  strategicpatch_NewPatchMetaFromStruct := Ok;
  strategicpatch_CreateThreeWayMergePatch := λ _ modified _ _ _, Ok modified
|}.

(** A converter for [ObjectToUnstructured] over objects that are documents
    already; the ones with an [items] field count as lists. *)
Definition is_list (obj : RuntimeObject (gmap string JSON)) : bool :=
  match obj with
  | UnstructuredListPointer _ => true
  | OtherObject v => bool_decide (is_Some (v !! "items"))
  end.

Definition convert (obj : RuntimeObject (gmap string JSON)) : result (gmap string JSON) :=
  match obj with
  | OtherObject v => Ok v
  | UnstructuredListPointer _ => Err (errorString "not a single object")
  end.

End Cases.
(** ** Reasoning about [M] *)

Lemma bind_Returns {A B} (m : M A) (f : A → M B) σ a σ' :
  m σ = Returns a σ' → (m ≫= f) σ = f a σ'.
Proof. unfold mbind, M_bind. by intros ->. Qed.

Lemma bind_Panics {A B} (m : M A) (f : A → M B) σ σ' :
  m σ = Panics σ' → (m ≫= f) σ = Panics σ'.
Proof. unfold mbind, M_bind. by intros ->. Qed.

Lemma bind_gets {A B} (g : State → A) (f : A → M B) σ :
  (gets g ≫= f) σ = f (g σ) σ.
Proof. done. Qed.

Lemma bind_mret {A B} (a : A) (f : A → M B) σ :
  (mret a ≫= f) σ = f a σ.
Proof. done. Qed.

Lemma bind_assoc {A B C} (m : M A) (f : A → M B) (g : B → M C) σ :
  ((m ≫= f) ≫= g) σ = (m ≫= λ a, f a ≫= g) σ.
Proof. unfold mbind, M_bind. by destruct (m σ). Qed.

(** Normalise the head of a computation applied to a state. *)
Ltac mnorm := repeat first [rewrite bind_assoc | rewrite bind_mret | rewrite bind_gets].

Lemma len_0 (s : string) : len s = 0 ↔ s = "".
Proof. destruct s; simpl; split; intros; (done || lia). Qed.

(** ** Validation (apply.go:128-134) *)

Section Validation.
Context (lib : Libraries) (c : Interface) (restMapper : RESTMapper).

Lemma ApplyUnstructured_named (u : Unstructured) (ss : bool) σ :
  GetName u σ ≠ "" →
  ApplyUnstructured lib c restMapper u ss σ
  = ApplyUnstructured_mapped lib c restMapper u ss σ.
Proof.
  intros Hname. unfold ApplyUnstructured. rewrite bind_gets.
  rewrite bool_decide_eq_false_2 by (by rewrite len_0).
  by rewrite bind_mret.
Qed.

Lemma ApplyUnstructured_unnamed (u : Unstructured) (ss : bool) σ :
  GetName u σ = "" →
  ApplyUnstructured lib c restMapper u ss σ = Panics σ.
Proof.
  intros Hname. unfold ApplyUnstructured. rewrite bind_gets.
  rewrite bool_decide_eq_true_2 by (by rewrite len_0).
  done.
Qed.
End Validation.

(** ** Documents and the store *)

Lemma metadata_of_Some m md : metadata_of m = Some md ↔ m !! "metadata" = Some (JObj md).
Proof.
  unfold metadata_of. destruct (m !! "metadata") as [[]|]; naive_solver.
Qed.

Lemma metadata_of_with m md : metadata_of (with_metadata m md) = Some md.
Proof. unfold metadata_of, with_metadata. by rewrite lookup_insert_eq. Qed.

Lemma with_metadata_twice m md1 md2 :
  with_metadata (with_metadata m md1) md2 = with_metadata m md2.
Proof. unfold with_metadata. by rewrite insert_insert_eq. Qed.

Lemma getNestedString_metadata m md key :
  metadata_of m = Some md → getNestedString m ["metadata"; key] = string_at md key.
Proof.
  rewrite metadata_of_Some. intros Hmd.
  unfold getNestedString, string_at. simpl. by rewrite Hmd.
Qed.

Lemma getNestedString_metadata_None m key :
  metadata_of m = None → getNestedString m ["metadata"; key] = "".
Proof.
  unfold metadata_of, getNestedString. simpl.
  by destruct (m !! "metadata") as [[]|].
Qed.

Lemma NestedStringMap_annotations m md :
  metadata_of m = Some md →
  NestedStringMap m ["metadata"; "annotations"] = annotations_at md.
Proof.
  rewrite metadata_of_Some. intros Hmd.
  unfold NestedStringMap, annotations_at. simpl. by rewrite Hmd.
Qed.

Lemma setNestedFieldNoCopy_metadata m md key v :
  metadata_of m = Some md →
  setNestedFieldNoCopy m v ["metadata"; key] = with_metadata m (<[key := v]> md).
Proof.
  rewrite metadata_of_Some. intros Hmd. simpl. by rewrite Hmd.
Qed.

Lemma RemoveNestedField_metadata m md key :
  metadata_of m = Some md →
  RemoveNestedField m ["metadata"; key] = with_metadata m (delete key md).
Proof.
  rewrite metadata_of_Some. intros Hmd. simpl. by rewrite Hmd.
Qed.

Lemma getNestedString_kind_with m md :
  getNestedString (with_metadata m md) ["kind"] = getNestedString m ["kind"].
Proof.
  unfold getNestedString, with_metadata. simpl. by rewrite lookup_insert_ne.
Qed.

(** An object that has a name has a map, and the map has a [metadata]. *)
Lemma named_object u σ :
  GetName u σ ≠ "" →
  ∃ l m md, Object u = Some l ∧ heap σ !! l = Some m ∧ metadata_of m = Some md
            ∧ string_at md "name" = GetName u σ.
Proof.
  unfold GetName, fields_of, contents. intros Hname.
  destruct (Object u) as [l|] eqn:Hl; simpl in *; [|done].
  destruct (heap σ !! l) as [m|] eqn:Hm; simpl in *; [|done].
  destruct (metadata_of m) as [md|] eqn:Hmd.
  - exists l, m, md. by rewrite (getNestedString_metadata _ _ _ Hmd).
  - by rewrite (getNestedString_metadata_None _ _ Hmd) in Hname.
Qed.

Section Store.
Context (u : Unstructured) (l : loc) (Hl : Object u = Some l).
Implicit Types (σ : State) (m : gmap string JSON).

Lemma fields_of_lookup σ m : heap σ !! l = Some m → fields_of u σ = m.
Proof using Hl. unfold fields_of, contents. rewrite Hl. simpl. by intros ->. Qed.

Lemma contents_written σ m : contents u (written l m σ) = Some m.
Proof using Hl. unfold contents, written. rewrite Hl. simpl. by rewrite lookup_insert_eq. Qed.

Lemma fields_of_written σ m : fields_of u (written l m σ) = m.
Proof using Hl. unfold fields_of. by rewrite contents_written. Qed.

Lemma contents_sent σ rs : contents u (sent rs σ) = contents u σ.
Proof. done. Qed.

Lemma written_twice σ m1 m2 : written l m2 (written l m1 σ) = written l m2 σ.
Proof. unfold written. simpl. by rewrite insert_insert_eq. Qed.

Lemma setNestedField_run σ v fields :
  setNestedField u v fields σ
  = Returns u (written l (setNestedFieldNoCopy (fields_of u σ) v fields) σ).
Proof using Hl. unfold setNestedField. by rewrite Hl. Qed.

Lemma removeNestedField_run σ fields :
  removeNestedField u fields σ
  = Returns () (written l (RemoveNestedField (fields_of u σ) fields) σ).
Proof using Hl. unfold removeNestedField. by rewrite Hl. Qed.
End Store.

Lemma sent_sent rs1 rs2 σ : sent rs2 (sent rs1 σ) = sent (rs1 ++ rs2) σ.
Proof. unfold sent. simpl. by rewrite <-(assoc_L (++)). Qed.

Lemma sent_written l m rs σ : sent rs (written l m σ) = written l m (sent rs σ).
Proof. done. Qed.

Lemma dri_Get_run c dri name σ :
  dri_Get c dri name σ
  = Returns (client_Get c (requests σ) dri name) (sent [ReqGet dri name] σ).
Proof. done. Qed.

Lemma dri_Create_run c dri obj σ :
  dri_Create c dri obj σ
  = Returns (client_Create c (requests σ) dri obj) (sent [ReqCreate dri obj] σ).
Proof. done. Qed.

Lemma dri_Patch_run c dri name pt data opts σ :
  dri_Patch c dri name pt data opts σ
  = Returns (client_Patch c (requests σ) dri name pt data opts)
            (sent [ReqPatch dri name pt data opts] σ).
Proof. done. Qed.

(** The getters, read through the [metadata] map of the object. *)
Section Getters.
Context (u : Unstructured) (σ : State) (m md : gmap string JSON).
Context (Hm : contents u σ = Some m) (Hmd : metadata_of m = Some md).

Lemma fields_of_contents : fields_of u σ = m.
Proof using Hm. unfold fields_of. by rewrite Hm. Qed.

Lemma GetName_at : GetName u σ = string_at md "name".
Proof using Hm Hmd.
  unfold GetName. by rewrite fields_of_contents, (getNestedString_metadata _ _ _ Hmd).
Qed.

Lemma GetNamespace_at : GetNamespace u σ = string_at md "namespace".
Proof using Hm Hmd.
  unfold GetNamespace. by rewrite fields_of_contents, (getNestedString_metadata _ _ _ Hmd).
Qed.

Lemma GetGenerateName_at : GetGenerateName u σ = string_at md "generateName".
Proof using Hm Hmd.
  unfold GetGenerateName.
  by rewrite fields_of_contents, (getNestedString_metadata _ _ _ Hmd).
Qed.

Lemma GetAnnotations_at : GetAnnotations u σ = annotations_at md.
Proof using Hm Hmd.
  unfold GetAnnotations. by rewrite fields_of_contents, (NestedStringMap_annotations _ _ Hmd).
Qed.
End Getters.

Lemma named_contents u σ :
  GetName u σ ≠ "" →
  ∃ l m md, Object u = Some l ∧ contents u σ = Some m ∧ metadata_of m = Some md.
Proof.
  intros (l & m & md & Hl & Hm & Hmd & _)%named_object.
  exists l, m, md. split_and!; [done| |done]. unfold contents. by rewrite Hl.
Qed.

Lemma with_metadata_same m md : metadata_of m = Some md → with_metadata m md = m.
Proof. rewrite metadata_of_Some. intros H. unfold with_metadata. by apply insert_id. Qed.

Lemma written_same u l σ m :
  Object u = Some l → contents u σ = Some m → written l m σ = σ.
Proof.
  unfold contents, written. intros ->. simpl. intros H.
  destruct σ as [h rs]. simpl in *. f_equal. by apply insert_id.
Qed.

(** The setters, as updates of the [metadata] map of a stored object. *)
Section Setters.
Context (u : Unstructured) (l : loc) (σ : State) (m md : gmap string JSON).
Context (Hl : Object u = Some l) (Hm : contents u σ = Some m)
        (Hmd : metadata_of m = Some md).

Lemma setNestedField_metadata_run key v :
  setNestedField u v ["metadata"; key] σ
  = Returns u (written l (with_metadata m (<[key := v]> md)) σ).
Proof using Hl Hm Hmd.
  rewrite (setNestedField_run u l Hl), (fields_of_contents u σ m Hm).
  by rewrite (setNestedFieldNoCopy_metadata _ _ _ _ Hmd).
Qed.

Lemma removeNestedField_metadata_run key :
  removeNestedField u ["metadata"; key] σ
  = Returns () (written l (with_metadata m (delete key md)) σ).
Proof using Hl Hm Hmd.
  rewrite (removeNestedField_run u l Hl), (fields_of_contents u σ m Hm).
  by rewrite (RemoveNestedField_metadata _ _ _ Hmd).
Qed.

Lemma SetNamespace_default_run :
  SetNamespace u "default" σ
  = Returns u (written l (with_metadata m (<["namespace" := JStr "default"]> md)) σ).
Proof using Hl Hm Hmd. unfold SetNamespace. simpl. apply setNestedField_metadata_run. Qed.

Lemma SetAnnotations_run a :
  SetAnnotations u (Some a) σ
  = Returns u (written l (with_metadata m (<["annotations" := JObj (JStr <$> a)]> md)) σ).
Proof using Hl Hm Hmd. unfold SetAnnotations. apply setNestedField_metadata_run. Qed.

Lemma SetManagedFields_nil_run :
  SetManagedFields_nil u σ
  = Returns () (written l (with_metadata m (delete "managedFields" md)) σ).
Proof using Hl Hm Hmd. unfold SetManagedFields_nil. apply removeNestedField_metadata_run. Qed.

(** apply.go:164-168 *)
Lemma strip_annotation_run {B} (k : Unstructured → M B) :
  (found ← gets (GetAnnotations u);
   unstructuredObj ←
     (if bool_decide (is_Some (default ∅ found !! LastAppliedConfigAnnotation))
      then
        annotations ← gets (GetAnnotations u);
        SetAnnotations u (delete LastAppliedConfigAnnotation <$> annotations)
      else mret u);
   k unstructuredObj) σ
  = k u (written l (with_metadata m (strip_annotation md)) σ).
Proof using Hl Hm Hmd.
  rewrite bind_gets, (GetAnnotations_at u σ m md Hm Hmd).
  unfold strip_annotation.
  destruct (annotations_at md) as [a|] eqn:Ha; simpl.
  - case_bool_decide.
    + erewrite bind_Returns; [done|].
      rewrite bind_gets, (GetAnnotations_at u σ m md Hm Hmd), Ha. simpl.
      apply SetAnnotations_run.
    + rewrite bind_mret.
      by rewrite (with_metadata_same _ _ Hmd), (written_same u l σ m Hl Hm).
  - rewrite bool_decide_eq_false_2 by (rewrite lookup_empty; by intros [??]).
    rewrite bind_mret.
    by rewrite (with_metadata_same _ _ Hmd), (written_same u l σ m Hl Hm).
Qed.
End Setters.

Lemma string_at_stripped md key :
  key ≠ "annotations" → key ≠ "managedFields" →
  string_at (stripped md) key = string_at md key.
Proof.
  intros H1 H2. unfold string_at, stripped, strip_annotation.
  rewrite lookup_delete_ne by done.
  destruct (annotations_at md) as [a|]; [|done].
  case_bool_decide; [|done]. by rewrite lookup_insert_ne.
Qed.

(** ** The server-side branch (apply.go:162-181) *)

Section ServerSide.
Context (c : Interface).

Lemma serverSide_run dri u b σ l m md :
  Object u = Some l → contents u σ = Some m → metadata_of m = Some md →
  ApplyUnstructured_serverSide c dri u b σ
  = Returns (None, serverSide_error
                     (client_Patch c (requests σ) dri (string_at md "name")
                        ApplyPatchType b serverSide_opts).2)
      (sent [ReqPatch dri (string_at md "name") ApplyPatchType b serverSide_opts]
         (written l (with_metadata m (stripped md)) σ)).
Proof.
  intros Hl Hm Hmd. unfold ApplyUnstructured_serverSide.
  rewrite (strip_annotation_run u l σ m md Hl Hm Hmd).
  set (σ1 := written l _ σ).
  assert (Hm1 : contents u σ1 = Some (with_metadata m (strip_annotation md)))
    by apply (contents_written u l Hl).
  erewrite bind_Returns;
    [|apply (SetManagedFields_nil_run u l σ1 _ _ Hl Hm1 (metadata_of_with _ _))].
  subst σ1. rewrite written_twice, with_metadata_twice. fold (stripped md).
  set (σ2 := written l _ σ).
  assert (Hm2 : contents u σ2 = Some (with_metadata m (stripped md)))
    by apply (contents_written u l Hl).
  rewrite bind_gets, (GetName_at u σ2 _ _ Hm2 (metadata_of_with _ _)).
  rewrite string_at_stripped by done.
  rewrite (bind_Returns _ _ _ _ _ (dri_Patch_run _ _ _ _ _ _ _)).
  change (requests σ2) with (requests σ).
  by destruct (client_Patch _ _ _ _ _ _ _) as [? [err|]].
Qed.
End ServerSide.

(** ** Resource mapping and namespace defaulting (apply.go:136-160) *)

Lemma string_at_insert md key key' s :
  string_at (<[key := JStr s]> md) key' = if decide (key = key') then s else string_at md key'.
Proof.
  unfold string_at. rewrite lookup_insert. by case_decide.
Qed.

Lemma string_at_defaulted_other mapping md key :
  key ≠ "namespace" → string_at (defaulted mapping md) key = string_at md key.
Proof.
  intros Hkey. unfold defaulted.
  destruct (Scope mapping); [|done]. case_bool_decide; [|done].
  rewrite string_at_insert. by case_decide.
Qed.

Lemma string_at_defaulted_namespace mapping md :
  Scope mapping = RESTScopeNameNamespace →
  string_at (defaulted mapping md) "namespace"
  = if bool_decide (string_at md "namespace" = "") then "default"
    else string_at md "namespace".
Proof.
  intros Hscope. unfold defaulted. rewrite Hscope.
  case_bool_decide; [|done]. by rewrite string_at_insert.
Qed.

Section Mapped.
Context (lib : Libraries) (c : Interface) (restMapper : RESTMapper).
Context (u : Unstructured) (l : loc) (σ : State) (m md : gmap string JSON).
Context (b : bytes) (obj : gmap string JSON) (gvk : GroupVersionKind)
        (mapping : RESTMapping).
Context (Hl : Object u = Some l) (Hm : contents u σ = Some m)
        (Hmd : metadata_of m = Some md).
Context (Hb : json_Marshal lib (Some m) = Ok b)
        (Hobj : serializer_Decode lib b = Ok (obj, gvk))
        (Hmapping : restMapper (gvk_GroupKind gvk) (gvk_Version gvk) = Ok mapping).

(** Past the mapping, the object has been defaulted in the store and the
    branch runs against [target]. *)
Lemma mapped_run ss :
  ApplyUnstructured_mapped lib c restMapper u ss σ
  = (if ss
     then ApplyUnstructured_serverSide c (target mapping md) u b
     else ApplyUnstructured_clientSide lib c (target mapping md) u obj gvk)
      (written l (with_metadata m (defaulted mapping md)) σ).
Proof using Hl Hm Hmd Hb Hobj Hmapping.
  unfold ApplyUnstructured_mapped.
  rewrite bind_gets, Hm, Hb, Hobj, Hmapping.
  unfold target, defaulted. destruct (Scope mapping).
  - mnorm. rewrite (GetNamespace_at u σ m md Hm Hmd).
    case_bool_decide as Hns.
    + rewrite (bind_Returns _ _ _ _ _ (SetNamespace_default_run u l σ m md Hl Hm Hmd)).
      set (σ1 := written l _ σ).
      assert (Hm1 : contents u σ1
                    = Some (with_metadata m (<["namespace" := JStr "default"]> md)))
        by apply (contents_written u l Hl).
      mnorm. by rewrite (GetNamespace_at u σ1 _ _ Hm1 (metadata_of_with _ _)).
    + mnorm. rewrite (GetNamespace_at u σ m md Hm Hmd).
      by rewrite (with_metadata_same _ _ Hmd), (written_same u l σ m Hl Hm).
  - mnorm.
    by rewrite (with_metadata_same _ _ Hmd), (written_same u l σ m Hl Hm).
Qed.
End Mapped.

(** ** The patch strategy selector (apply.go:218) *)

Section PatchSelector.
Context (lib : Libraries).

(** On a non-nil pointer [Patch] returns, and leaves the state alone. *)
Lemma Patch_pure live modified name gvk :
  ∃ r, ∀ σ, Patch lib (Some live) modified name gvk σ = Returns r σ.
Proof.
  unfold Patch. setoid_rewrite bind_mret.
  destruct (json_Marshal lib (Some (id live))); [|by eexists].
  destruct (util_GetOriginalConfiguration lib (id live)); [|by eexists].
  destruct (Scheme_New lib gvk) as [v|e].
  - destruct (strategicpatch_NewPatchMetaFromStruct lib v); [|by eexists].
    destruct (strategicpatch_CreateThreeWayMergePatch _ _ _ _ _ _); by eexists.
  - destruct (runtime_IsNotRegisteredError e); [|by eexists].
    destruct (jsonmergepatch_CreateThreeWayJSONMergePatch _ _ _ _ _) as [?|err];
      [by eexists|].
    destruct (mergepatch_IsPreconditionFailed err); by eexists.
Qed.

Lemma Patch_nil modified name gvk σ : Patch lib None modified name gvk σ = Panics σ.
Proof. done. Qed.
End PatchSelector.

(** ** Create or patch (apply.go:183-215) *)

Lemma util_CreateApplyAnnotation_run lib u l σ m md modified :
  Object u = Some l → contents u σ = Some m → metadata_of m = Some md →
  json_Marshal lib (Some m) = Ok modified →
  util_CreateApplyAnnotation lib u σ
  = Returns (u, None) (written l (with_metadata m (stamped md modified)) σ).
Proof.
  intros Hl Hm Hmd Hb. unfold util_CreateApplyAnnotation.
  rewrite bind_gets, Hm, Hb. mnorm. rewrite (GetAnnotations_at u σ m md Hm Hmd).
  by rewrite (bind_Returns _ _ _ _ _ (SetAnnotations_run u l σ m md Hl Hm Hmd _)).
Qed.

Lemma util_CreateApplyAnnotation_failed lib u σ m err :
  contents u σ = Some m → json_Marshal lib (Some m) = Err err →
  util_CreateApplyAnnotation lib u σ = Returns (u, Some err) σ.
Proof.
  intros Hm Hb. unfold util_CreateApplyAnnotation. by rewrite bind_gets, Hm, Hb.
Qed.

Lemma string_at_stamped md modified key :
  key ≠ "annotations" → string_at (stamped md modified) key = string_at md key.
Proof. intros Hkey. unfold string_at, stamped. by rewrite lookup_insert_ne. Qed.

Section ClientSide.
Context (lib : Libraries) (c : Interface) (dri : ResourceInterface).
Context (u : Unstructured) (l : loc) (σ : State) (m md : gmap string JSON).
Context (obj : gmap string JSON) (gvk : GroupVersionKind) (modified : bytes).
Context (Hl : Object u = Some l) (Hm : contents u σ = Some m)
        (Hmd : metadata_of m = Some md).
Context (Hmodified : util_GetModifiedConfiguration lib obj true = Ok modified).

Let name := string_at md "name".
Let got := sent [ReqGet dri name] σ.

Local Lemma clientSide_get :
  ApplyUnstructured_clientSide lib c dri u obj gvk σ
  = (let '(currentUnstr, err) := client_Get c (requests σ) dri name in
     match err with
     | Some err =>
         if negb (errors_IsNotFound err)
         then
           name ← gets (GetName u);
           mret (None, Some (errorString ("retrieving current configuration of:" +:+ newline
                                          +:+ name +:+ newline +:+ "from server for:"
                                          +:+ Error err)))
         else
           '(unstructuredObj, err) ← util_CreateApplyAnnotation lib u;
           match err with
           | Some err =>
               name ← gets (GetName unstructuredObj);
               mret (None, Some (errorString ("creating " +:+ name +:+ " error: "
                                              +:+ Error err)))
           | None =>
               body ← gets (fields_of unstructuredObj);
               dri_Create c dri body
           end
     | None =>
         let '(metadata, _) := meta_Accessor (Pointer currentUnstr) in
         annotationMap ← metav1_call metadata live_GetAnnotations;
         name ← gets (GetName u);
         r ← Patch lib currentUnstr modified name gvk;
         match r with
         | Err err => mret (None, Some err)
         | Ok (patchBytes, patchType) =>
             name ← gets (GetName u);
             dri_Patch c dri name patchType patchBytes PatchOptions_zero
         end
     end) got.
Proof using Hm Hmd Hmodified.
  unfold ApplyUnstructured_clientSide. rewrite Hmodified.
  rewrite bind_gets, (GetName_at u σ m md Hm Hmd).
  rewrite (bind_Returns _ _ _ _ _ (dri_Get_run _ _ _ _)).
  by destruct (client_Get _ _ _ _).
Qed.

Lemma clientSide_get_failed cur err :
  client_Get c (requests σ) dri name = (cur, Some err) →
  errors_IsNotFound err = false →
  ApplyUnstructured_clientSide lib c dri u obj gvk σ
  = Returns (None, Some (errorString ("retrieving current configuration of:" +:+ newline
                                      +:+ name +:+ newline +:+ "from server for:"
                                      +:+ Error err))) got.
Proof using Hm Hmd Hmodified.
  intros Hget Hnf. rewrite clientSide_get, Hget, Hnf. simpl.
  rewrite bind_gets. by rewrite (GetName_at u got m md Hm Hmd).
Qed.

Lemma clientSide_create cur err stamp :
  client_Get c (requests σ) dri name = (cur, Some err) →
  errors_IsNotFound err = true →
  json_Marshal lib (Some m) = Ok stamp →
  let body := with_metadata m (stamped md stamp) in
  ApplyUnstructured_clientSide lib c dri u obj gvk σ
  = Returns (client_Create c (requests σ ++ [ReqGet dri name]) dri body)
      (sent [ReqGet dri name; ReqCreate dri body] (written l body σ)).
Proof using Hl Hm Hmd Hmodified.
  intros Hget Hnf Hstamp body. rewrite clientSide_get, Hget, Hnf. simpl.
  rewrite (bind_Returns _ _ _ _ _
             (util_CreateApplyAnnotation_run lib u l got m md stamp Hl Hm Hmd Hstamp)).
  rewrite bind_gets, (fields_of_written u l Hl), dri_Create_run.
  unfold got. by rewrite <-sent_written, sent_sent.
Qed.

Lemma clientSide_create_failed cur err err' :
  client_Get c (requests σ) dri name = (cur, Some err) →
  errors_IsNotFound err = true →
  json_Marshal lib (Some m) = Err err' →
  ApplyUnstructured_clientSide lib c dri u obj gvk σ
  = Returns (None, Some (errorString ("creating " +:+ name +:+ " error: " +:+ Error err')))
      got.
Proof using Hm Hmd Hmodified.
  intros Hget Hnf Hstamp. rewrite clientSide_get, Hget, Hnf. simpl.
  rewrite (bind_Returns _ _ _ _ _
             (util_CreateApplyAnnotation_failed lib u got m err' Hm Hstamp)).
  rewrite bind_gets. by rewrite (GetName_at u got m md Hm Hmd).
Qed.

Lemma clientSide_nil :
  client_Get c (requests σ) dri name = (None, None) →
  ApplyUnstructured_clientSide lib c dri u obj gvk σ = Panics got.
Proof using Hm Hmd Hmodified.
  intros Hget. by rewrite clientSide_get, Hget.
Qed.

Lemma clientSide_patch live :
  client_Get c (requests σ) dri name = (Some live, None) →
  ApplyUnstructured_clientSide lib c dri u obj gvk σ
  = match Patch lib (Some live) modified name gvk got with
    | Returns (Err err) _ => Returns (None, Some err) got
    | Returns (Ok (patchBytes, patchType)) _ =>
        Returns (client_Patch c (requests σ ++ [ReqGet dri name]) dri name patchType
                   patchBytes PatchOptions_zero)
          (sent [ReqGet dri name; ReqPatch dri name patchType patchBytes PatchOptions_zero] σ)
    | Panics σ' => Panics σ'
    end.
Proof using Hm Hmd Hmodified.
  intros Hget. rewrite clientSide_get, Hget. simpl. mnorm.
  rewrite (GetName_at u got m md Hm Hmd). fold name.
  destruct (Patch_pure lib live modified name gvk) as [r Hr].
  rewrite (bind_Returns _ _ _ _ _ (Hr got)), Hr.
  destruct r as [[patchBytes patchType]|err]; [|done].
  rewrite bind_gets, (GetName_at u got m md Hm Hmd), dri_Patch_run.
  unfold got. by rewrite sent_sent.
Qed.
End ClientSide.

Lemma clientSide_outcome_run lib c dri u l σ m md obj gvk :
  Object u = Some l → contents u σ = Some m → metadata_of m = Some md →
  clientSide_outcome lib c dri l m md obj gvk σ
    (ApplyUnstructured_clientSide lib c dri u obj gvk σ).
Proof.
  intros Hl Hm Hmd.
  destruct (util_GetModifiedConfiguration lib obj true) as [modified|err] eqn:Hmodified.
  2:{ unfold ApplyUnstructured_clientSide. rewrite Hmodified.
      rewrite bind_gets, (GetName_at u σ m md Hm Hmd). by apply modified_failed. }
  destruct (client_Get c (requests σ) dri (string_at md "name")) as [cur [err|]] eqn:Hget.
  - destruct (errors_IsNotFound err) eqn:Hnf.
    + destruct (json_Marshal lib (Some m)) as [stamp|err'] eqn:Hstamp.
      * erewrite clientSide_create by done. by eapply created.
      * erewrite clientSide_create_failed by done. by eapply stamp_failed.
    + erewrite clientSide_get_failed by done. by eapply get_failed.
  - destruct cur as [live|].
    + erewrite clientSide_patch by done.
      destruct (Patch_pure lib live modified (string_at md "name") gvk) as [r Hr].
      rewrite Hr. destruct r as [[patchBytes patchType]|err].
      * by eapply patched.
      * by eapply patch_failed.
    + erewrite clientSide_nil by done. by eapply current_nil.
Qed.

(** ** Every run of [ApplyUnstructured] *)

Section Runs.
Context (lib : Libraries) (c : Interface) (restMapper : RESTMapper).

Lemma mapped_entry_named u σ l m md b obj gvk mapping :
  mapped_entry lib restMapper u σ l m md b obj gvk mapping → GetName u σ ≠ "".
Proof. intros []. by erewrite GetName_at. Qed.

Lemma ApplyUnstructured_run u ss σ l m md b obj gvk mapping :
  mapped_entry lib restMapper u σ l m md b obj gvk mapping →
  ApplyUnstructured lib c restMapper u ss σ
  = (if ss
     then ApplyUnstructured_serverSide c (target mapping md) u b
     else ApplyUnstructured_clientSide lib c (target mapping md) u obj gvk)
      (written l (with_metadata m (defaulted mapping md)) σ).
Proof.
  intros E. rewrite ApplyUnstructured_named by by eapply mapped_entry_named.
  destruct E. by eapply mapped_run.
Qed.

Lemma ApplyUnstructured_serverSide_run u σ l m md b obj gvk mapping :
  mapped_entry lib restMapper u σ l m md b obj gvk mapping →
  ApplyUnstructured lib c restMapper u true σ
  = Returns (None, serverSide_error
                     (client_Patch c (requests σ) (target mapping md) (string_at md "name")
                        ApplyPatchType b serverSide_opts).2)
      (sent [ReqPatch (target mapping md) (string_at md "name") ApplyPatchType b
               serverSide_opts]
         (written l (with_metadata m (stripped (defaulted mapping md))) σ)).
Proof.
  intros E. rewrite (ApplyUnstructured_run _ _ _ _ _ _ _ _ _ _ E). destruct E.
  erewrite serverSide_run;
    [|done|by apply contents_written|by apply metadata_of_with].
  rewrite string_at_defaulted_other by done.
  by rewrite written_twice, with_metadata_twice.
Qed.

(** [ApplyUnstructured] ends in one of the ways of
    [ApplyUnstructured_outcome]. *)
Lemma ApplyUnstructured_outcome_run u ss σ :
  ApplyUnstructured_outcome lib c restMapper u ss σ
    (ApplyUnstructured lib c restMapper u ss σ).
Proof.
  destruct (decide (GetName u σ = "")) as [Hname|Hname].
  { rewrite ApplyUnstructured_unnamed by done. by apply unnamed. }
  destruct (named_contents _ _ Hname) as (l & m & md & Hl & Hm & Hmd).
  assert (string_at md "name" ≠ "") by by erewrite <-GetName_at.
  rewrite ApplyUnstructured_named by done.
  destruct (json_Marshal lib (Some m)) as [b|err] eqn:Hb.
  2:{ unfold ApplyUnstructured_mapped. rewrite bind_gets, Hm, Hb.
      by eapply marshal_failed. }
  destruct (serializer_Decode lib b) as [[obj gvk]|err] eqn:Hobj.
  2:{ unfold ApplyUnstructured_mapped. rewrite bind_gets, Hm, Hb, Hobj.
      by eapply decode_failed. }
  destruct (restMapper (gvk_GroupKind gvk) (gvk_Version gvk)) as [mapping|err] eqn:Hmapping.
  2:{ unfold ApplyUnstructured_mapped. rewrite bind_gets, Hm, Hb, Hobj, Hmapping.
      by eapply mapping_failed. }
  assert (E : mapped_entry lib restMapper u σ l m md b obj gvk mapping) by done.
  rewrite <-ApplyUnstructured_named by done. destruct ss.
  - rewrite (ApplyUnstructured_serverSide_run _ _ _ _ _ _ _ _ _ E).
    by eapply applied_serverSide.
  - rewrite (ApplyUnstructured_run _ _ _ _ _ _ _ _ _ _ E).
    eapply applied_clientSide; [done..|].
    apply clientSide_outcome_run; [done| |].
    + by apply contents_written.
    + by apply metadata_of_with.
Qed.
End Runs.

(** Whatever [ApplyUnstructured] returns next to an error is nil, unless the
    client itself answered a create or a patch with both. *)
Lemma failure_without_object lib c restMapper u ss σ object err σ' :
  conventional c →
  ApplyUnstructured lib c restMapper u ss σ = Returns (object, Some err) σ' →
  object = None.
Proof.
  intros [Hcreate Hpatch] Hrun.
  pose proof (ApplyUnstructured_outcome_run lib c restMapper u ss σ) as Hout.
  rewrite Hrun in Hout. inversion Hout; subst; try done.
  match goal with H : clientSide_outcome _ _ _ _ _ _ _ _ _ _ |- _ => inversion H end;
    subst; try done.
  - by eapply Hcreate.
  - by eapply Hpatch.
Qed.

(** ** Validation (apply.go:128-134) *)

(** C4. An object whose name is empty is not rejected with a validation
    error: [ApplyUnstructured] panics on it, whether it carries a
    generate-name or not. At apply.go:129 the struct itself, not its
    address, goes to [meta.Accessor]; only [*Unstructured] has the methods of
    [metav1.Object], so the accessor is nil and the call of line 130 is a call
    on a nil interface. The rejection of line 132 is never reached. Nothing
    has been sent and the object is as it was. *)
Theorem empty_name_panics lib c restMapper u ss σ :
  GetName u σ = "" →
  ApplyUnstructured lib c restMapper u ss σ = Panics σ.
Proof. apply ApplyUnstructured_unnamed. Qed.

Lemma empty_name_panics_witness :
  GetName Fixture.held (Fixture.holding Fixture.gen) = ""
  ∧ GetGenerateName Fixture.held (Fixture.holding Fixture.gen) = "web-"
  ∧ ApplyUnstructured Fixture.lib Fixture.client Fixture.mapper Fixture.held false
      (Fixture.holding Fixture.gen)
    = Panics (Fixture.holding Fixture.gen)
  ∧ GetGenerateName Fixture.held (Fixture.holding Fixture.nameless) = ""
  ∧ ApplyUnstructured Fixture.lib Fixture.client Fixture.mapper Fixture.held false
      (Fixture.holding Fixture.nameless)
    = Panics (Fixture.holding Fixture.nameless).
Proof.
  split; [reflexivity|]. split; [reflexivity|].
  split; [apply empty_name_panics; reflexivity|].
  split; [reflexivity|].
  apply (empty_name_panics Fixture.lib Fixture.client Fixture.mapper Fixture.held false
           (Fixture.holding Fixture.nameless)).
  reflexivity.
Defined.

(** ** The batch coordinator (apply.go:66) *)

Section Batch.
Context (lib : Libraries) (o : applyOptions) (restMapper : RESTMapper).

Lemma Apply_range_app pre post failed σ failed' σ' :
  Apply_range lib o restMapper pre failed σ = Returns failed' σ' →
  Apply_range lib o restMapper (pre ++ post) failed σ
  = Apply_range lib o restMapper post failed' σ'.
Proof.
  revert failed σ. induction pre as [|unstruct pre IH]; intros failed σ; simpl.
  - by intros [= -> ->].
  - intros Hrun.
    destruct (ApplyUnstructured lib (dynamicClient o) restMapper unstruct (serverSide o) σ)
      as [[object err] σ1|] eqn:Hone.
    2:{ by rewrite (bind_Panics _ _ _ _ Hone) in Hrun. }
    rewrite (bind_Returns _ _ _ _ _ Hone) in Hrun. rewrite (bind_Returns _ _ _ _ _ Hone).
    destruct err as [err|], object as [live|]; try done; mnorm; revert Hrun; mnorm; apply IH.
Qed.

Lemma Apply_range_unidentified unstruct post failed σ :
  unidentified (ApplyUnstructured lib (dynamicClient o) restMapper unstruct (serverSide o) σ)
  = true →
  Apply_range lib o restMapper (unstruct :: post) failed σ
  = Panics (final_state
              (ApplyUnstructured lib (dynamicClient o) restMapper unstruct (serverSide o) σ)).
Proof.
  simpl. unfold mbind at 1, M_bind.
  by destruct (ApplyUnstructured _ _ _ _ _ σ) as [[[live|] [err|]] σ1|].
Qed.
End Batch.

(** ** Server-side apply *)

(** C2. In server-side mode the request is an apply-patch with field manager
    [k8sutil] and force set, but its payload is [b], the serialization made
    at apply.go:136 of the object as it was on entry ([m]): the annotation
    and the managed fields are stripped afterwards, and only from the stored
    object. The payload therefore carries whatever the input carried. *)
Theorem serverSide_sends_entry_serialization lib c restMapper u σ l m md b obj gvk mapping :
  mapped_entry lib restMapper u σ l m md b obj gvk mapping →
  ∃ err σ',
    ApplyUnstructured lib c restMapper u true σ = Returns (None, err) σ'
    ∧ requests σ'
      = (requests σ ++ [ReqPatch (target mapping md) (string_at md "name") ApplyPatchType b
                          serverSide_opts])%list
    ∧ contents u σ' = Some (with_metadata m (stripped (defaulted mapping md))).
Proof.
  intros E. do 2 eexists. split; [by eapply ApplyUnstructured_serverSide_run|].
  split; [done|]. destruct E. by apply contents_written.
Qed.

(** The payload sent for [Fixture.cfg] decodes to [Fixture.cfg] itself, with
    its last-applied annotation and its managed fields. *)
Lemma serverSide_sends_entry_serialization_witness :
  ∃ b err σ',
    ApplyUnstructured Fixture.lib Fixture.client Fixture.mapper Fixture.held true
      (Fixture.holding Fixture.cfg) = Returns (None, err) σ'
    ∧ requests σ' = [ReqPatch (Fixture.configmaps "prod") "cfg" ApplyPatchType b serverSide_opts]
    ∧ contents Fixture.held σ' = Some Fixture.cfg_stripped
    ∧ serializer_Decode Fixture.lib b = Ok (Fixture.cfg, GVK "" "v1" "ConfigMap")
    ∧ is_Some (live_GetAnnotations Fixture.cfg ≫= (.!! LastAppliedConfigAnnotation))
    ∧ is_Some (NestedFieldNoCopy Fixture.cfg ["metadata"; "managedFields"]).
Proof.
  destruct (serverSide_sends_entry_serialization Fixture.lib Fixture.client Fixture.mapper
              Fixture.held (Fixture.holding Fixture.cfg) 1%positive Fixture.cfg
              (default ∅ (metadata_of Fixture.cfg))
              (Fixture.text (JObj Fixture.cfg)) Fixture.cfg (GVK "" "v1" "ConfigMap")
              {| Resource := GVR "" "v1" "ConfigMap"; Scope := RESTScopeNameNamespace |})
    as (err & σ' & Hrun & Hrequests & Hcontents).
  { split; vm_compute; first [reflexivity | discriminate]. }
  exists (Fixture.text (JObj Fixture.cfg)), err, σ'.
  split; [exact Hrun|]. split; [exact Hrequests|]. split; [exact Hcontents|].
  split; [vm_compute; reflexivity|]. split; vm_compute; eexists; reflexivity.
Defined.

(** ** What [ApplyUnstructured] returns *)

(** C3. The object [ApplyUnstructured] returns is the client's answer only
    on a successful create or classic patch. In server-side mode it is nil,
    success included; and it is nil next to every error (unless the client
    itself answers a create or patch with both an object and an error), not
    the last-known object. *)
Theorem ApplyUnstructured_returned_object lib c restMapper u ss σ object err σ' :
  ApplyUnstructured lib c restMapper u ss σ = Returns (object, err) σ' →
  (ss = true → object = None)
  ∧ (conventional c → is_Some err → object = None)
  ∧ (ss = false → err = None →
     ∃ rs r, requests σ' = (requests σ ++ rs ++ [r])%list
             ∧ is_write r = true
             ∧ answer c (requests σ ++ rs)%list r = (object, None)).
Proof.
  intros Hrun. split_and!.
  - intros ->.
    pose proof (ApplyUnstructured_outcome_run lib c restMapper u true σ) as Hout.
    rewrite Hrun in Hout. by inversion Hout.
  - intros Hc [e ->]. by eapply failure_without_object.
  - intros -> ->.
    pose proof (ApplyUnstructured_outcome_run lib c restMapper u false σ) as Hout.
    rewrite Hrun in Hout. inversion Hout; subst; try done.
    match goal with H : clientSide_outcome _ _ _ _ _ _ _ _ _ _ |- _ => inversion H end;
      subst; try done.
    + eexists [_], _. by split_and!.
    + eexists [_], _. by split_and!.
Qed.

Lemma ApplyUnstructured_returned_object_witness :
  let σ' := {| heap := {[ 1%positive := Fixture.cfg_stripped ]};
               requests := [ReqPatch (Fixture.configmaps "prod") "cfg" ApplyPatchType
                              (Fixture.text (JObj Fixture.cfg)) serverSide_opts] |} in
  ApplyUnstructured Fixture.lib Fixture.client Fixture.mapper Fixture.held true
    (Fixture.holding Fixture.cfg) = Returns (None, None) σ'
  ∧ answer Fixture.client [] (ReqPatch (Fixture.configmaps "prod") "cfg" ApplyPatchType
                                (Fixture.text (JObj Fixture.cfg)) serverSide_opts)
    = (Some ∅, None)
  ∧ (∃ err, ApplyUnstructured Fixture.lib Fixture.broken Fixture.mapper Fixture.held false
              (Fixture.holding Fixture.web)
            = Returns (None, Some err) (sent [ReqGet (Fixture.pods "default") "web"]
                                          (Fixture.holding Fixture.web_defaulted))).
Proof.
  intros σ'.
  assert (Hrun : ApplyUnstructured Fixture.lib Fixture.client Fixture.mapper Fixture.held true
                   (Fixture.holding Fixture.cfg) = Returns (None, None) σ')
    by (vm_compute; reflexivity).
  split; [exact Hrun|]. split; [vm_compute; reflexivity|].
  destruct (ApplyUnstructured_returned_object _ _ _ _ _ _ _ _ _ Hrun) as (Hnil & _ & _).
  pose proof (Hnil eq_refl) as _.
  eexists. vm_compute. reflexivity.
Defined.

(** ** The merge strategy for unregistered kinds *)

Lemma meets_Patch_preconditions (patchMap : gmap string JSON) :
  meets Patch_preconditions patchMap = true
  ↔ patchMap !! "apiVersion" = None ∧ patchMap !! "kind" = None ∧ patchMap !! "name" = None.
Proof.
  unfold meets, Patch_preconditions. simpl.
  rewrite andb_true_r, !andb_true_iff, !bool_decide_eq_true. tauto.
Qed.

Section MergeStrategy.
Context (lib : Libraries) (live : gmap string JSON) (modified : bytes).
Context (gvk : GroupVersionKind) (unregistered : error) (current original : bytes).
Context (Hscheme : Scheme_New lib gvk = Err unregistered)
        (Hunregistered : runtime_IsNotRegisteredError unregistered = true)
        (Hcurrent : json_Marshal lib (Some live) = Ok current)
        (Horiginal : util_GetOriginalConfiguration lib live = Ok original).

Lemma Patch_merge name σ :
  Patch lib (Some live) modified name gvk σ
  = Returns (merge_result (jsonmergepatch_CreateThreeWayJSONMergePatch lib original modified
                             current Patch_preconditions)) σ.
Proof using Hscheme Hunregistered Hcurrent Horiginal.
  unfold Patch, live_call. rewrite bind_mret. unfold id.
  rewrite Hcurrent, Horiginal, Hscheme, Hunregistered.
  fold Patch_preconditions.
  destruct (jsonmergepatch_CreateThreeWayJSONMergePatch _ _ _ _ _) as [patch|err]; [done|].
  simpl. by destruct (mergepatch_IsPreconditionFailed err).
Qed.

Lemma ApplyUnstructured_merge c restMapper u σ l m md b obj mapping :
  mapped_entry lib restMapper u σ l m md b obj gvk mapping →
  util_GetModifiedConfiguration lib obj true = Ok modified →
  let dri := target mapping md in
  let name := string_at md "name" in
  let σ1 := written l (with_metadata m (defaulted mapping md)) σ in
  client_Get c (requests σ) dri name = (Some live, None) →
  ApplyUnstructured lib c restMapper u false σ
  = match jsonmergepatch_CreateThreeWayJSONMergePatch lib original modified current
            Patch_preconditions with
    | Ok patch =>
        Returns (client_Patch c (requests σ ++ [ReqGet dri name]) dri name MergePatchType
                   patch PatchOptions_zero)
          (sent [ReqGet dri name; ReqPatch dri name MergePatchType patch PatchOptions_zero] σ1)
    | Err err =>
        Returns (None, Some (if mergepatch_IsPreconditionFailed err then identity_changed
                             else errorString ("unable to apply patch, " +:+ Error err)))
          (sent [ReqGet dri name] σ1)
    end.
Proof using Hscheme Hunregistered Hcurrent Horiginal.
  intros E Hmodified dri name σ1 Hget.
  rewrite (ApplyUnstructured_run _ _ _ _ _ _ _ _ _ _ _ _ _ E). destruct E.
  erewrite clientSide_patch;
    [|by apply contents_written|by apply metadata_of_with|done|
     by rewrite string_at_defaulted_other].
  rewrite Patch_merge, string_at_defaulted_other by done.
  by destruct (jsonmergepatch_CreateThreeWayJSONMergePatch _ _ _ _ _).
Qed.
End MergeStrategy.

(** C5. For a kind the registry does not know, [Patch] selects the JSON merge
    strategy and asks the library for the three-way merge of (original,
    modified, current) under three preconditions; it reports the
    identity-changed error when the library says that a precondition failed,
    and then no patch request is sent. The preconditions are on the keys
    [apiVersion], [kind] and [name] at the top of the patch. The name of an
    object is [metadata.name]: a patch that changes it has [metadata] at its
    top and meets all three, so when the library returns it [Patch] returns it
    too and [ApplyUnstructured] sends it. *)
Theorem Patch_name_precondition lib live modified gvk unregistered current original :
  Scheme_New lib gvk = Err unregistered →
  runtime_IsNotRegisteredError unregistered = true →
  json_Marshal lib (Some live) = Ok current →
  util_GetOriginalConfiguration lib live = Ok original →
  let merged := jsonmergepatch_CreateThreeWayJSONMergePatch lib original modified current
                  Patch_preconditions in
  (∀ name σ, Patch lib (Some live) modified name gvk σ = Returns (merge_result merged) σ)
  ∧ (∀ patchMap,
       meets Patch_preconditions patchMap = true
       ↔ patchMap !! "apiVersion" = None ∧ patchMap !! "kind" = None
         ∧ patchMap !! "name" = None)
  ∧ (∀ metadata, meets Patch_preconditions {[ "metadata" := JObj metadata ]} = true)
  ∧ (∀ c restMapper u σ l m md b obj mapping,
       mapped_entry lib restMapper u σ l m md b obj gvk mapping →
       util_GetModifiedConfiguration lib obj true = Ok modified →
       let dri := target mapping md in
       let name := string_at md "name" in
       let σ1 := written l (with_metadata m (defaulted mapping md)) σ in
       client_Get c (requests σ) dri name = (Some live, None) →
       ApplyUnstructured lib c restMapper u false σ
       = match merged with
         | Ok patch =>
             Returns (client_Patch c (requests σ ++ [ReqGet dri name]) dri name MergePatchType
                        patch PatchOptions_zero)
               (sent [ReqGet dri name; ReqPatch dri name MergePatchType patch PatchOptions_zero]
                  σ1)
         | Err err =>
             Returns (None, Some (if mergepatch_IsPreconditionFailed err then identity_changed
                                  else errorString ("unable to apply patch, " +:+ Error err)))
               (sent [ReqGet dri name] σ1)
         end).
Proof.
  intros Hscheme Hunregistered Hcurrent Horiginal merged. split_and!.
  - intros name σ. by eapply Patch_merge.
  - apply meets_Patch_preconditions.
  - intros metadata. apply meets_Patch_preconditions.
    by rewrite !lookup_singleton_ne.
  - intros c restMapper u σ l m md b obj mapping E Hmodified.
    by eapply ApplyUnstructured_merge.
Qed.

Lemma Patch_name_precondition_witness :
  let σ := Fixture.holding Fixture.gadget in
  let gvk := GVK "" "example.io/v1" "Gadget" in
  let dri := {| dri_resource := GVR "" "example.io/v1" "Gadget"; dri_namespace := Some "prod" |} in
  let patch := Fixture.text (JObj {[ "metadata" := JObj {[ "name" := JStr "g1";
                                                            "namespace" := JStr "prod" ]} ]}) in
  live_GetName Fixture.gadget_renamed = "g0"
  ∧ GetName Fixture.held σ = "g1"
  ∧ Scheme_New Fixture.lib gvk = Err (notRegisteredErr "no kind Gadget is registered")
  ∧ Patch Fixture.lib (Some Fixture.gadget_renamed) (Fixture.text (JObj Fixture.gadget)) "g1"
      gvk σ
    = Returns (Ok (patch, MergePatchType)) σ
  ∧ ApplyUnstructured Fixture.lib Fixture.stale Fixture.mapper Fixture.held false σ
    = Returns (Some Fixture.gadget_renamed, None)
        (sent [ReqGet dri "g1"; ReqPatch dri "g1" MergePatchType patch PatchOptions_zero] σ).
Proof.
  intros σ gvk dri patch.
  destruct (Patch_name_precondition Fixture.lib Fixture.gadget_renamed
              (Fixture.text (JObj Fixture.gadget)) gvk
              (notRegisteredErr "no kind Gadget is registered")
              (Fixture.text (JObj Fixture.gadget_renamed)) "")
    as (Hpatch & _ & _ & Hrun); [vm_compute; reflexivity..|].
  split; [reflexivity|]. split; [reflexivity|]. split; [vm_compute; reflexivity|]. split.
  - rewrite Hpatch. vm_compute. reflexivity.
  - rewrite (Hrun Fixture.stale Fixture.mapper Fixture.held σ 1%positive Fixture.gadget
               (default ∅ (metadata_of Fixture.gadget)) (Fixture.text (JObj Fixture.gadget))
               Fixture.gadget
               {| Resource := GVR "" "example.io/v1" "Gadget"; Scope := RESTScopeNameNamespace |}).
    + vm_compute. reflexivity.
    + split; vm_compute; first [reflexivity | discriminate].
    + vm_compute. reflexivity.
    + vm_compute. reflexivity.
Defined.

(** ** The document decoder (apply.go:90) *)

Section Decoder.
Context (lib : Libraries).

Lemma alloc_run content σ :
  let l := fresh (dom (heap σ)) in
  alloc content σ = Returns l (written l content σ) ∧ heap σ !! l = None.
Proof.
  split; [done|]. apply not_elem_of_dom, is_fresh.
Qed.

(** The loop returns, without sending anything. *)
Lemma Decode_loop_returns docs unstructList i σ :
  ∃ r σ', Decode_loop lib docs unstructList i σ = Returns r σ' ∧ requests σ' = requests σ.
Proof.
  revert unstructList i σ. induction docs as [|[raw|err] docs IH]; intros acc i σ; simpl.
  - by eexists _, _.
  - destruct (serializer_Decode lib raw) as [[obj gvk]|]; [|by eexists _, _].
    destruct (util_ConvertSingleObjectToUnstructured lib obj) as [content|];
      [|by eexists _, _].
    rewrite (bind_Returns _ _ _ _ _ (proj1 (alloc_run content σ))).
    destruct (IH (acc ++ [{| Object := Some (fresh (dom (heap σ))) |}])%list (S i)
                (written (fresh (dom (heap σ))) content σ)) as (r & σ' & -> & Hreq).
    by eexists _, _.
  - by eexists _, _.
Qed.

Lemma Decode_returns data σ :
  ∃ unstructList err σ',
    Decode lib data σ = Returns (unstructList, err) σ' ∧ requests σ' = requests σ.
Proof.
  unfold Decode.
  destruct (Decode_loop_returns (yaml_documents lib data) [] 1 σ)
    as ([[unstructList i] err] & σ' & Hloop & Hreq).
  rewrite (bind_Returns _ _ _ _ _ Hloop).
  destruct (negb (is_EOF err)); by eexists _, _, _.
Qed.

(** Over a prefix of well-formed documents the loop allocates one object per
    document, in order, and counts them. *)
Lemma Decode_loop_prefix pre contents_ :
  Forall2 (λ d content, decode_document lib d = Some content) pre contents_ →
  ∀ rest unstructList i σ,
    ∃ news σ',
      Decode_loop lib (pre ++ rest) unstructList i σ
      = Decode_loop lib rest (unstructList ++ news) (i + length pre) σ'
      ∧ Forall2 (λ u content, contents u σ' = Some content) news contents_
      ∧ requests σ' = requests σ
      ∧ heap σ ⊆ heap σ'.
Proof.
  induction 1 as [|d content pre contents_ Hd Hpre IH]; intros rest acc i σ.
  - exists [], σ. rewrite app_nil_r, Nat.add_0_r. by split_and!.
  - unfold decode_document in Hd. destruct d as [raw|]; [|done].
    simpl. destruct (serializer_Decode lib raw) as [[obj gvk]|]; [|done].
    destruct (util_ConvertSingleObjectToUnstructured lib obj) as [?|]; [|done].
    injection Hd as ->.
    destruct (alloc_run content σ) as [Halloc Hfresh].
    rewrite (bind_Returns _ _ _ _ _ Halloc).
    set (l := fresh (dom (heap σ))) in *.
    destruct (IH rest (acc ++ [{| Object := Some l |}])%list (S i) (written l content σ))
      as (news & σ' & -> & Hnews & Hreq & Hsub).
    exists ({| Object := Some l |} :: news), σ'. split_and!.
    + f_equal; [by rewrite <-(assoc_L (++))|lia].
    + constructor; [|done]. unfold contents. simpl.
      eapply lookup_weaken; [|done]. apply lookup_insert_eq.
    + done.
    + etrans; [|done]. by apply insert_subseteq.
Qed.
End Decoder.

(** C7. When the k-th document of a stream is malformed and the k-1 before
    it are well formed, [Decode] returns the k-1 objects decoded from them,
    in order, together with an error that names the ordinal k. *)
Theorem Decode_malformed_document lib data σ pre bad post contents_ :
  yaml_documents lib data = (pre ++ bad :: post)%list →
  Forall2 (λ d content, decode_document lib d = Some content) pre contents_ →
  malformed lib bad →
  ∃ unstructList σ',
    Decode lib data σ
    = Returns (unstructList,
               Some (errorString ("parsing the section:[" +:+ pretty (S (length pre))
                                  +:+ "] content error, " +:+ fmt_v (stream_error bad)))) σ'
    ∧ Forall2 (λ u content, contents u σ' = Some content) unstructList contents_
    ∧ length unstructList = length pre
    ∧ requests σ' = requests σ.
Proof.
  intros Hdocs Hpre [Hbad Heof]. unfold Decode. rewrite Hdocs.
  destruct (Decode_loop_prefix lib pre contents_ Hpre (bad :: post) [] 1 σ)
    as (news & σ' & Hloop & Hnews & Hreq & _).
  exists news, σ'. split_and!; [|done| |done].
  - destruct bad as [raw|err].
    + assert (Decode_loop lib (Ok raw :: post) ([] ++ news) (1 + length pre) σ'
              = Returns ([] ++ news, 1 + length pre, None)%list σ') as Hlast.
      { unfold decode_document in Hbad. simpl.
        destruct (serializer_Decode lib raw) as [[obj gvk]|]; [|done].
        by destruct (util_ConvertSingleObjectToUnstructured lib obj). }
      rewrite <-Hloop in Hlast. by rewrite (bind_Returns _ _ _ _ _ Hlast).
    + assert (Decode_loop lib (Err err :: post) ([] ++ news) (1 + length pre) σ'
              = Returns ([] ++ news, 1 + length pre, Some err)%list σ') as Hlast by done.
      rewrite <-Hloop in Hlast. rewrite (bind_Returns _ _ _ _ _ Hlast).
      by destruct err.
  - rewrite (Forall2_length _ _ _ Hnews). symmetry. by eapply Forall2_length.
Qed.

Lemma Decode_malformed_document_witness :
  ∃ unstructList σ',
    Decode Fixture.lib Fixture.damaged Fixture.empty
    = Returns (unstructList,
               Some (errorString "parsing the section:[2] content error, <nil>")) σ'
    ∧ Forall2 (λ u content, contents u σ' = Some content) unstructList [Fixture.web]
    ∧ length unstructList = 1.
Proof.
  destruct (Decode_malformed_document Fixture.lib Fixture.damaged Fixture.empty
              [Ok (Fixture.text (JObj Fixture.web))] (Ok "{kind")
              [Ok (Fixture.text (JObj Fixture.db))] [Fixture.web])
    as (unstructList & σ' & Hrun & Hcontents & Hlength & _).
  - vm_compute. reflexivity.
  - constructor; [vm_compute; reflexivity|constructor].
  - split; [vm_compute; reflexivity|discriminate].
  - exists unstructList, σ'. split; [exact Hrun|]. split; [exact Hcontents|exact Hlength].
Defined.

(** C6. [Apply] returns a non-nil error exactly when the REST mapper cannot
    be set up or [Decode] returns an error; it then returns that error with
    no Failure Record and has sent no request. When both succeed, whatever
    happens to the objects, a returning [Apply] returns a nil error. *)
Theorem Apply_hard_error lib o data σ failed err σ' :
  Apply lib o data σ = Returns (failed, Some err) σ'
  ↔ failed = [] ∧ requests σ' = requests σ
    ∧ (ToRESTMapper o = Err err ∧ σ' = σ
       ∨ ∃ restMapper unstructList,
           ToRESTMapper o = Ok restMapper
           ∧ Decode lib data σ = Returns (unstructList, Some err) σ').
Proof.
  unfold Apply. destruct (Decode_returns lib data σ) as (us & derr & σ1 & Hdecode & Hreq).
  split.
  - destruct (ToRESTMapper o) as [restMapper|e].
    + rewrite (bind_Returns _ _ _ _ _ Hdecode). destruct derr as [e|].
      * intros [= -> -> ->]. split_and!; [done..|]. right. by eexists _, _.
      * intros Hrange. exfalso. revert Hrange. unfold mbind, M_bind.
        by destruct (Apply_range lib o restMapper us [] σ1).
    + intros [= -> -> ->]. split_and!; [done..|]. by left.
  - intros (-> & _ & [[-> ->]|(restMapper & unstructList & -> & Hdecode')]); [done|].
    rewrite Hdecode' in Hdecode. injection Hdecode as -> <- ->.
    by rewrite (bind_Returns _ _ _ _ _ Hdecode').
Qed.

Lemma Apply_hard_error_witness :
  Apply Fixture.lib (NewApplyOptions Fixture.client Fixture.unreachable)
    Fixture.three_documents Fixture.empty
  = Returns ([], Some (errorString "connection refused")) Fixture.empty
  ∧ ∃ σ', Apply Fixture.lib Fixture.options Fixture.damaged Fixture.empty
          = Returns ([], Some (errorString "parsing the section:[2] content error, <nil>")) σ'
          ∧ requests σ' = [].
Proof.
  split.
  - apply Apply_hard_error. split; [reflexivity|]. split; [reflexivity|].
    left. split; reflexivity.
  - exists (Fixture.holding Fixture.web). split; [|reflexivity].
    apply Apply_hard_error. split; [reflexivity|]. split; [reflexivity|].
    right. exists Fixture.mapper, [Fixture.first]. split; [reflexivity|].
    vm_compute. reflexivity.
Defined.

(** ** The object after [ApplyUnstructured] *)

Lemma omap_as_string_fmap (a : gmap string string) : omap as_string (JStr <$> a) = a.
Proof.
  apply map_eq. intros k. rewrite lookup_omap, lookup_fmap. by destruct (a !! k).
Qed.

Lemma annotations_at_insert md (a : gmap string string) :
  annotations_at (<["annotations" := JObj (JStr <$> a)]> md) = Some a.
Proof.
  unfold annotations_at. rewrite lookup_insert_eq.
  rewrite bool_decide_eq_true_2, omap_as_string_fmap; [done|].
  intros k v. rewrite lookup_fmap. destruct (a !! k); simpl; [|done].
  intros [= <-]. by eexists.
Qed.

Lemma annotations_at_delete md key :
  key ≠ "annotations" → annotations_at (delete key md) = annotations_at md.
Proof. intros Hkey. unfold annotations_at. by rewrite lookup_delete_ne. Qed.

Lemma annotations_at_stripped md :
  annotations_at (stripped md) ≫= (.!! LastAppliedConfigAnnotation) = None.
Proof.
  unfold stripped, strip_annotation. rewrite annotations_at_delete by done.
  destruct (annotations_at md) as [a|] eqn:Ha; [|by rewrite Ha].
  case_bool_decide as Hkey.
  - rewrite annotations_at_insert. simpl. apply lookup_delete_eq.
  - rewrite Ha. simpl. by apply eq_None_not_Some.
Qed.

Lemma annotations_at_stamped md stamp :
  annotations_at (stamped md stamp) ≫= (.!! LastAppliedConfigAnnotation) = Some stamp.
Proof.
  unfold stamped. rewrite annotations_at_insert. simpl. apply lookup_insert_eq.
Qed.

Lemma sent_nil σ : sent [] σ = σ.
Proof. destruct σ. unfold sent. simpl. by rewrite app_nil_r. Qed.

(** Under a mapping, every run ends with the object rewritten in place and a
    suffix of requests that all go through [target]. *)
Lemma ApplyUnstructured_final lib c restMapper u ss σ l m md b obj gvk mapping :
  mapped_entry lib restMapper u σ l m md b obj gvk mapping →
  ∃ md' rs,
    final_state (ApplyUnstructured lib c restMapper u ss σ)
    = sent rs (written l (with_metadata m md') σ)
    ∧ Forall (λ q, request_target q = target mapping md) rs
    ∧ (ss = true → rs ≠ [])
    ∧ rewritten ss mapping md md'.
Proof.
  intros E. unfold rewritten. destruct ss.
  - rewrite (ApplyUnstructured_serverSide_run _ _ _ _ _ _ _ _ _ _ _ _ E).
    eexists _, _. split_and!; [done| |done..]. by repeat constructor.
  - rewrite (ApplyUnstructured_run _ _ _ _ _ _ _ _ _ _ _ _ _ E). destruct E.
    set (md1 := defaulted mapping md). set (σ1 := written l (with_metadata m md1) σ).
    pose proof (clientSide_outcome_run lib c (target mapping md) u l σ1
                  (with_metadata m md1) md1 obj gvk entry_Object0
                  (contents_written u l entry_Object0 σ _) (metadata_of_with _ _)) as Hout.
    inversion Hout; simpl.
    + exists md1, []. rewrite sent_nil. split_and!; [done|constructor|done|by left].
    + exists md1, [ReqGet (target mapping md) (string_at md1 "name")].
      split_and!; [done|by repeat constructor|done|by left].
    + exists md1, [ReqGet (target mapping md) (string_at md1 "name")].
      split_and!; [done|by repeat constructor|done|by left].
    + eexists (stamped md1 stamp), [_; _].
      repeat match goal with x := _ |- _ => subst x end.
      rewrite written_twice, with_metadata_twice.
      split_and!; [done|by repeat constructor|done|right; by eexists].
    + exists md1, [ReqGet (target mapping md) (string_at md1 "name")].
      split_and!; [done|by repeat constructor|done|by left].
    + exists md1, [ReqGet (target mapping md) (string_at md1 "name")].
      split_and!; [done|by repeat constructor|done|by left].
    + eexists md1, [_; _].
      split_and!; [done|by repeat constructor|done|by left].
Qed.

Lemma string_at_final mapping md md' (ss : bool) key :
  key ≠ "annotations" → key ≠ "managedFields" →
  rewritten ss mapping md md' →
  string_at md' key = string_at (defaulted mapping md) key.
Proof.
  intros H1 H2. unfold rewritten. destruct ss.
  - intros ->. by apply string_at_stripped.
  - intros [->|[stamp ->]]; [done|]. by apply string_at_stamped.
Qed.

Lemma contents_final u l σ m md' rs :
  Object u = Some l → contents u (sent rs (written l (with_metadata m md') σ))
                      = Some (with_metadata m md').
Proof. intros Hl. by apply contents_written. Qed.

(** ** The create path (apply.go:188-202) *)

(** C8. When the get answers with a not-found error, the object is stamped
    with the last-applied annotation and then created: the create request
    carries the stamped object, what [ApplyUnstructured] returns is the
    client's answer to it, and the caller's object is the stamped one. When
    the get answers with any other error, [ApplyUnstructured] fails after the
    get alone; no create is sent. *)
Theorem create_path lib c restMapper u σ l m md b obj gvk mapping modified cur err :
  mapped_entry lib restMapper u σ l m md b obj gvk mapping →
  util_GetModifiedConfiguration lib obj true = Ok modified →
  let dri := target mapping md in
  let name := string_at md "name" in
  let md1 := defaulted mapping md in
  client_Get c (requests σ) dri name = (cur, Some err) →
  (errors_IsNotFound err = true →
   ∀ stamp, json_Marshal lib (Some (with_metadata m md1)) = Ok stamp →
     let body := with_metadata m (stamped md1 stamp) in
     ApplyUnstructured lib c restMapper u false σ
     = Returns (client_Create c (requests σ ++ [ReqGet dri name]) dri body)
         (sent [ReqGet dri name; ReqCreate dri body] (written l body σ))
     ∧ live_GetAnnotations body ≫= (.!! LastAppliedConfigAnnotation) = Some stamp)
  ∧ (errors_IsNotFound err = false →
     ApplyUnstructured lib c restMapper u false σ
     = Returns (None, Some (errorString ("retrieving current configuration of:" +:+ newline
                                         +:+ name +:+ newline +:+ "from server for:"
                                         +:+ Error err)))
         (sent [ReqGet dri name] (written l (with_metadata m md1) σ))).
Proof.
  intros E Hmodified dri name md1 Hget. subst dri name md1.
  rewrite (ApplyUnstructured_run _ _ _ _ _ _ _ _ _ _ _ _ _ E). destruct E.
  assert (string_at (defaulted mapping md) "name" = string_at md "name") as Hname
    by by apply string_at_defaulted_other.
  split.
  - intros Hnf stamp Hstamp body. subst body. split.
    + erewrite clientSide_create;
        [|done|by apply contents_written|by apply metadata_of_with|done
         |by rewrite Hname|done|done].
      rewrite Hname, written_twice, with_metadata_twice. done.
    + unfold live_GetAnnotations.
      rewrite (NestedStringMap_annotations _ _ (metadata_of_with _ _)).
      apply annotations_at_stamped.
  - intros Hnf.
    erewrite clientSide_get_failed;
      [|by apply contents_written|by apply metadata_of_with|done|by rewrite Hname|done].
    by rewrite Hname.
Qed.

Lemma web_entry :
  mapped_entry Fixture.lib Fixture.mapper Fixture.held (Fixture.holding Fixture.web)
    1%positive Fixture.web (default ∅ (metadata_of Fixture.web))
    (Fixture.text (JObj Fixture.web)) Fixture.web (GVK "" "v1" "Pod")
    {| Resource := GVR "" "v1" "Pod"; Scope := RESTScopeNameNamespace |}.
Proof. split; vm_compute; first [reflexivity | discriminate]. Defined.

Lemma cfg_entry :
  mapped_entry Fixture.lib Fixture.mapper Fixture.held (Fixture.holding Fixture.cfg)
    1%positive Fixture.cfg (default ∅ (metadata_of Fixture.cfg))
    (Fixture.text (JObj Fixture.cfg)) Fixture.cfg (GVK "" "v1" "ConfigMap")
    {| Resource := GVR "" "v1" "ConfigMap"; Scope := RESTScopeNameNamespace |}.
Proof. split; vm_compute; first [reflexivity | discriminate]. Defined.

(** [Fixture.web] is not in the cluster: it is stamped and created. Behind
    the broken server the get fails with status 500 and nothing is
    created. *)
Lemma create_path_witness :
  ApplyUnstructured Fixture.lib Fixture.client Fixture.mapper Fixture.held false
    (Fixture.holding Fixture.web)
  = Returns (Some Fixture.web_created, None)
      {| heap := {[ 1%positive := Fixture.web_created ]};
         requests := [ReqGet (Fixture.pods "default") "web";
                      ReqCreate (Fixture.pods "default") Fixture.web_created] |}
  ∧ live_GetAnnotations Fixture.web_created ≫= (.!! LastAppliedConfigAnnotation)
    = Some (Fixture.text (JObj Fixture.web_defaulted))
  ∧ ∃ err, ApplyUnstructured Fixture.lib Fixture.broken Fixture.mapper Fixture.held false
             (Fixture.holding Fixture.web)
           = Returns (None, Some err)
               {| heap := {[ 1%positive := Fixture.web_defaulted ]};
                  requests := [ReqGet (Fixture.pods "default") "web"] |}.
Proof.
  destruct (create_path Fixture.lib Fixture.client Fixture.mapper Fixture.held
              (Fixture.holding Fixture.web) _ _ _ _ _ _ _
              (Fixture.text (JObj Fixture.web)) None (Fixture.not_found "web") web_entry)
    as [Hcreate _]; [reflexivity|vm_compute; reflexivity|].
  destruct (Hcreate eq_refl (Fixture.text (JObj Fixture.web_defaulted)))
    as [Hrun Hstamp]; [vm_compute; reflexivity|].
  destruct (create_path Fixture.lib Fixture.broken Fixture.mapper Fixture.held
              (Fixture.holding Fixture.web) _ _ _ _ _ _ _
              (Fixture.text (JObj Fixture.web)) None
              (StatusError 500 (StatusReasonOther "InternalError") "internal error") web_entry)
    as [_ Hfail]; [reflexivity|vm_compute; reflexivity|].
  split; [|split].
  - etrans; [exact Hrun|]. vm_compute. reflexivity.
  - vm_compute. reflexivity.
  - eexists. etrans; [exact (Hfail eq_refl)|]. vm_compute. reflexivity.
Defined.

(** ** Namespace defaulting (apply.go:152-160) *)

(** C9. Under a namespaced mapping, an object with an empty namespace is
    applied through the namespace [default] and gets that namespace; one with
    a namespace is applied through its own and keeps it. Under a
    cluster-scoped mapping the requests carry no namespace and the
    object's namespace field is left as it is. This holds for every request
    of the run, and server-side apply always sends one. *)
Theorem namespace_defaulting lib c restMapper u ss σ l m md b obj gvk mapping :
  mapped_entry lib restMapper u σ l m md b obj gvk mapping →
  let σ' := final_state (ApplyUnstructured lib c restMapper u ss σ) in
  let namespace := GetNamespace u σ in
  ∃ rs,
    requests σ' = (requests σ ++ rs)%list
    ∧ (ss = true → rs ≠ [])
    ∧ match Scope mapping with
      | RESTScopeNameNamespace =>
          let ns := if bool_decide (namespace = "") then "default" else namespace in
          Forall (λ q, request_target q
                       = dynamic_Namespace (dynamic_Resource (Resource mapping)) ns) rs
          ∧ GetNamespace u σ' = ns
      | RESTScopeNameRoot =>
          Forall (λ q, request_target q = dynamic_Resource (Resource mapping)) rs
          ∧ GetNamespace u σ' = namespace
      end.
Proof.
  intros E σ' namespace.
  destruct (ApplyUnstructured_final lib c restMapper u ss σ l m md b obj gvk mapping E)
    as (md' & rs & Hfinal & Htarget & Hsome & Hmd').
  pose proof (string_at_final mapping md md' ss "namespace" ltac:(done) ltac:(done) Hmd')
    as Hns.
  destruct E.
  assert (GetNamespace u σ' = string_at (defaulted mapping md) "namespace") as Hns'.
  { unfold σ'. rewrite Hfinal.
    erewrite GetNamespace_at; [|by apply contents_final|by apply metadata_of_with]. done. }
  assert (namespace = string_at md "namespace") as Hnamespace
    by by eapply GetNamespace_at.
  exists rs. split; [unfold σ'; by rewrite Hfinal|]. split; [done|].
  unfold target in Htarget. destruct (Scope mapping) eqn:Hscope.
  - rewrite string_at_defaulted_namespace in Htarget, Hns' by done.
    by rewrite <-Hnamespace in Htarget, Hns'.
  - unfold defaulted in Hns'. rewrite Hscope in Hns'. by rewrite <-Hnamespace in Hns'.
Qed.

Lemma namespace_defaulting_witness :
  let σ' := final_state (ApplyUnstructured Fixture.lib Fixture.client Fixture.mapper
                           Fixture.held false (Fixture.holding Fixture.web)) in
  GetNamespace Fixture.held (Fixture.holding Fixture.web) = ""
  ∧ requests σ' = [ReqGet (Fixture.pods "default") "web";
                   ReqCreate (Fixture.pods "default") Fixture.web_created]
  ∧ ∃ rs, requests σ' = rs
          ∧ Forall (λ q, request_target q = Fixture.pods "default") rs
          ∧ GetNamespace Fixture.held σ' = "default".
Proof.
  intros σ'. split; [reflexivity|]. split; [vm_compute; reflexivity|].
  destruct (namespace_defaulting Fixture.lib Fixture.client Fixture.mapper Fixture.held false
              (Fixture.holding Fixture.web) _ _ _ _ _ _ _ web_entry)
    as (rs & Hrequests & _ & Htarget & Hnamespace).
  exists rs. split; [exact Hrequests|]. split; [exact Htarget|exact Hnamespace].
Defined.

(** ** Mutation of the caller's object *)

(** An object whose [metadata] map has been rewritten by a run shows the
    changes of [mutated]. *)
Lemma mutated_intro u σ σ' ss mapping m md md' :
  contents u σ = Some m → metadata_of m = Some md →
  contents u σ' = Some (with_metadata m md') →
  rewritten ss mapping md md' →
  mutated u σ σ' ss mapping.
Proof.
  intros Hm Hmd Hm' Hmd'.
  pose proof (string_at_final mapping md md' ss "namespace" ltac:(done) ltac:(done) Hmd')
    as Hns.
  split.
  - intros Hscope Hempty.
    assert (GetNamespace u σ' = "default") as Hdefault.
    { erewrite GetNamespace_at; [|done|by apply metadata_of_with].
      rewrite Hns, string_at_defaulted_namespace by done.
      erewrite <-(GetNamespace_at u σ) by done. by rewrite Hempty. }
    split; [done|]. intros Heq.
    assert (GetNamespace u σ' = GetNamespace u σ) as Hsame
      by (unfold GetNamespace, fields_of; by rewrite Heq).
    by rewrite Hdefault, Hempty in Hsame.
  - intros ->. unfold rewritten in Hmd'. subst md'.
    assert (GetAnnotations u σ' ≫= (.!! LastAppliedConfigAnnotation) = None) as Hann.
    { erewrite GetAnnotations_at; [|done|by apply metadata_of_with].
      apply annotations_at_stripped. }
    assert (NestedFieldNoCopy (fields_of u σ') ["metadata"; "managedFields"] = None) as Hmf.
    { unfold fields_of. rewrite Hm'. simpl. unfold with_metadata.
      rewrite lookup_insert_eq. apply lookup_delete_eq. }
    split_and!; [done..|].
    intros Hhad Heq.
    assert (GetAnnotations u σ' = GetAnnotations u σ) as Hsame
      by (unfold GetAnnotations, fields_of; by rewrite Heq).
    assert (fields_of u σ' = fields_of u σ) as Hsame'
      by (unfold fields_of; by rewrite Heq).
    rewrite Hsame in Hann. rewrite Hsame' in Hmf.
    rewrite Hann, Hmf in Hhad. by destruct Hhad as [[??]|[??]].
Qed.

(** ** Consequences for a whole batch *)

Section BatchRuns.
Context (lib : Libraries) (o : applyOptions) (restMapper : RESTMapper).

(** A loop that returns has had every attempt return, and a record was
    added only for an attempt that returned an object next to its error. *)
Lemma Apply_range_cons unstruct unstructList failed σ failed' σ' :
  Apply_range lib o restMapper (unstruct :: unstructList) failed σ = Returns failed' σ' →
  ∃ object err σ1 failed1,
    ApplyUnstructured lib (dynamicClient o) restMapper unstruct (serverSide o) σ
    = Returns (object, err) σ1
    ∧ Apply_range lib o restMapper unstructList failed1 σ1 = Returns failed' σ'
    ∧ (err = None → failed1 = failed)
    ∧ (is_Some err → is_Some object).
Proof.
  simpl. intros Hrun.
  destruct (ApplyUnstructured lib (dynamicClient o) restMapper unstruct (serverSide o) σ)
    as [[object err] σ1|] eqn:Hone.
  2:{ by rewrite (bind_Panics _ _ _ _ Hone) in Hrun. }
  rewrite (bind_Returns _ _ _ _ _ Hone) in Hrun.
  destruct err as [err|], object as [live|]; revert Hrun; mnorm; intros Hrun.
  - eexists _, _, _, _. split_and!; [done|exact Hrun|done|by eexists].
  - by rewrite (bind_Panics _ _ σ1 σ1) in Hrun.
  - eexists _, _, _, _. split_and!; [done|exact Hrun|done|by intros [??]].
  - eexists _, _, _, _. split_and!; [done|exact Hrun|done|by intros [??]].
Qed.

(** With a client that hands out no object next to an error, a loop that
    returns has recorded nothing. *)
Lemma Apply_range_reports_nothing unstructList failed σ failed' σ' :
  conventional (dynamicClient o) →
  Apply_range lib o restMapper unstructList failed σ = Returns failed' σ' →
  failed' = failed.
Proof.
  intros Hc. revert failed σ.
  induction unstructList as [|unstruct unstructList IH]; intros failed σ.
  - by intros [= -> ->].
  - intros (object & err & σ1 & failed1 & Hone & Hrest & Hnone & Hsome)%Apply_range_cons.
    destruct err as [err|].
    + rewrite (failure_without_object _ _ _ _ _ _ _ _ _ Hc Hone) in Hsome.
      by destruct (Hsome (mk_is_Some _ _ eq_refl)) as [??].
    + rewrite <-(Hnone eq_refl). by eapply IH.
Qed.

(** The store outside the object applied is left alone. *)
Lemma ApplyUnstructured_frame c u ss σ l' :
  Object u ≠ Some l' →
  heap (final_state (ApplyUnstructured lib c restMapper u ss σ)) !! l' = heap σ !! l'.
Proof.
  intros Hl'.
  pose proof (ApplyUnstructured_outcome_run lib c restMapper u ss σ) as Hout.
  assert (∀ l, Object u = Some l → l ≠ l') as Hne by congruence.
  destruct Hout as [| | | |l m md b obj gvk mapping []|l m md b obj gvk mapping r [] ? Hr];
    try done.
  - simpl. apply lookup_insert_ne; auto.
  - destruct Hr; simpl; rewrite ?lookup_insert_ne; auto.
Qed.

Lemma Apply_range_frame unstructList l' :
  Some l' ∉ Object <$> unstructList →
  ∀ failed σ failed' σ',
    Apply_range lib o restMapper unstructList failed σ = Returns failed' σ' →
    heap σ' !! l' = heap σ !! l'.
Proof.
  induction unstructList as [|unstruct unstructList IH]; intros Hl' failed σ failed' σ'.
  - by intros [= _ ->].
  - intros (object & err & σ1 & failed1 & Hone & Hrest & _)%Apply_range_cons.
    rewrite fmap_cons, not_elem_of_cons in Hl'. destruct Hl' as [Hl' Hrest'].
    rewrite (IH Hrest' _ _ _ _ Hrest).
    rewrite <-(ApplyUnstructured_frame (dynamicClient o) unstruct (serverSide o) σ l')
      by done.
    by rewrite Hone.
Qed.
End BatchRuns.

(** With a conventional client [Apply] never returns a Failure Record: it
    returns an empty list or panics. *)
Lemma Apply_reports_nothing lib o data σ failed err σ' :
  conventional (dynamicClient o) →
  Apply lib o data σ = Returns (failed, err) σ' →
  failed = [].
Proof.
  intros Hc. unfold Apply. destruct (ToRESTMapper o) as [restMapper|e].
  2:{ by intros [= <- _ _]. }
  destruct (Decode_returns lib data σ) as (us & derr & σ1 & Hdecode & _).
  rewrite (bind_Returns _ _ _ _ _ Hdecode). destruct derr as [e|].
  { by intros [= <- _ _]. }
  destruct (Apply_range lib o restMapper us [] σ1) as [failed1 σ2|] eqn:Hrange.
  - rewrite (bind_Returns _ _ _ _ _ Hrange). intros [= <- _ _].
    by eapply Apply_range_reports_nothing.
  - by rewrite (bind_Panics _ _ _ _ Hrange).
Qed.

(** The objects [Decode] returns have maps of their own. *)
Lemma Decode_loop_distinct lib docs unstructList i σ r σ' :
  Decode_loop lib docs unstructList i σ = Returns r σ' →
  NoDup (Object <$> unstructList) →
  (∀ u, u ∈ unstructList → ∃ l, Object u = Some l ∧ is_Some (heap σ !! l)) →
  NoDup (Object <$> r.1.1).
Proof.
  revert unstructList i σ.
  induction docs as [|[raw|err] docs IH]; intros acc i σ; simpl.
  - by intros [= <- _].
  - destruct (serializer_Decode lib raw) as [[obj gvk]|]; [|by intros [= <- _]].
    destruct (util_ConvertSingleObjectToUnstructured lib obj) as [content|];
      [|by intros [= <- _]].
    destruct (alloc_run content σ) as [Halloc Hfresh].
    rewrite (bind_Returns _ _ _ _ _ Halloc).
    set (l := fresh (dom (heap σ))) in *.
    intros Hrun Hnodup Hstored. eapply IH; [done| |].
    + rewrite fmap_app. apply NoDup_app. split_and!; [done| |apply NoDup_singleton].
      intros x (u & Hx & Hu)%list_elem_of_fmap Hx'. simpl in Hx'.
      apply list_elem_of_singleton in Hx'.
      destruct (Hstored u Hu) as (l' & Hl' & Hsome).
      assert (l' = l) as -> by congruence. rewrite Hfresh in Hsome. by destruct Hsome.
    + intros u [Hu| ->%list_elem_of_singleton]%elem_of_app.
      * destruct (Hstored u Hu) as (l' & Hl' & Hsome). exists l'. split; [done|].
        simpl. rewrite lookup_insert_ne; [done|]. intros <-.
        rewrite Hfresh in Hsome. by destruct Hsome.
      * exists l. split; [done|]. simpl. rewrite lookup_insert_eq. by eexists.
  - by intros [= <- _].
Qed.

Lemma Decode_distinct lib data σ unstructList err σ' :
  Decode lib data σ = Returns (unstructList, err) σ' → NoDup (Object <$> unstructList).
Proof.
  unfold Decode.
  destruct (Decode_loop lib (yaml_documents lib data) [] 1 σ) as [[[us i] e] σ1|] eqn:Hloop.
  2:{ by rewrite (bind_Panics _ _ _ _ Hloop). }
  rewrite (bind_Returns _ _ _ _ _ Hloop).
  pose proof (Decode_loop_distinct _ _ _ _ _ _ _ Hloop (NoDup_nil_2 (A:=option loc))) as Hnodup.
  simpl in Hnodup. destruct (negb (is_EOF e)); intros [= <- _ _]; apply Hnodup;
    by intros ? ?%elem_of_nil.
Qed.

Lemma mapped_entry_frame lib restMapper u σ σ1 l m md b obj gvk mapping :
  heap σ1 !! l = heap σ !! l →
  mapped_entry lib restMapper u σ l m md b obj gvk mapping →
  mapped_entry lib restMapper u σ1 l m md b obj gvk mapping.
Proof.
  intros Hsame []. split; try done.
  unfold contents in *. rewrite entry_Object0 in *. simpl in *. by rewrite Hsame.
Qed.

(** What a run made of one object of a batch is still there when the loop
    ends. *)
Lemma Apply_range_final lib o restMapper unstructList :
  NoDup (Object <$> unstructList) →
  ∀ failed σ failed' σ',
    Apply_range lib o restMapper unstructList failed σ = Returns failed' σ' →
    ∀ u l m md b obj gvk mapping,
      u ∈ unstructList →
      mapped_entry lib restMapper u σ l m md b obj gvk mapping →
      ∃ md', contents u σ' = Some (with_metadata m md')
             ∧ rewritten (serverSide o) mapping md md'.
Proof.
  induction unstructList as [|unstruct unstructList IH];
    intros Hnodup failed σ failed' σ' Hrun u l m md b obj gvk mapping Hu E.
  { by apply elem_of_nil in Hu. }
  apply Apply_range_cons in Hrun
    as (object & err & σ1 & failed1 & Hone & Hrest & _).
  rewrite fmap_cons in Hnodup. apply NoDup_cons in Hnodup as [Hfirst Hnodup].
  apply elem_of_cons in Hu as [->|Hu].
  - destruct (ApplyUnstructured_final lib (dynamicClient o) restMapper unstruct (serverSide o)
                σ l m md b obj gvk mapping E) as (md' & rs & Hfinal & _ & _ & Hmd').
    rewrite Hone in Hfinal. simpl in Hfinal.
    destruct E. rewrite entry_Object0 in Hfirst.
    pose proof (Apply_range_frame lib o restMapper unstructList l Hfirst _ _ _ _ Hrest)
      as Hframe.
    exists md'. split; [|done].
    unfold contents. rewrite entry_Object0. simpl. rewrite Hframe, Hfinal. simpl.
    apply lookup_insert_eq.
  - eapply IH; [done..|].
    eapply mapped_entry_frame; [|done].
    rewrite <-(ApplyUnstructured_frame lib restMapper (dynamicClient o) unstruct
                 (serverSide o) σ l), Hone; [done|].
    destruct E. intros Heq. apply Hfirst. rewrite Heq, <-entry_Object0.
    by apply list_elem_of_fmap_2.
Qed.

(** ** Partial failure *)

(** C1. Partial-failure isolation does not hold. When the attempt on one
    object of a decoded batch fails without an object (it panics, or returns
    nil with an error, as every failure return of [ApplyUnstructured] does),
    [Apply] builds no Failure Record and does not go on to the next object:
    it panics, at apply.go:81 if not before. With a client that hands out no
    object next to an error, an [Apply] that returns returns no Failure
    Record at all. *)
Theorem Apply_failed_object_panics lib o data σ :
  (∀ restMapper (pre : list Unstructured) unstruct post σ1 failed σ2,
     ToRESTMapper o = Ok restMapper →
     Decode lib data σ = Returns ((pre ++ unstruct :: post)%list, None) σ1 →
     Apply_range lib o restMapper pre [] σ1 = Returns failed σ2 →
     unidentified
       (ApplyUnstructured lib (dynamicClient o) restMapper unstruct (serverSide o) σ2)
     = true →
     Apply lib o data σ
     = Panics (final_state
                 (ApplyUnstructured lib (dynamicClient o) restMapper unstruct (serverSide o)
                    σ2)))
  ∧ (conventional (dynamicClient o) →
     ∀ failed err σ', Apply lib o data σ = Returns (failed, err) σ' → failed = []).
Proof.
  split.
  - intros restMapper pre unstruct post σ1 failed σ2 Hmapper Hdecode Hpre Hfail.
    unfold Apply. rewrite Hmapper.
    rewrite (bind_Returns _ _ _ _ _ Hdecode).
    apply bind_Panics.
    rewrite (Apply_range_app _ _ _ _ _ _ _ _ _ Hpre).
    by apply Apply_range_unidentified.
  - intros Hc failed err σ'. by apply Apply_reports_nothing.
Qed.

(** The scenario of the claim: the first document is created, the second
    makes [Apply] panic, the third is never attempted and nothing is
    returned. *)
Lemma Apply_failed_object_panics_witness :
  Apply Fixture.lib Fixture.options Fixture.three_documents Fixture.empty
  = Panics Fixture.first_applied.
Proof.
  apply (proj1 (Apply_failed_object_panics Fixture.lib Fixture.options
                  Fixture.three_documents Fixture.empty)
           Fixture.mapper [Fixture.first] Fixture.second [Fixture.third]
           Fixture.decoded [] Fixture.first_applied).
  - reflexivity.
  - vm_compute. reflexivity.
  - vm_compute. reflexivity.
  - vm_compute. reflexivity.
Defined.

(** ** Mutation of the decoded objects *)

(** C10. [ApplyUnstructured] writes through the map it shares with its
    caller. After the call the caller's object has the namespace [default]
    if it was namespaced with an empty namespace, and in server-side mode
    [GetAnnotations] no longer finds the last-applied annotation in it and
    its [managedFields] is gone; where there was something to change, the
    object no longer equals what it was. The same holds, once [Apply] has
    returned, of every object [Decode] had produced. *)
Theorem ApplyUnstructured_mutates_caller_object lib restMapper :
  (∀ c u ss σ l m md b obj gvk mapping,
     mapped_entry lib restMapper u σ l m md b obj gvk mapping →
     mutated u σ (final_state (ApplyUnstructured lib c restMapper u ss σ)) ss mapping)
  ∧ (∀ o data σ unstructList σ1 failed err σ' u l m md b obj gvk mapping,
       ToRESTMapper o = Ok restMapper →
       Decode lib data σ = Returns (unstructList, None) σ1 →
       Apply lib o data σ = Returns (failed, err) σ' →
       u ∈ unstructList →
       mapped_entry lib restMapper u σ1 l m md b obj gvk mapping →
       mutated u σ1 σ' (serverSide o) mapping).
Proof.
  split.
  - intros c u ss σ l m md b obj gvk mapping E.
    destruct (ApplyUnstructured_final lib c restMapper u ss σ l m md b obj gvk mapping E)
      as (md' & rs & -> & _ & _ & Hmd').
    destruct E. eapply mutated_intro; [done..| |done]. by apply contents_final.
  - intros o data σ unstructList σ1 failed err σ' u l m md b obj gvk mapping
      Hmapper Hdecode Hrun Hu E.
    unfold Apply in Hrun. rewrite Hmapper, (bind_Returns _ _ _ _ _ Hdecode) in Hrun.
    destruct (Apply_range lib o restMapper unstructList [] σ1) as [failed1 σ2|] eqn:Hrange.
    2:{ by rewrite (bind_Panics _ _ _ _ Hrange) in Hrun. }
    rewrite (bind_Returns _ _ _ _ _ Hrange) in Hrun. injection Hrun as <- <- <-.
    destruct (Apply_range_final lib o restMapper unstructList
                (Decode_distinct _ _ _ _ _ _ Hdecode) _ _ _ _ Hrange
                u l m md b obj gvk mapping Hu E) as (md' & Hm' & Hmd').
    destruct E. by eapply mutated_intro.
Qed.

(** The caller's [Fixture.web] comes back defaulted (and stamped), its
    [Fixture.cfg] stripped; and after [Apply] has run over a stream holding
    [Fixture.web], the decoded object has the namespace [default]. *)
Lemma ApplyUnstructured_mutates_caller_object_witness :
  let defaulted := final_state (ApplyUnstructured Fixture.lib Fixture.client Fixture.mapper
                                  Fixture.held false (Fixture.holding Fixture.web)) in
  let stripped := final_state (ApplyUnstructured Fixture.lib Fixture.client Fixture.mapper
                                 Fixture.held true (Fixture.holding Fixture.cfg)) in
  let applied := final_state (Apply Fixture.lib Fixture.options
                                (Fixture.manifest [Fixture.web]) Fixture.empty) in
  contents Fixture.held (Fixture.holding Fixture.web) = Some Fixture.web
  ∧ contents Fixture.held defaulted = Some Fixture.web_created
  ∧ GetNamespace Fixture.held defaulted = "default"
  ∧ contents Fixture.held (Fixture.holding Fixture.cfg) = Some Fixture.cfg
  ∧ contents Fixture.held stripped = Some Fixture.cfg_stripped
  ∧ contents Fixture.held stripped ≠ contents Fixture.held (Fixture.holding Fixture.cfg)
  ∧ GetNamespace Fixture.first applied = "default".
Proof.
  intros defaulted stripped applied.
  destruct (ApplyUnstructured_mutates_caller_object Fixture.lib Fixture.mapper)
    as [Hone Hbatch].
  destruct (Hone Fixture.client Fixture.held false _ _ _ _ _ _ _ _ web_entry)
    as [Hnamespace _].
  destruct (Hone Fixture.client Fixture.held true _ _ _ _ _ _ _ _ cfg_entry)
    as [_ Hstrip].
  destruct (Hbatch Fixture.options (Fixture.manifest [Fixture.web]) Fixture.empty
              [Fixture.first] (Fixture.holding Fixture.web) [] None applied
              Fixture.first 1%positive Fixture.web (default ∅ (metadata_of Fixture.web))
              (Fixture.text (JObj Fixture.web)) Fixture.web (GVK "" "v1" "Pod")
              {| Resource := GVR "" "v1" "Pod"; Scope := RESTScopeNameNamespace |})
    as [Hdecoded _];
    [reflexivity|vm_compute; reflexivity|vm_compute; reflexivity
    |by apply list_elem_of_singleton|exact web_entry|].
  destruct (Hnamespace eq_refl eq_refl) as [Hdefault _].
  destruct (Hstrip eq_refl) as (_ & _ & Hchanged).
  destruct (Hdecoded eq_refl eq_refl) as [Hfirst _].
  split; [reflexivity|]. split; [vm_compute; reflexivity|]. split; [exact Hdefault|].
  split; [reflexivity|]. split; [vm_compute; reflexivity|].
  split; [|exact Hfirst].
  apply Hchanged. left. vm_compute. eexists. reflexivity.
Defined.

(** * Further properties of apply.go *)

(** ** The patch strategy selector (apply.go:218-263) *)

Lemma Patch_Ok_inv lib currentUnstr modified name gvk σ patch pt σ' :
  Patch lib currentUnstr modified name gvk σ = Returns (Ok (patch, pt)) σ' →
  σ' = σ
  ∧ ∃ live current original,
      currentUnstr = Some live
      ∧ json_Marshal lib (Some live) = Ok current
      ∧ util_GetOriginalConfiguration lib live = Ok original
      ∧ ((pt = StrategicMergePatchType
          ∧ ∃ versionedObject lookupPatchMeta,
              Scheme_New lib gvk = Ok versionedObject
              ∧ strategicpatch_NewPatchMetaFromStruct lib versionedObject = Ok lookupPatchMeta
              ∧ strategicpatch_CreateThreeWayMergePatch lib original modified current
                  lookupPatchMeta true = Ok patch)
         ∨ (pt = MergePatchType
            ∧ ∃ err,
                Scheme_New lib gvk = Err err
                ∧ runtime_IsNotRegisteredError err = true
                ∧ jsonmergepatch_CreateThreeWayJSONMergePatch lib original modified current
                    Patch_preconditions = Ok patch)).
Proof.
  unfold Patch. destruct currentUnstr as [live|]; [|done]. simpl. rewrite bind_mret.
  unfold id.
  destruct (json_Marshal lib (Some live)) as [current|] eqn:Hcur; [|done].
  destruct (util_GetOriginalConfiguration lib live) as [original|] eqn:Horig; [|done].
  destruct (Scheme_New lib gvk) as [v|err] eqn:Hnew.
  - destruct (strategicpatch_NewPatchMetaFromStruct lib v) as [pm|] eqn:Hpm; [|done].
    destruct (strategicpatch_CreateThreeWayMergePatch lib original modified current pm true)
      as [p|] eqn:Hp; [|done].
    intros [= -> <- <-]. split; [done|].
    eexists _, _, _. split_and!; [done..|]. left. split; [done|]. by eexists _, _.
  - destruct (runtime_IsNotRegisteredError err) eqn:Hreg; [|done].
    fold Patch_preconditions.
    destruct (jsonmergepatch_CreateThreeWayJSONMergePatch lib original modified current
                Patch_preconditions) as [p|e] eqn:Hmerge.
    + intros [= -> <- <-]. split; [done|].
      eexists _, _, _. split_and!; [done..|]. right. split; [done|]. by eexists.
    + by destruct (mergepatch_IsPreconditionFailed e).
Qed.

Lemma Patch_type lib currentUnstr modified name gvk σ patch pt σ' :
  Patch lib currentUnstr modified name gvk σ = Returns (Ok (patch, pt)) σ' →
  pt = MergePatchType ∨ pt = StrategicMergePatchType.
Proof.
  intros (_ & _ & _ & _ & _ & _ & _ & [[-> _]|[-> _]])%Patch_Ok_inv; [by right|by left].
Qed.

(** X1. Whenever [Patch] returns a patch, it is one of two kinds and it is the
    library's: a strategic merge patch for a kind the registry instantiates,
    computed with overwrite on; or a JSON merge patch for a kind the registry
    reports as not registered, computed under the three preconditions.
    [Patch] never returns a JSON patch or an apply patch, never returns a
    patch for a nil object, and leaves the store and the request log as they
    were. *)
Theorem Patch_returns_typed_patch lib currentUnstr modified name gvk σ patch pt σ' :
  Patch lib currentUnstr modified name gvk σ = Returns (Ok (patch, pt)) σ' →
  σ' = σ
  ∧ ∃ live current original,
      currentUnstr = Some live
      ∧ json_Marshal lib (Some live) = Ok current
      ∧ util_GetOriginalConfiguration lib live = Ok original
      ∧ ((pt = StrategicMergePatchType
          ∧ ∃ versionedObject lookupPatchMeta,
              Scheme_New lib gvk = Ok versionedObject
              ∧ strategicpatch_NewPatchMetaFromStruct lib versionedObject = Ok lookupPatchMeta
              ∧ strategicpatch_CreateThreeWayMergePatch lib original modified current
                  lookupPatchMeta true = Ok patch)
         ∨ (pt = MergePatchType
            ∧ ∃ err,
                Scheme_New lib gvk = Err err
                ∧ runtime_IsNotRegisteredError err = true
                ∧ jsonmergepatch_CreateThreeWayJSONMergePatch lib original modified current
                    Patch_preconditions = Ok patch)).
Proof. apply Patch_Ok_inv. Qed.

Lemma Patch_returns_typed_patch_witness :
  Patch Fixture.lib (Some Fixture.web) (Fixture.text (JObj Fixture.web_defaulted)) "web"
    (GVK "" "v1" "Pod") Fixture.empty
  = Returns (Ok (Fixture.text (JObj Fixture.web_defaulted), StrategicMergePatchType))
      Fixture.empty
  ∧ Scheme_New Fixture.lib (GVK "" "v1" "Pod") = Ok (GVK "" "v1" "Pod").
Proof.
  assert (Hrun : Patch Fixture.lib (Some Fixture.web)
                   (Fixture.text (JObj Fixture.web_defaulted)) "web"
                   (GVK "" "v1" "Pod") Fixture.empty
                 = Returns (Ok (Fixture.text (JObj Fixture.web_defaulted),
                                StrategicMergePatchType)) Fixture.empty)
    by (vm_compute; reflexivity).
  split; [exact Hrun|].
  destruct (Patch_returns_typed_patch _ _ _ _ _ _ _ _ _ Hrun)
    as (_ & live & current & original & _ & _ & _ & [[_ Hs]|[[=] _]]).
  destruct Hs as (v & pm & Hnew & _ & _). vm_compute. reflexivity.
Defined.

(** X2. For a kind the registry instantiates, [Patch] selects the strategic
    merge: the merge directives are read from the instance, the patch is the
    library's three-way merge of (original, modified, current) with overwrite
    on, and a failure of either step is returned as it is. No precondition is
    involved: the identity-changed error is not among the answers unless the
    library itself produces it. *)
Theorem Patch_registered_kind lib live modified gvk versionedObject current original :
  Scheme_New lib gvk = Ok versionedObject →
  json_Marshal lib (Some live) = Ok current →
  util_GetOriginalConfiguration lib live = Ok original →
  ∀ name σ,
    Patch lib (Some live) modified name gvk σ
    = Returns
        match strategicpatch_NewPatchMetaFromStruct lib versionedObject with
        | Err err => Err err
        | Ok lookupPatchMeta =>
            match strategicpatch_CreateThreeWayMergePatch lib original modified current
                    lookupPatchMeta true with
            | Err err => Err err
            | Ok patch => Ok (patch, StrategicMergePatchType)
            end
        end σ.
Proof.
  intros Hnew Hcur Horig name σ. unfold Patch, live_call. rewrite bind_mret. unfold id.
  rewrite Hcur, Horig, Hnew.
  destruct (strategicpatch_NewPatchMetaFromStruct lib versionedObject) as [pm|]; [|done].
  by destruct (strategicpatch_CreateThreeWayMergePatch lib original modified current pm true).
Qed.

Lemma Patch_registered_kind_witness :
  Patch Fixture.lib (Some Fixture.db) (Fixture.text (JObj Fixture.web)) "web"
    (GVK "" "v1" "Pod") Fixture.empty
  = Returns (Ok (Fixture.text (JObj Fixture.web), StrategicMergePatchType)) Fixture.empty.
Proof.
  rewrite (Patch_registered_kind Fixture.lib Fixture.db (Fixture.text (JObj Fixture.web))
             (GVK "" "v1" "Pod") (GVK "" "v1" "Pod") (Fixture.text (JObj Fixture.db)) "")
    by (vm_compute; reflexivity).
  vm_compute. reflexivity.
Defined.

(** ** What one run of [ApplyUnstructured] changes (apply.go:126-216) *)

Lemma lookup_defaulted mapping md key :
  key ≠ "namespace" → defaulted mapping md !! key = md !! key.
Proof.
  intros Hkey. unfold defaulted. destruct (Scope mapping); [|done].
  case_bool_decide; [|done]. by rewrite lookup_insert_ne.
Qed.

Lemma lookup_stripped md key :
  key ≠ "annotations" → key ≠ "managedFields" → stripped md !! key = md !! key.
Proof.
  intros H1 H2. unfold stripped, strip_annotation. rewrite lookup_delete_ne by done.
  destruct (annotations_at md); [|done]. case_bool_decide; [|done].
  by rewrite lookup_insert_ne.
Qed.

Lemma lookup_stamped md stamp key :
  key ≠ "annotations" → stamped md stamp !! key = md !! key.
Proof. intros Hkey. unfold stamped. by rewrite lookup_insert_ne. Qed.

Lemma lookup_rewritten ss mapping md md' key :
  key ∉ written_keys → rewritten ss mapping md md' → md' !! key = md !! key.
Proof.
  unfold written_keys. rewrite !not_elem_of_cons. intros (H1 & H2 & H3 & _).
  unfold rewritten. destruct ss.
  - intros ->. by rewrite lookup_stripped, lookup_defaulted.
  - intros [->|[stamp ->]]; [|rewrite lookup_stamped by done]; by rewrite lookup_defaulted.
Qed.

Lemma metadata_field_at u σ m md key :
  contents u σ = Some m → metadata_of m = Some md → metadata_field u σ key = md !! key.
Proof.
  intros Hm Hmd. unfold metadata_field. rewrite (fields_of_contents u σ m Hm). simpl.
  apply metadata_of_Some in Hmd. by rewrite Hmd.
Qed.

Section Effect.
Context (lib : Libraries) (c : Interface) (restMapper : RESTMapper).

(** The state a run from a mapped entry ends in, with the requests it
    added. *)
Lemma ApplyUnstructured_final_requests u ss σ l m md b obj gvk mapping :
  mapped_entry lib restMapper u σ l m md b obj gvk mapping →
  ∃ md' rs,
    final_state (ApplyUnstructured lib c restMapper u ss σ)
    = sent rs (written l (with_metadata m md') σ)
    ∧ rewritten ss mapping md md'
    ∧ run_requests ss (string_at md "name") rs.
Proof.
  intros E. unfold rewritten. destruct ss.
  - rewrite (ApplyUnstructured_serverSide_run _ _ _ _ _ _ _ _ _ _ _ _ E).
    eexists _, _. split_and!; [done..|]. by constructor.
  - rewrite (ApplyUnstructured_run _ _ _ _ _ _ _ _ _ _ _ _ _ E). destruct E as [entry_Object0 entry_contents0 entry_metadata0 entry_name0 entry_Marshal0 entry_Decode0 entry_mapping0].
    set (md1 := defaulted mapping md). set (σ1 := written l (with_metadata m md1) σ).
    assert (Hname : string_at md1 "name" = string_at md "name")
      by by apply string_at_defaulted_other.
    pose proof (clientSide_outcome_run lib c (target mapping md) u l σ1
                  (with_metadata m md1) md1 obj gvk entry_Object0
                  (contents_written u l entry_Object0 σ _) (metadata_of_with _ _)) as Hout.
    inversion Hout; simpl; rewrite ?Hname.
    + exists md1, []. rewrite sent_nil. split_and!; [done|by left|constructor].
    + eexists md1, [_]. split_and!; [done|by left|by constructor].
    + eexists md1, [_]. split_and!; [done|by left|by constructor].
    + eexists (stamped md1 stamp), [_; _].
      repeat match goal with x := _ |- _ => subst x end.
      rewrite written_twice, with_metadata_twice.
      split_and!; [done|right; by eexists|by constructor].
    + eexists md1, [_]. split_and!; [done|by left|by constructor].
    + eexists md1, [_]. split_and!; [done|by left|by constructor].
    + eexists md1, [_; _]. split_and!; [done|by left|].
      constructor; [done|]. by eapply Patch_type.
Qed.

(** A run either leaves the state as it was, or started from a mapped
    entry. *)
Lemma ApplyUnstructured_effect u ss σ :
  final_state (ApplyUnstructured lib c restMapper u ss σ) = σ
  ∨ ∃ l m md b obj gvk mapping md' rs,
      mapped_entry lib restMapper u σ l m md b obj gvk mapping
      ∧ final_state (ApplyUnstructured lib c restMapper u ss σ)
        = sent rs (written l (with_metadata m md') σ)
      ∧ rewritten ss mapping md md'
      ∧ run_requests ss (GetName u σ) rs.
Proof.
  pose proof (ApplyUnstructured_outcome_run lib c restMapper u ss σ) as Hout.
  inversion Hout; try (by left).
  all: right.
  all: match goal with
       | E : mapped_entry _ _ _ _ ?l ?m ?md ?b ?obj ?gvk ?mapping |- _ =>
           try match goal with
               | H : _ = ApplyUnstructured _ _ _ _ _ _ |- _ => rewrite H
               end;
           destruct (ApplyUnstructured_final_requests u ss σ _ _ _ _ _ _ _ E)
             as (md' & rs & Hfinal & Hre & Hrs);
           exists l, m, md, b, obj, gvk, mapping, md', rs;
           rewrite (GetName_at u σ m md (entry_contents _ _ _ _ _ _ _ _ _ _ _ E)
                      (entry_metadata _ _ _ _ _ _ _ _ _ _ _ E));
           by split_and!
       end.
Qed.
End Effect.

Lemma run_requests_mode ss name rs :
  run_requests ss name rs →
  Forall (λ r, apply_patch_request r = ss) rs ∧ (length rs ≤ 2)%nat.
Proof.
  intros [|dri b ->|dri ->|dri body ->|dri pt data -> [-> | ->]]; simpl;
    (split; [by repeat constructor|lia]).
Qed.

(** X3. Every run of [ApplyUnstructured], whatever its outcome, adds to the
    request log one of five sequences, all for the name the object had at the
    call: nothing; in server-side mode one apply patch with the field manager
    and force; otherwise a get, alone or followed by one create or by one
    patch of type merge or strategic merge with no options. *)
Theorem ApplyUnstructured_request_shapes lib c restMapper u ss σ :
  ∃ rs,
    requests (final_state (ApplyUnstructured lib c restMapper u ss σ))
    = (requests σ ++ rs)%list
    ∧ run_requests ss (GetName u σ) rs.
Proof.
  destruct (ApplyUnstructured_effect lib c restMapper u ss σ)
    as [->|(l & m & md & b & obj & gvk & mapping & md' & rs & _ & -> & _ & Hrs)].
  - exists []. split; [by rewrite app_nil_r|constructor].
  - by exists rs.
Qed.

(** X4. A run of [ApplyUnstructured] writes to the caller's object nothing but
    [metadata.namespace], [metadata.annotations] and
    [metadata.managedFields]: every other field of [metadata] and every field
    beside [metadata] is afterwards what it was, and so is the name. *)
Theorem ApplyUnstructured_preserves_identity lib c restMapper u ss σ :
  let σ' := final_state (ApplyUnstructured lib c restMapper u ss σ) in
  (∀ field, field ≠ "metadata" → fields_of u σ' !! field = fields_of u σ !! field)
  ∧ (∀ key, key ∉ written_keys → metadata_field u σ' key = metadata_field u σ key)
  ∧ GetName u σ' = GetName u σ.
Proof.
  intros σ'. subst σ'.
  destruct (ApplyUnstructured_effect lib c restMapper u ss σ)
    as [->|(l & m & md & b & obj & gvk & mapping & md' & rs & E & -> & Hre & _)]; [done|].
  destruct E as [entry_Object0 entry_contents0 entry_metadata0 entry_name0 entry_Marshal0 entry_Decode0 entry_mapping0].
  assert (Hm' : contents u (sent rs (written l (with_metadata m md') σ))
                = Some (with_metadata m md')) by by apply contents_final.
  split_and!.
  - intros field Hfield.
    rewrite (fields_of_contents _ _ _ Hm'), (fields_of_contents _ _ _ entry_contents0).
    unfold with_metadata. by rewrite lookup_insert_ne.
  - intros key Hkey.
    rewrite (metadata_field_at _ _ _ _ _ Hm' (metadata_of_with _ _)).
    rewrite (metadata_field_at _ _ _ _ _ entry_contents0 entry_metadata0).
    by eapply lookup_rewritten.
  - rewrite (GetName_at _ _ _ _ Hm' (metadata_of_with _ _)).
    rewrite (GetName_at _ _ _ _ entry_contents0 entry_metadata0).
    unfold string_at. erewrite lookup_rewritten; [done| |done].
    unfold written_keys. rewrite !not_elem_of_cons. split_and!; try done.
    apply not_elem_of_nil.
Qed.

(** X5. A run of [ApplyUnstructured] allocates no map, leaves the map of every
    other object as it was, and only appends to the request log. *)
Theorem ApplyUnstructured_frame_condition lib c restMapper u ss σ :
  let σ' := final_state (ApplyUnstructured lib c restMapper u ss σ) in
  dom (heap σ') = dom (heap σ)
  ∧ (∀ l', Object u ≠ Some l' → heap σ' !! l' = heap σ !! l')
  ∧ requests σ `prefix_of` requests σ'.
Proof.
  intros σ'. subst σ'. split_and!.
  - destruct (ApplyUnstructured_effect lib c restMapper u ss σ)
      as [->|(l & m & md & b & obj & gvk & mapping & md' & rs & E & -> & _ & _)]; [done|].
    destruct E as [entry_Object0 entry_contents0 entry_metadata0 entry_name0 entry_Marshal0 entry_Decode0 entry_mapping0]. simpl. apply dom_insert_lookup_L.
    unfold contents in entry_contents0. rewrite entry_Object0 in entry_contents0.
    simpl in entry_contents0. by eexists.
  - intros l'. apply ApplyUnstructured_frame.
  - destruct (ApplyUnstructured_effect lib c restMapper u ss σ)
      as [->|(l & m & md & b & obj & gvk & mapping & md' & rs & _ & -> & _ & _)]; [done|].
    simpl. by apply prefix_app_r.
Qed.

(** ** Failures before the first request (apply.go:136-149, 183-186) *)

(** X6. When the object cannot be serialized, its serialization cannot be
    decoded, or its kind has no mapping, [ApplyUnstructured] returns that
    error as it is, with a nil object, and has neither written to the object
    nor sent anything. *)
Theorem ApplyUnstructured_early_failure lib c restMapper u ss σ err :
  GetName u σ ≠ "" →
  json_Marshal lib (contents u σ) = Err err
  ∨ (∃ b, json_Marshal lib (contents u σ) = Ok b
          ∧ (serializer_Decode lib b = Err err
             ∨ ∃ obj gvk, serializer_Decode lib b = Ok (obj, gvk)
                          ∧ restMapper (gvk_GroupKind gvk) (gvk_Version gvk) = Err err)) →
  ApplyUnstructured lib c restMapper u ss σ = Returns (None, Some err) σ.
Proof.
  intros Hname Hfail. rewrite ApplyUnstructured_named by done.
  unfold ApplyUnstructured_mapped. rewrite bind_gets.
  destruct Hfail as [->|(b & -> & [->|(obj & gvk & -> & ->)])]; done.
Qed.

Lemma ApplyUnstructured_early_failure_witness :
  ApplyUnstructured Cases.lib Fixture.client Fixture.mapper Fixture.held true
    (Fixture.holding Cases.stray)
  = Returns (None, Some (errorString "no matches for kind Stray"))
      (Fixture.holding Cases.stray).
Proof.
  apply ApplyUnstructured_early_failure; [vm_compute; discriminate|].
  right. exists (Fixture.text (JObj Cases.stray)). split; [vm_compute; reflexivity|].
  right. exists Cases.stray, (GVK "" "v1" "Stray"). split; vm_compute; reflexivity.
Defined.

(** X7. When the modified configuration cannot be computed, [ApplyUnstructured]
    fails with the wrapped error before any request; the namespace
    defaulting has already been written to the caller's object. *)
Theorem modified_configuration_failure lib c restMapper u σ l m md b obj gvk mapping err :
  mapped_entry lib restMapper u σ l m md b obj gvk mapping →
  util_GetModifiedConfiguration lib obj true = Err err →
  ApplyUnstructured lib c restMapper u false σ
  = Returns (None, Some (errorString ("retrieving modified configuration from:" +:+ newline
                                      +:+ string_at md "name" +:+ newline +:+ "for:"
                                      +:+ Error err)))
      (written l (with_metadata m (defaulted mapping md)) σ).
Proof.
  intros E Hmodified. rewrite (ApplyUnstructured_run _ _ _ _ _ _ _ _ _ _ _ _ _ E).
  destruct E as [HObject Hcontents Hmetadata _ _ _ _].
  unfold ApplyUnstructured_clientSide. rewrite Hmodified, bind_gets.
  rewrite (GetName_at u _ _ _ (contents_written u l HObject σ _) (metadata_of_with _ _)).
  by rewrite string_at_defaulted_other.
Qed.

Lemma web_entry_failing :
  mapped_entry Cases.failing Fixture.mapper Fixture.held (Fixture.holding Fixture.web)
    1%positive Fixture.web (default ∅ (metadata_of Fixture.web))
    (Fixture.text (JObj Fixture.web)) Fixture.web (GVK "" "v1" "Pod")
    {| Resource := GVR "" "v1" "Pod"; Scope := RESTScopeNameNamespace |}.
Proof. split; vm_compute; first [reflexivity | discriminate]. Qed.

Lemma modified_configuration_failure_witness :
  ApplyUnstructured Cases.failing Fixture.client Fixture.mapper Fixture.held false
    (Fixture.holding Fixture.web)
  = Returns (None, Some (errorString ("retrieving modified configuration from:" +:+ newline
                                      +:+ "web" +:+ newline +:+ "for:cannot encode")))
      (Fixture.holding Fixture.web_defaulted).
Proof.
  rewrite (modified_configuration_failure _ Fixture.client _ _ _ _ _ _ _ _ _ _
             (errorString "cannot encode") web_entry_failing) by reflexivity.
  vm_compute. reflexivity.
Defined.

(** ** The server's answer in server-side mode (apply.go:172-181, 289-295) *)

Lemma isIncompatibleServerError_415 err :
  isIncompatibleServerError err = true
  ↔ ∃ reason message, err = StatusError 415 reason message.
Proof.
  destruct err as [|code reason message| | |]; simpl;
    try (split; [done|by intros (? & ? & ?)]).
  rewrite bool_decide_eq_true. unfold http_StatusUnsupportedMediaType. split.
  - intros ->. by eexists _, _.
  - by intros (? & ? & [= -> _ _]).
Qed.

(** X8. In server-side mode the error [ApplyUnstructured] returns follows from
    the client's answer to the apply patch: no error for no error; for a
    status error with code 415, of whatever reason, a new error saying that
    server-side apply is not available, around the server's message; any
    other error as it is. The object returned is nil in each case. *)
Theorem serverSide_error_report lib c restMapper u σ l m md b obj gvk mapping :
  mapped_entry lib restMapper u σ l m md b obj gvk mapping →
  let reply := (client_Patch c (requests σ) (target mapping md) (string_at md "name")
                  ApplyPatchType b serverSide_opts).2 in
  ∃ reported σ',
    ApplyUnstructured lib c restMapper u true σ = Returns (None, reported) σ'
    ∧ (reply = None → reported = None)
    ∧ (∀ reason message,
         reply = Some (StatusError 415 reason message) →
         reported = Some (errorString ("server-side apply not available on the server: ("
                                       +:+ message +:+ ")")))
    ∧ (∀ err,
         reply = Some err → (∀ reason message, err ≠ StatusError 415 reason message) →
         reported = Some err).
Proof.
  intros E reply. rewrite (ApplyUnstructured_serverSide_run _ _ _ _ _ _ _ _ _ _ _ _ E).
  fold reply. eexists _, _. split; [done|]. split_and!.
  - by intros ->.
  - by intros reason message ->.
  - intros err -> Hother. simpl.
    destruct (isIncompatibleServerError err) eqn:H415; [|done].
    apply isIncompatibleServerError_415 in H415 as (reason & message & ->).
    by destruct (Hother reason message).
Qed.

Lemma serverSide_error_report_witness :
  ∃ σ',
    ApplyUnstructured Fixture.lib Cases.legacy Fixture.mapper Fixture.held true
      (Fixture.holding Fixture.cfg)
    = Returns (None, Some (errorString
                             ("server-side apply not available on the server: "
                              +:+ "(the body of the request was in an unknown format)"))) σ'
    ∧ ∃ err, ApplyUnstructured Fixture.lib Fixture.broken Fixture.mapper Fixture.held true
               (Fixture.holding Fixture.cfg)
             = Returns (None, Some err) σ'
             ∧ err = StatusError 500 (StatusReasonOther "InternalError") "internal error".
Proof.
  destruct (serverSide_error_report Fixture.lib Cases.legacy Fixture.mapper Fixture.held
              _ _ _ _ _ _ _ _ cfg_entry) as (reported & σ' & Hrun & _ & H415 & _).
  destruct (serverSide_error_report Fixture.lib Fixture.broken Fixture.mapper Fixture.held
              _ _ _ _ _ _ _ _ cfg_entry) as (reported' & σ'' & Hrun' & _ & _ & Hother).
  rewrite (H415 (StatusReasonOther "UnsupportedMediaType")
             "the body of the request was in an unknown format" eq_refl) in Hrun.
  rewrite (Hother (StatusError 500 (StatusReasonOther "InternalError") "internal error")
             eq_refl) in Hrun' by discriminate.
  exists σ'. split; [exact Hrun|]. eexists. split; [|reflexivity].
  rewrite Hrun'. f_equal.
  assert (Returns (A:=LiveObject * option error) (None, reported') σ''
          = Returns (None, reported') σ') as [= ->]; [|done].
  revert Hrun Hrun'. vm_compute. congruence.
Defined.

(** ** The current object (apply.go:188, 204-215) *)

(** X9. A client that answers the get with neither an object nor an error makes
    [ApplyUnstructured] panic at line 206, after the get alone. *)
Theorem missing_current_object_panics lib c restMapper u σ l m md b obj gvk mapping modified :
  mapped_entry lib restMapper u σ l m md b obj gvk mapping →
  util_GetModifiedConfiguration lib obj true = Ok modified →
  client_Get c (requests σ) (target mapping md) (string_at md "name") = (None, None) →
  ApplyUnstructured lib c restMapper u false σ
  = Panics (sent [ReqGet (target mapping md) (string_at md "name")]
              (written l (with_metadata m (defaulted mapping md)) σ)).
Proof.
  intros E Hmodified Hget. rewrite (ApplyUnstructured_run _ _ _ _ _ _ _ _ _ _ _ _ _ E).
  destruct E as [HObject Hcontents Hmetadata _ _ _ _].
  erewrite clientSide_nil;
    [|by apply contents_written|by apply metadata_of_with|done|
     by rewrite string_at_defaulted_other].
  by rewrite string_at_defaulted_other.
Qed.

Lemma missing_current_object_panics_witness :
  ApplyUnstructured Fixture.lib Cases.silent Fixture.mapper Fixture.held false
    (Fixture.holding Fixture.web)
  = Panics {| heap := {[ 1%positive := Fixture.web_defaulted ]};
              requests := [ReqGet (Fixture.pods "default") "web"] |}.
Proof.
  rewrite (missing_current_object_panics _ Cases.silent _ _ _ _ _ _ _ _ _ _
             (Fixture.text (JObj Fixture.web)) web_entry) by reflexivity.
  vm_compute. reflexivity.
Defined.

(** X10. When the get answers with the current object, [ApplyUnstructured]
    computes the patch from it and the modified configuration. A failure of
    [Patch] is returned as it is after the get alone. Otherwise the patch is
    sent with the type [Patch] chose and no options, and the client's answer
    is what [ApplyUnstructured] returns. In both cases the caller's object is
    defaulted and nothing else: it is not stamped. *)
Theorem patch_path lib c restMapper u σ l m md b obj gvk mapping modified live :
  mapped_entry lib restMapper u σ l m md b obj gvk mapping →
  util_GetModifiedConfiguration lib obj true = Ok modified →
  let dri := target mapping md in
  let name := string_at md "name" in
  let σ1 := written l (with_metadata m (defaulted mapping md)) σ in
  client_Get c (requests σ) dri name = (Some live, None) →
  ∃ r,
    (∀ σ0, Patch lib (Some live) modified name gvk σ0 = Returns r σ0)
    ∧ ApplyUnstructured lib c restMapper u false σ
      = match r with
        | Err err => Returns (None, Some err) (sent [ReqGet dri name] σ1)
        | Ok (patchBytes, patchType) =>
            Returns (client_Patch c (requests σ ++ [ReqGet dri name]) dri name patchType
                       patchBytes PatchOptions_zero)
              (sent [ReqGet dri name; ReqPatch dri name patchType patchBytes PatchOptions_zero]
                 σ1)
        end.
Proof.
  intros E Hmodified dri name σ1 Hget.
  destruct (Patch_pure lib live modified name gvk) as [r Hr]. exists r. split; [done|].
  rewrite (ApplyUnstructured_run _ _ _ _ _ _ _ _ _ _ _ _ _ E).
  destruct E as [HObject Hcontents Hmetadata _ _ _ _].
  erewrite clientSide_patch;
    [|by apply contents_written|by apply metadata_of_with|done|
     by rewrite string_at_defaulted_other].
  rewrite string_at_defaulted_other by done. fold name. rewrite Hr.
  by destruct r as [[??]|].
Qed.

Lemma db_entry :
  mapped_entry Fixture.lib Fixture.mapper Fixture.held (Fixture.holding Fixture.db)
    1%positive Fixture.db (default ∅ (metadata_of Fixture.db))
    (Fixture.text (JObj Fixture.db)) Fixture.db (GVK "" "v1" "Pod")
    {| Resource := GVR "" "v1" "Pod"; Scope := RESTScopeNameNamespace |}.
Proof. split; vm_compute; first [reflexivity | discriminate]. Qed.

Lemma patch_path_witness :
  ApplyUnstructured Fixture.lib Cases.serving Fixture.mapper Fixture.held false
    (Fixture.holding Fixture.db)
  = Returns (Some Fixture.db, None)
      {| heap := {[ 1%positive := Fixture.db ]};
         requests := [ReqGet (Fixture.pods "prod") "db";
                      ReqPatch (Fixture.pods "prod") "db" StrategicMergePatchType
                        (Fixture.text (JObj Fixture.db)) PatchOptions_zero] |}.
Proof.
  destruct (patch_path Fixture.lib Cases.serving Fixture.mapper Fixture.held _ _ _ _ _ _ _ _
              (Fixture.text (JObj Fixture.db)) Fixture.db db_entry eq_refl eq_refl)
    as (r & Hr & ->).
  specialize (Hr Fixture.empty).
  assert (r = Ok (Fixture.text (JObj Fixture.db), StrategicMergePatchType)) as ->.
  { revert Hr. vm_compute. congruence. }
  vm_compute. reflexivity.
Defined.

(** ** The batch (apply.go:44-88) *)

Lemma final_state_Returns {A} (r : Outcome A) a σ' : r = Returns a σ' → final_state r = σ'.
Proof. by intros ->. Qed.

(** An object returned by [ApplyUnstructured] is the one the client handed
    out in answer to the create or the patch that ended the run. *)
Lemma ApplyUnstructured_object_from_write lib c restMapper u ss σ object err σ' :
  ApplyUnstructured lib c restMapper u ss σ = Returns (Some object, err) σ' →
  ss = false
  ∧ ∃ rs r, requests σ' = (requests σ ++ rs ++ [r])%list
            ∧ is_write r = true
            ∧ answer c (requests σ ++ rs)%list r = (Some object, err).
Proof.
  intros Hrun.
  pose proof (ApplyUnstructured_outcome_run lib c restMapper u ss σ) as Hout.
  rewrite Hrun in Hout. inversion Hout; subst; try done.
  split; [done|].
  match goal with H : clientSide_outcome _ _ _ _ _ _ _ _ _ _ |- _ => inversion H end;
    subst; try done.
  - eexists [_], _. by split_and!.
  - eexists [_], _. by split_and!.
Qed.

Section Records.
Context (lib : Libraries) (o : applyOptions) (restMapper : RESTMapper).

Lemma Apply_range_step unstruct unstructList failed σ failed' σ' :
  Apply_range lib o restMapper (unstruct :: unstructList) failed σ = Returns failed' σ' →
  ∃ object err σ1,
    ApplyUnstructured lib (dynamicClient o) restMapper unstruct (serverSide o) σ
    = Returns (object, err) σ1
    ∧ match err with
      | None => Apply_range lib o restMapper unstructList failed σ1 = Returns failed' σ'
      | Some e =>
          ∃ live, object = Some live
                  ∧ Apply_range lib o restMapper unstructList
                      (failed ++ [record_of live e])%list σ1 = Returns failed' σ'
      end.
Proof.
  simpl. intros Hrun.
  destruct (ApplyUnstructured lib (dynamicClient o) restMapper unstruct (serverSide o) σ)
    as [[object err] σ1|] eqn:Hone.
  2:{ by rewrite (bind_Panics _ _ _ _ Hone) in Hrun. }
  rewrite (bind_Returns _ _ _ _ _ Hone) in Hrun.
  destruct err as [err|], object as [live|]; revert Hrun; mnorm; intros Hrun.
  - eexists _, _, _. split; [done|]. by eexists.
  - by rewrite (bind_Panics _ _ σ1 σ1) in Hrun.
  - by eexists _, _, _.
  - by eexists _, _, _.
Qed.

Lemma Apply_range_records unstructList :
  ∀ failed σ failed' σ',
    Apply_range lib o restMapper unstructList failed σ = Returns failed' σ' →
    ∃ new,
      failed' = (failed ++ new)%list
      ∧ (length new ≤ length unstructList)%nat
      ∧ requests σ `prefix_of` requests σ'
      ∧ Forall (recorded (dynamicClient o) (requests σ')) new
      ∧ (serverSide o = true → new = []).
Proof.
  induction unstructList as [|unstruct unstructList IH]; intros failed σ failed' σ' Hrun.
  - injection Hrun as <- <-. exists []. rewrite app_nil_r. by split_and!.
  - apply Apply_range_step in Hrun as (object & err & σ1 & Hone & Hrest).
    assert (Hlog : requests σ `prefix_of` requests σ1).
    { destruct (ApplyUnstructured_effect lib (dynamicClient o) restMapper unstruct
                  (serverSide o) σ) as [Hσ|(? & ? & ? & ? & ? & ? & ? & ? & rs & _ & Hσ & _)];
        rewrite (final_state_Returns _ _ _ Hone) in Hσ; subst σ1; [done|].
      simpl. by apply prefix_app_r. }
    destruct err as [e|].
    + destruct Hrest as (live & -> & Hrest).
      destruct (IH _ _ _ _ Hrest) as (new & -> & Hlen & Hpre & Hrec & Hss).
      destruct (ApplyUnstructured_object_from_write _ _ _ _ _ _ _ _ _ Hone)
        as (Hmode & rs & r & Hreq & Hwrite & Hanswer).
      exists (record_of live e :: new). split_and!.
      * by rewrite <-app_assoc.
      * simpl. lia.
      * by etrans.
      * constructor; [|done]. exists (requests σ ++ rs)%list, r, live, e.
        split_and!; [|done..]. by rewrite <-app_assoc, <-Hreq.
      * intros Hss'. by rewrite Hss' in Hmode.
    + destruct (IH _ _ _ _ Hrest) as (new & -> & Hlen & Hpre & Hrec & Hss).
      exists new. split_and!; [done|simpl; lia|by etrans|done|done].
Qed.

(** The requests of a pass over the objects, whatever its outcome. *)
Lemma Apply_range_requests unstructList :
  ∀ failed σ,
    ∃ rs,
      requests (final_state (Apply_range lib o restMapper unstructList failed σ))
      = (requests σ ++ rs)%list
      ∧ Forall (λ r, apply_patch_request r = serverSide o) rs
      ∧ (length rs ≤ 2 * length unstructList)%nat.
Proof.
  induction unstructList as [|unstruct unstructList IH]; intros failed σ.
  - exists []. simpl. rewrite app_nil_r. by split_and!.
  - assert (∃ rs1, requests (final_state
                      (ApplyUnstructured lib (dynamicClient o) restMapper unstruct
                         (serverSide o) σ)) = (requests σ ++ rs1)%list
                   ∧ Forall (λ r, apply_patch_request r = serverSide o) rs1
                   ∧ (length rs1 ≤ 2)%nat) as (rs1 & Hrs1 & Hmode1 & Hlen1).
    { destruct (ApplyUnstructured_effect lib (dynamicClient o) restMapper unstruct
                  (serverSide o) σ)
        as [->|(? & ? & ? & ? & ? & ? & ? & ? & rs & _ & -> & _ & Hrs)].
      - exists []. rewrite app_nil_r. split_and!; [done|constructor|simpl; lia].
      - exists rs. by destruct (run_requests_mode _ _ _ Hrs). }
    simpl.
    destruct (ApplyUnstructured lib (dynamicClient o) restMapper unstruct (serverSide o) σ)
      as [[object err] σ1|σ1] eqn:Hone; simpl in Hrs1.
    2:{ rewrite (bind_Panics _ _ _ _ Hone). exists rs1. split_and!; [done..|simpl; lia]. }
    rewrite (bind_Returns _ _ _ _ _ Hone).
    assert (Hnext : ∀ failed1,
              ∃ rs, requests (final_state (Apply_range lib o restMapper unstructList failed1 σ1))
                    = (requests σ ++ rs)%list
                    ∧ Forall (λ r, apply_patch_request r = serverSide o) rs
                    ∧ (length rs ≤ 2 * S (length unstructList))%nat).
    { intros failed1. destruct (IH failed1 σ1) as (rs & -> & Hmode & Hlen).
      exists (rs1 ++ rs)%list. rewrite Hrs1, <-app_assoc. split_and!; [done| |].
      - by apply Forall_app.
      - rewrite length_app. lia. }
    destruct err as [e|], object as [live|]; mnorm; try apply Hnext.
    rewrite (bind_Panics _ _ σ1 σ1) by done.
    exists rs1. split_and!; [done..|simpl; lia].
Qed.
End Records.

Lemma Apply_requests lib o data σ :
  ∃ rs,
    requests (final_state (Apply lib o data σ)) = (requests σ ++ rs)%list
    ∧ Forall (λ r, apply_patch_request r = serverSide o) rs.
Proof.
  unfold Apply. destruct (ToRESTMapper o) as [restMapper|err].
  2:{ exists []. simpl. by rewrite app_nil_r. }
  destruct (Decode_returns lib data σ) as (unstructList & err & σ1 & HDecode & Hlog).
  rewrite (bind_Returns _ _ _ _ _ HDecode).
  destruct err as [err|].
  { exists []. simpl. by rewrite app_nil_r. }
  destruct (Apply_range_requests lib o restMapper unstructList [] σ1)
    as (rs & Hrs & Hmode & _).
  exists rs. rewrite <-Hlog. split; [|done]. rewrite <-Hrs.
  by destruct (Apply_range lib o restMapper unstructList [] σ1) as [failed σ2|σ2] eqn:Hrange;
    [rewrite (bind_Returns _ _ _ _ _ Hrange)|rewrite (bind_Panics _ _ _ _ Hrange)].
Qed.

(** X11. Every record [Apply] returns describes a create or a patch that the
    client answered with both an object and an error: its name and kind are
    read from that object and its message is that error's. In server-side
    mode [Apply] returns no record, whatever the client. The request log is
    only appended to. *)
Theorem Apply_failure_records lib o data σ failed err σ' :
  Apply lib o data σ = Returns (failed, err) σ' →
  Forall (recorded (dynamicClient o) (requests σ')) failed
  ∧ (serverSide o = true → failed = [])
  ∧ requests σ `prefix_of` requests σ'.
Proof.
  unfold Apply. destruct (ToRESTMapper o) as [restMapper|e].
  2:{ by intros [= <- <- <-]. }
  destruct (Decode_returns lib data σ) as (unstructList & derr & σ1 & HDecode & Hlog).
  rewrite (bind_Returns _ _ _ _ _ HDecode). rewrite <-Hlog.
  destruct derr as [e|].
  { intros [= <- <- <-]. by rewrite Hlog. }
  destruct (Apply_range lib o restMapper unstructList [] σ1) as [failed' σ2|σ2] eqn:Hrange.
  2:{ by rewrite (bind_Panics _ _ _ _ Hrange). }
  rewrite (bind_Returns _ _ _ _ _ Hrange). intros [= <- <- <-].
  by destruct (Apply_range_records lib o restMapper _ _ _ _ _ Hrange)
    as (new & -> & _ & Hpre & Hrec & Hss).
Qed.

Lemma Apply_failure_records_witness :
  ∃ σ',
    Apply Fixture.lib (NewApplyOptions Cases.chatty Fixture.discovery)
      (Fixture.manifest [Fixture.web; Fixture.db]) Fixture.empty
    = Returns ([{| Name := "web"; Kind := "Pod"; ErrMessage := "already exists" |};
                {| Name := "db"; Kind := "Pod"; ErrMessage := "already exists" |}], None) σ'
    ∧ length (requests σ') = 4.
Proof.
  assert (Hrun : ∀ r, r = Apply Fixture.lib (NewApplyOptions Cases.chatty Fixture.discovery)
                        (Fixture.manifest [Fixture.web; Fixture.db]) Fixture.empty →
                      ∃ σ', r = Returns
                        ([{| Name := "web"; Kind := "Pod"; ErrMessage := "already exists" |};
                          {| Name := "db"; Kind := "Pod"; ErrMessage := "already exists" |}],
                         None) σ' ∧ length (requests σ') = 4).
  { intros r ->. vm_compute. eexists. split; reflexivity. }
  destruct (Hrun _ eq_refl) as (σ' & Hσ' & Hlen).
  destruct (Apply_failure_records _ _ _ _ _ _ _ Hσ') as (_ & _ & _).
  exists σ'. split; [exact Hσ'|exact Hlen].
Defined.

(** X12. Every request [Apply] sends, whatever its outcome, is of the mode of
    its options: an apply patch in server-side mode, and never one
    otherwise. *)
Theorem Apply_requests_follow_mode lib o data σ :
  ∃ rs,
    requests (final_state (Apply lib o data σ)) = (requests σ ++ rs)%list
    ∧ Forall (λ r, apply_patch_request r = serverSide o) rs.
Proof. apply Apply_requests. Qed.

(** X13. Options made by [NewApplyOptions] apply in client-side mode: they send
    no apply patch. [WithServerSide] changes the mode and nothing else: the
    clients are those the options were made with. *)
Theorem NewApplyOptions_client_side lib dynamicClient discoveryClient data σ :
  let o := NewApplyOptions dynamicClient discoveryClient in
  (∃ rs, requests (final_state (Apply lib o data σ)) = (requests σ ++ rs)%list
         ∧ Forall (λ r, apply_patch_request r = false) rs)
  ∧ (∃ rs, requests (final_state (Apply lib (WithServerSide o true) data σ))
           = (requests σ ++ rs)%list
           ∧ Forall (λ r, apply_patch_request r = true) rs)
  ∧ Apply lib (WithServerSide o false) data σ = Apply lib o data σ.
Proof.
  intros o. split_and!.
  - apply (Apply_requests lib o).
  - apply (Apply_requests lib (WithServerSide o true)).
  - done.
Qed.

(** X14. On a stream with no document [Apply] returns no record and no error,
    and does nothing. *)
Theorem Apply_empty_stream lib o data σ restMapper :
  ToRESTMapper o = Ok restMapper →
  yaml_documents lib data = [] →
  Apply lib o data σ = Returns ([], None) σ.
Proof.
  intros Hmapper Hdocs. unfold Apply, Decode. by rewrite Hmapper, Hdocs.
Qed.

Lemma Apply_empty_stream_witness :
  Apply Fixture.lib Fixture.options "" Fixture.empty = Returns ([], None) Fixture.empty.
Proof. by apply (Apply_empty_stream _ _ _ _ Fixture.mapper). Defined.

(** ** The decoder on well-formed streams (apply.go:90-124) *)

(** X15. When every document of the stream is well formed, [Decode] returns one
    object per document, in the order of the stream and holding the
    document's content, with a nil error; it sends nothing and leaves the
    maps already in the store as they were. *)
Theorem Decode_well_formed_stream lib data σ docs contents_ :
  yaml_documents lib data = docs →
  Forall2 (λ d content, decode_document lib d = Some content) docs contents_ →
  ∃ unstructList σ',
    Decode lib data σ = Returns (unstructList, None) σ'
    ∧ Forall2 (λ u content, contents u σ' = Some content) unstructList contents_
    ∧ requests σ' = requests σ
    ∧ heap σ ⊆ heap σ'.
Proof.
  intros <- Hdocs.
  destruct (Decode_loop_prefix lib _ _ Hdocs [] [] 1 σ)
    as (news & σ' & Hloop & Hnews & Hlog & Hheap).
  exists news, σ'. split_and!; [|done..].
  unfold Decode. rewrite app_nil_r in Hloop. simpl in Hloop.
  by rewrite (bind_Returns _ _ _ _ _ Hloop).
Qed.

Lemma Decode_well_formed_stream_witness :
  ∃ unstructList σ',
    Decode Fixture.lib Fixture.three_documents (Fixture.holding Fixture.cfg)
    = Returns (unstructList, None) σ'
    ∧ Forall2 (λ u content, contents u σ' = Some content) unstructList
        [Fixture.web; Fixture.gen; Fixture.db]
    ∧ contents Fixture.held σ' = Some Fixture.cfg.
Proof.
  destruct (Decode_well_formed_stream Fixture.lib Fixture.three_documents
              (Fixture.holding Fixture.cfg)
              [Ok (Fixture.text (JObj Fixture.web)); Ok (Fixture.text (JObj Fixture.gen));
               Ok (Fixture.text (JObj Fixture.db))]
              [Fixture.web; Fixture.gen; Fixture.db])
    as (unstructList & σ' & Hrun & Hcontents & _ & Hheap).
  { vm_compute. reflexivity. }
  { repeat (constructor; [vm_compute; reflexivity|]). constructor. }
  exists unstructList, σ'. split_and!; [done..|].
  unfold contents. simpl. eapply lookup_weaken; [|exact Hheap]. reflexivity.
Defined.




(** ** Conversion to unstructured objects (apply.go:265-287) *)

Lemma foldl_snoc {A} (l acc : list A) :
  foldl (λ (list : list A) u, (list ++ [u])%list) acc l = (acc ++ l)%list.
Proof.
  revert acc. induction l as [|x l IH]; intros acc; simpl.
  - by rewrite app_nil_r.
  - by rewrite IH, <-app_assoc.
Qed.

Section ConversionProperties.
Context {V : Type}.
Context (meta_IsListType : RuntimeObject V → bool).
Context (runtime_ToUnstructured : RuntimeObject V → result (gmap string JSON)).

(** X17. For a list of unstructured objects [ObjectToUnstructured] returns the
    items of the list, in their order and sharing their maps; it consults no
    converter and changes nothing. *)
Theorem ObjectToUnstructured_list Items σ :
  meta_IsListType (UnstructuredListPointer (Some Items)) = true →
  ObjectToUnstructured meta_IsListType runtime_ToUnstructured
    (UnstructuredListPointer (Some Items)) σ
  = Returns (Ok Items) σ.
Proof.
  intros Hlist. unfold ObjectToUnstructured. rewrite Hlist.
  by rewrite foldl_snoc.
Qed.


(** X19. An object that counts as a list and is not a list of unstructured
    objects is refused, and a nil pointer to such a list makes
    [ObjectToUnstructured] panic at line 272; the converter is not asked in
    either case. *)
Theorem ObjectToUnstructured_other_list σ :
  (∀ v, meta_IsListType (OtherObject v) = true →
        ObjectToUnstructured meta_IsListType runtime_ToUnstructured (OtherObject v) σ
        = Returns (Err (errorString "unable to convert runtime object to list")) σ)
  ∧ (meta_IsListType (UnstructuredListPointer None) = true →
     ObjectToUnstructured meta_IsListType runtime_ToUnstructured (UnstructuredListPointer None) σ
     = Panics σ).
Proof.
  split.
  - intros v Hlist. unfold ObjectToUnstructured. by rewrite Hlist.
  - intros Hlist. unfold ObjectToUnstructured. by rewrite Hlist.
Qed.
End ConversionProperties.

Lemma ObjectToUnstructured_list_witness :
  ObjectToUnstructured Cases.is_list Cases.convert
    (UnstructuredListPointer (Some [Fixture.first; Fixture.second; Fixture.first]))
    Fixture.decoded
  = Returns (Ok [Fixture.first; Fixture.second; Fixture.first]) Fixture.decoded.
Proof. by apply ObjectToUnstructured_list. Defined.


Lemma ObjectToUnstructured_other_list_witness :
  ObjectToUnstructured Cases.is_list Cases.convert
    (OtherObject {[ "items" := JArr [JObj Fixture.web] ]}) Fixture.empty
  = Returns (Err (errorString "unable to convert runtime object to list")) Fixture.empty
  ∧ ObjectToUnstructured Cases.is_list Cases.convert (UnstructuredListPointer None)
      Fixture.empty
    = Panics Fixture.empty.
Proof.
  destruct (ObjectToUnstructured_other_list Cases.is_list Cases.convert Fixture.empty)
    as [Hother Hnil].
  split; [by apply Hother|by apply Hnil].
Defined.
